(** * HaveYouWatched: the recommendation scoring engine

    A shallow embedding of the scoring code of the app
    (lib/reco.ts, lib/aggregates.ts, lib/homePicks.ts) together with the
    properties its design document states about it.

    Conventions of the embedding.
    - A JavaScript [number] is an exact rational ([Q]); equalities between
      computed numbers are stated with [==] ([Qeq]).  Ratings are entered
      through integer sliders (0..10), so the inputs are integers in practice;
      the rounding of IEEE doubles is not part of the embedding.
    - A JavaScript [Map] is an association list kept in insertion order with
      pairwise distinct keys ([JsMap]); [set] on a present key keeps its place.
    - A [Set<string>] is a list of strings used through membership only.
    - A timestamp ([created_at], [new Date()]) is its time value, the number
      of milliseconds since the epoch, an integer; a request reads the clock
      once ([now]).
    - The rows returned by the backend are arguments of the functions; a
      failed read is [None], a thrown error the left summand of the result. *)

From Stdlib Require Import List String Bool Arith ZArith QArith Qabs Qround.
From Stdlib Require Import Permutation Sorted Lia Lqa DecimalString.
Import ListNotations.

Open Scope Q_scope.

(** ** JavaScript numbers *)

Definition Math_max (a b : Q) : Q := if Qle_bool a b then b else a.
Definition Math_min (a b : Q) : Q := if Qle_bool a b then a else b.

(** [Math.round]: the nearest integer, halves rounded up. *)
Definition Math_round (x : Q) : Z := Qfloor (x + (1 # 2)).

(** [Number(n)] for a length or a count. *)
Definition of_nat (n : nat) : Q := inject_Z (Z.of_nat n).

(** [array.reduce((sum, x) => sum + f x, 0)]. *)
Definition reduce_sum {A : Type} (f : A -> Q) (l : list A) : Q :=
  fold_left (fun sum x => sum + f x) l 0.

(** ** Insertion-ordered maps with string keys *)

Module JsMap.
Section Ops.
Context {V : Type}.

Definition t := list (string * V).

Definition empty : t := [].

Fixpoint get (m : t) (k : string) : option V :=
  match m with
  | [] => None
  | (k', v) :: m' => if String.eqb k' k then Some v else get m' k
  end.

Definition has (m : t) (k : string) : bool :=
  match get m k with Some _ => true | None => false end.

Fixpoint set (m : t) (k : string) (v : V) : t :=
  match m with
  | [] => [(k, v)]
  | (k', v') :: m' =>
      if String.eqb k' k then (k', v) :: m' else (k', v') :: set m' k v
  end.

Definition keys (m : t) : list string := map fst m.
Definition values (m : t) : list V := map snd m.

(** [new Map(entries)] *)
Definition of_entries (l : list (string * V)) : t :=
  fold_left (fun m kv => set m (fst kv) (snd kv)) l empty.

(** The keys of a [Map] are pairwise distinct. *)
Definition wf (m : t) : Prop := NoDup (keys m).
End Ops.
Arguments t : clear implicits.
End JsMap.

(** [set.has(x)] on a [Set<string>]. *)
Definition Set_has (s : list string) (x : string) : bool :=
  existsb (String.eqb x) s.

(** ** lib/reco.ts *)

Inductive DeckMode := tonight | this_weekend.

(** [map.get(k)!] on a map of numbers; the lookups of the code below are
    made on keys known to be present. *)
Definition get_num (m : JsMap.t Q) (k : string) : Q :=
  match JsMap.get m k with Some v => v | None => 0 end.

Definition sharedShows (userRatings otherRatings : JsMap.t Q) : list string :=
  filter (fun showId => JsMap.has otherRatings showId) (JsMap.keys userRatings).

Definition calculateSimilarity (userRatings otherRatings : JsMap.t Q) : Q :=
  let shared := sharedShows userRatings otherRatings in
  if (List.length shared <? 3)%nat then 3 # 10
  else
    let totalDiff :=
      fold_left
        (fun totalDiff showId =>
           let userEnjoyment := get_num userRatings showId in
           let otherEnjoyment := get_num otherRatings showId in
           totalDiff + Qabs (userEnjoyment - otherEnjoyment))
        shared 0 in
    let avgDiff := totalDiff / of_nat (List.length shared) in
    let similarity := 1 - avgDiff / 10 in
    Math_max 0 (Math_min 1 similarity).

Definition MS_PER_DAY : Z := (1000 * 60 * 60 * 24)%Z.

(** [Math.floor((now - ratingDate) / MS_PER_DAY)] *)
Definition daysDiff (now createdAt : Z) : Z := ((now - createdAt) / MS_PER_DAY)%Z.

Definition getRecencyMultiplier (now createdAt : Z) (mode : DeckMode) : Q :=
  let d := daysDiff now createdAt in
  match mode with
  | tonight =>
      if (d <? 30)%Z then 13 # 10
      else if (d <=? 180)%Z then 1
      else 8 # 10
  | this_weekend =>
      if (d <? 30)%Z then 11 # 10
      else if (d <=? 180)%Z then 1
      else 8 # 10
  end.

Module Rating.
Record t := mk {
  user_id : string;
  show_id : string;
  enjoyment : Q;
  hook : option Q;
  consistency : option Q;
  payoff : option Q;
  heat : option Q;
  tags : option (list string);
  created_at : Z
}.
End Rating.

Module Profile.
Record t := mk { id : string; username : string }.
End Profile.

Module Follow.
Record t := mk { follower_id : string; followee_id : string }.
End Follow.

Module Show.
Record t := mk { id : string; title : string; poster_path : option string }.
End Show.

Module ShowRecommendation.
Record t := mk {
  show_id : string;
  title : string;
  poster_path : option string;
  score : Q;
  explanation : string;
  tags : list string
}.
End ShowRecommendation.

(** The entries of the per-show arrays of [showRatings]. *)
Module ShowRating.
Record t := mk {
  user_id : string;
  enjoyment : Q;
  hook : option Q;
  consistency : option Q;
  payoff : option Q;
  heat : option Q;
  tags : option (list string);
  created_at : Z;
  similarity : Q;
  isFollowed : bool
}.
End ShowRating.

Module Contributor.
Record t := mk {
  user_id : string;
  username : string;
  weight : Q;
  similarity : Q;
  isFollowed : bool
}.
End Contributor.

(** [x || 0] on an optional number. *)
Definition or_zero (x : option Q) : Q :=
  match x with Some v => v | None => 0 end.

(** [x && x >= 7] on an optional number: present, not zero, at least 7. *)
Definition truthy_ge_7 (x : option Q) : bool :=
  match x with
  | Some v => negb (Qeq_bool v 0) && Qle_bool 7 v
  | None => false
  end.

(** [tags?.includes(tag)] *)
Definition includes (tags : option (list string)) (tag : string) : bool :=
  match tags with
  | Some l => existsb (String.eqb tag) l
  | None => false
  end.

Definition applyDeckModeMultiplier
    (score : Q) (mode : DeckMode) (rating : Rating.t)
    (showTags : option (list string)) : Q :=
  match mode with
  | tonight =>
      let multiplier := 1 in
      let multiplier :=
        if truthy_ge_7 (Rating.hook rating) then multiplier + (1 # 10)
        else multiplier in
      let multiplier :=
        if Qle_bool 7 (Rating.enjoyment rating) then multiplier + (1 # 10)
        else multiplier in
      let multiplier :=
        if includes showTags "easy watch" then multiplier + (15 # 100)
        else multiplier in
      score * multiplier
  | this_weekend =>
      let multiplier := 1 in
      let multiplier :=
        if truthy_ge_7 (Rating.payoff rating) then multiplier + (1 # 10)
        else multiplier in
      let multiplier :=
        if truthy_ge_7 (Rating.consistency rating) then multiplier + (1 # 10)
        else multiplier in
      score * multiplier
  end.

(** [array.sort((a, b) => key b - key a)]: the stable sort by decreasing
    key (insertion sort; the outcome of a stable sort does not depend on the
    algorithm). *)
Fixpoint insert_desc {A : Type} (key : A -> Q) (x : A) (l : list A) : list A :=
  match l with
  | [] => [x]
  | y :: l' =>
      if Qle_bool (key y) (key x) then x :: y :: l'
      else y :: insert_desc key x l'
  end.

Definition sort_desc {A : Type} (key : A -> Q) (l : list A) : list A :=
  fold_right (insert_desc key) [] l.

Definition digit (n : Z) : string :=
  String (Ascii.ascii_of_nat (48 + Z.to_nat n)) EmptyString.

(** [x.toFixed(2)] for [0 <= x]. *)
Definition toFixed2 (x : Q) : string :=
  let n := Qfloor (x * 100 + (1 # 2)) in
  (NilZero.string_of_uint (N.to_uint (Z.to_N (n / 100)))
   ++ "." ++ digit ((n mod 100) / 10) ++ digit (n mod 10))%string.

(** [if (!map.has(k)) map.set(k, []); map.get(k)!.push(x)] *)
Definition push_at {A : Type} (m : JsMap.t (list A)) (k : string) (x : A)
  : JsMap.t (list A) :=
  let m := if JsMap.has m k then m else JsMap.set m k [] in
  match JsMap.get m k with
  | Some arr => JsMap.set m k (arr ++ [x])
  | None => m
  end.

(** The weight of one contributing rating:
    [(baseWeight + followBonus) * recencyMultiplier], where "now" is the
    clock reading of the request. *)
Definition ratingWeight (now : Z) (mode : DeckMode) (rating : ShowRating.t) : Q :=
  let recencyMultiplier :=
    getRecencyMultiplier now (ShowRating.created_at rating) mode in
  let baseWeight := ShowRating.similarity rating * (7 # 10) in
  let followBonus := if ShowRating.isFollowed rating then 3 # 10 else 0 in
  (baseWeight + followBonus) * recencyMultiplier.

(** The three accumulators of the inner loop over the ratings of a show. *)
Record Accum := mkAccum {
  weightedSum : Q;
  totalWeight : Q;
  contributors : list Contributor.t
}.

Definition accumulate (now : Z) (mode : DeckMode)
    (profilesMap : JsMap.t Profile.t) (acc : Accum) (rating : ShowRating.t)
  : Accum :=
  let weight := ratingWeight now mode rating in
  {| weightedSum := weightedSum acc + ShowRating.enjoyment rating * weight;
     totalWeight := totalWeight acc + weight;
     contributors :=
       match JsMap.get profilesMap (ShowRating.user_id rating) with
       | Some profile =>
           contributors acc ++
           [ {| Contributor.user_id := ShowRating.user_id rating;
                Contributor.username := Profile.username profile;
                Contributor.weight := weight;
                Contributor.similarity := ShowRating.similarity rating;
                Contributor.isFollowed := ShowRating.isFollowed rating |} ]
       | None => contributors acc
       end |}.

Definition accumulated (now : Z) (mode : DeckMode)
    (profilesMap : JsMap.t Profile.t) (ratings : list ShowRating.t) : Accum :=
  fold_left (accumulate now mode profilesMap) ratings
            {| weightedSum := 0; totalWeight := 0; contributors := [] |}.

Definition baseScore (acc : Accum) : Q := weightedSum acc / totalWeight acc.

(** [ratings.find((r) => r.tags && r.tags.length > 0)?.tags || []] *)
Definition firstTags (ratings : list ShowRating.t) : list string :=
  match
    find (fun r => match ShowRating.tags r with
                   | Some (_ :: _) => true
                   | _ => false
                   end) ratings
  with
  | Some r => match ShowRating.tags r with Some l => l | None => [] end
  | None => []
  end.

Definition avgOf (f : ShowRating.t -> option Q) (ratings : list ShowRating.t) : Q :=
  reduce_sum (fun r => or_zero (f r)) ratings / of_nat (List.length ratings).

Definition avgRating (showId : string) (base : Q) (ratings : list ShowRating.t)
  : Rating.t :=
  {| Rating.user_id := "";
     Rating.show_id := showId;
     Rating.enjoyment := base;
     Rating.hook := Some (avgOf ShowRating.hook ratings);
     Rating.consistency := Some (avgOf ShowRating.consistency ratings);
     Rating.payoff := Some (avgOf ShowRating.payoff ratings);
     Rating.heat := Some (avgOf ShowRating.heat ratings);
     Rating.tags := Some (firstTags ratings);
     Rating.created_at :=
       match ratings with r :: _ => ShowRating.created_at r | [] => 0%Z end |}.

Definition clampedScore (mode : DeckMode) (avg : Rating.t) (base : Q) : Q :=
  let finalScore := applyDeckModeMultiplier base mode avg (Rating.tags avg) in
  Math_max 0 (Math_min 10 finalScore).

Definition explanationPart (contributor : Contributor.t) : string :=
  (if Contributor.isFollowed contributor
   then "You follow @" ++ Contributor.username contributor ++ " • align "
        ++ toFixed2 (Contributor.similarity contributor)
   else "@" ++ Contributor.username contributor ++ " • align "
        ++ toFixed2 (Contributor.similarity contributor))%string.

Definition explain (contributors : list Contributor.t) : string :=
  let topContributors := firstn 2 (sort_desc Contributor.weight contributors) in
  match topContributors with
  | [] => "Based on similar users"%string
  | _ => String.concat " • " (map explanationPart topContributors)
  end.

(** The body of [showRatings.forEach((ratings, showId) => ...)]: the
    recommendation pushed for one show, or [None] when the body returns
    without pushing. *)
Definition scoreShow (now : Z) (mode : DeckMode)
    (profilesMap : JsMap.t Profile.t) (showsMap : JsMap.t Show.t)
    (showId : string) (ratings : list ShowRating.t)
  : option ShowRecommendation.t :=
  if (List.length ratings <? 2)%nat then None
  else
    let acc := accumulated now mode profilesMap ratings in
    if Qeq_bool (totalWeight acc) 0 then None
    else
      let base := baseScore acc in
      let avg := avgRating showId base ratings in
      match JsMap.get showsMap showId with
      | Some show =>
          Some {| ShowRecommendation.show_id := showId;
                  ShowRecommendation.title := Show.title show;
                  ShowRecommendation.poster_path := Show.poster_path show;
                  ShowRecommendation.score := clampedScore mode avg base;
                  ShowRecommendation.explanation := explain (contributors acc);
                  ShowRecommendation.tags :=
                    match Rating.tags avg with Some l => l | None => [] end |}
      | None => None
      end.

(** The four reads of [getPersonalizedRecommendations]; [None] is a read
    that came back with an error or without data. *)
Record Reads := mkReads {
  read_ratings : option (list Rating.t);
  read_profiles : option (list Profile.t);
  read_follows : option (list Follow.t);
  read_shows : option (list Show.t)
}.

Inductive Error :=
| Failed_to_fetch_ratings
| Failed_to_fetch_profiles
| Failed_to_fetch_shows.

Definition enjoymentMap (ratings : list Rating.t) : JsMap.t Q :=
  JsMap.of_entries (map (fun r => (Rating.show_id r, Rating.enjoyment r)) ratings).

Definition userRatingsOf (userId : string) (allRatings : list Rating.t)
  : list Rating.t :=
  filter (fun r => String.eqb (Rating.user_id r) userId) allRatings.

(** Group ratings by user, the current user skipped. *)
Definition groupByUser (userId : string) (allRatings : list Rating.t)
  : JsMap.t (list Rating.t) :=
  fold_left
    (fun groups rating =>
       if String.eqb (Rating.user_id rating) userId then groups
       else push_at groups (Rating.user_id rating) rating)
    allRatings JsMap.empty.

Definition similaritiesOf (userRatingsMap : JsMap.t Q)
    (userRatingsGroups : JsMap.t (list Rating.t)) : JsMap.t Q :=
  fold_left
    (fun similarities entry =>
       let otherUserId := fst entry in
       let otherRatingsMap := enjoymentMap (snd entry) in
       let similarity := calculateSimilarity userRatingsMap otherRatingsMap in
       JsMap.set similarities otherUserId similarity)
    userRatingsGroups JsMap.empty.

Definition toShowRating (rating : Rating.t) (similarity : Q)
    (followedSet : list string) : ShowRating.t :=
  {| ShowRating.user_id := Rating.user_id rating;
     ShowRating.enjoyment := Rating.enjoyment rating;
     ShowRating.hook := Rating.hook rating;
     ShowRating.consistency := Rating.consistency rating;
     ShowRating.payoff := Rating.payoff rating;
     ShowRating.heat := Rating.heat rating;
     ShowRating.tags := Rating.tags rating;
     ShowRating.created_at := Rating.created_at rating;
     ShowRating.similarity := similarity;
     ShowRating.isFollowed := Set_has followedSet (Rating.user_id rating) |}.

(** Group ratings by show: the current user's own ratings, the shows they
    rated, the excluded shows and the raters of similarity 0 are skipped. *)
Definition groupByShow (userId : string) (userShowIds excludeShowIds : list string)
    (similarities : JsMap.t Q) (followedSet : list string)
    (allRatings : list Rating.t) : JsMap.t (list ShowRating.t) :=
  fold_left
    (fun showRatings rating =>
       if String.eqb (Rating.user_id rating) userId then showRatings
       else if Set_has userShowIds (Rating.show_id rating) then showRatings
       else if Set_has excludeShowIds (Rating.show_id rating) then showRatings
       else
         let similarity :=
           or_zero (JsMap.get similarities (Rating.user_id rating)) in
         if Qeq_bool similarity 0 then showRatings
         else
           push_at showRatings (Rating.show_id rating)
                   (toShowRating rating similarity followedSet))
    allRatings JsMap.empty.

(** The [showRatings] map of a request: the contributing ratings of each
    candidate show. *)
Definition showRatingsOf (userId : string) (excludeShowIds : list string)
    (allRatings : list Rating.t) (followedSet : list string)
  : JsMap.t (list ShowRating.t) :=
  let userRatings := userRatingsOf userId allRatings in
  let userRatingsMap := enjoymentMap userRatings in
  let userRatingsGroups := groupByUser userId allRatings in
  let similarities := similaritiesOf userRatingsMap userRatingsGroups in
  let userShowIds := map Rating.show_id userRatings in
  groupByShow userId userShowIds excludeShowIds similarities followedSet
              allRatings.

(** The computation made once the reads have succeeded. *)
Definition recommend (now : Z) (userId : string) (mode : DeckMode)
    (excludeShowIds : list string)
    (allRatings : list Rating.t) (profiles : list Profile.t)
    (followedSet : list string) (shows : list Show.t)
  : list ShowRecommendation.t :=
  let showsMap := JsMap.of_entries (map (fun s => (Show.id s, s)) shows) in
  let profilesMap := JsMap.of_entries (map (fun p => (Profile.id p, p)) profiles) in
  let userRatings := userRatingsOf userId allRatings in
  if (List.length userRatings <? 3)%nat then []
  else
    let showRatings :=
      showRatingsOf userId excludeShowIds allRatings followedSet in
    let recommendations :=
      fold_left
        (fun recommendations entry =>
           match scoreShow now mode profilesMap showsMap (fst entry) (snd entry) with
           | Some rec => recommendations ++ [rec]
           | None => recommendations
           end)
        showRatings [] in
    sort_desc ShowRecommendation.score recommendations.

Definition getPersonalizedRecommendations (reads : Reads) (now : Z)
    (userId : string) (mode : DeckMode) (excludeShowIds : list string)
  : Error + list ShowRecommendation.t :=
  match read_ratings reads with
  | None => inl Failed_to_fetch_ratings
  | Some allRatings =>
      match read_profiles reads with
      | None => inl Failed_to_fetch_profiles
      | Some profiles =>
          let followedSet :=
            match read_follows reads with
            | Some follows => map Follow.followee_id follows
            | None => []
            end in
          match read_shows reads with
          | None => inl Failed_to_fetch_shows
          | Some shows =>
              inr (recommend now userId mode excludeShowIds
                             allRatings profiles followedSet shows)
          end
      end
  end.

(** ** lib/aggregates.ts *)

Module RecommendRow.
Record t := mk { recommend : option bool }.
End RecommendRow.

Module RecommendStats.
Record t := mk { total : nat; positive : nat; percent : option Z }.
End RecommendStats.

Definition isValid (r : RecommendRow.t) : bool :=
  match RecommendRow.recommend r with Some _ => true | None => false end.

Definition isPositive (r : RecommendRow.t) : bool :=
  match RecommendRow.recommend r with Some true => true | _ => false end.

Definition computeRecommendStats (ratings : list RecommendRow.t)
  : RecommendStats.t :=
  let validRatings := filter isValid ratings in
  let total := List.length validRatings in
  let positive := List.length (filter isPositive validRatings) in
  let percent :=
    if (0 <? total)%nat
    then Some (Math_round (of_nat positive / of_nat total * 100))
    else None in
  {| RecommendStats.total := total;
     RecommendStats.positive := positive;
     RecommendStats.percent := percent |}.

(** ** lib/homePicks.ts *)

Module HomePick.
Record t := mk {
  show_id : string;
  title : string;
  poster_path : option string;
  score : Q;
  followingPercent : option Z;
  overallPercent : option Z;
  explanation : string;
  tags : list string
}.
End HomePick.

Inductive WatchActionKind := saved | watched | dismissed | not_for_me.

Module WatchAction.
Record t := mk { show_id : string; action : WatchActionKind; created_at : Z }.
End WatchAction.

Module TMDBShow.
Record t := mk {
  id : Z;
  title : option string;
  name : option string;
  overview : string;
  poster_path : option string;
  release_date : option string;
  first_air_date : option string
}.
End TMDBShow.

Module ShowData.
Record t := mk {
  id : string;
  title : string;
  poster_path : option string;
  overview : string;
  first_air_date : option string
}.
End ShowData.

(** The reads of [getHomePicks].  [None] for the first two and for the
    trending catalogue is a thrown error, for the others a null result. *)
Record HomeReads := mkHomeReads {
  home_userRatings : option (list string);      (* show_id of the ratings returned by getUserRatings *)
  home_watchActions : option (list WatchAction.t);
  home_follows : option (list string);          (* followee_id of the follows *)
  home_followRatings : option (list string);    (* show_id, latest first, 100 at most *)
  home_reco : Reads;
  home_recentRatings : option (list string);    (* show_id of last week's recommends *)
  home_showsIn : list string -> option (list Show.t);
  home_ratingsOf : string -> option (list RecommendRow.t);
  home_trending : option (list TMDBShow.t)
}.

Inductive HomeError :=
| Failed_to_fetch_user_ratings
| Failed_to_fetch_watch_actions.

(** A string that is not null and not empty. *)
Definition truthy (s : option string) : bool :=
  match s with
  | Some EmptyString => false
  | Some _ => true
  | None => false
  end.

(** [a || b] on optional strings. *)
Definition or_else (a : option string) (b : string) : string :=
  if truthy a then match a with Some s => s | None => b end else b.

(** [id.toString()] for an integer identifier. *)
Definition toString (n : Z) : string := NilZero.string_of_int (Z.to_int n).

(** The exclusion set: the caller's, the shows of the ratings that
    [getUserRatings] returns, the shows watched or marked not-for-me, the
    shows dismissed since [thirtyDaysAgo].  [thirtyDaysAgo] is the instant of
    the [Date] that [new Date()] followed by [setDate(getDate() - 30)]
    yields: the local wall-clock time of the request, 30 calendar days
    earlier. *)
Definition excludedIdsOf (thirtyDaysAgo : Z)
    (excludeShowIds userRatings : list string)
    (watchActions : list WatchAction.t) : list string :=
  let excludedIds := excludeShowIds ++ userRatings in
  fold_left
    (fun excludedIds action =>
       match WatchAction.action action with
       | watched | not_for_me => excludedIds ++ [WatchAction.show_id action]
       | dismissed =>
           if (thirtyDaysAgo <=? WatchAction.created_at action)%Z
           then excludedIds ++ [WatchAction.show_id action]
           else excludedIds
       | saved => excludedIds
       end)
    watchActions excludedIds.

Definition pickOfRecommendation (rec : ShowRecommendation.t) : HomePick.t :=
  {| HomePick.show_id := ShowRecommendation.show_id rec;
     HomePick.title := ShowRecommendation.title rec;
     HomePick.poster_path := ShowRecommendation.poster_path rec;
     HomePick.score := ShowRecommendation.score rec;
     HomePick.followingPercent := None;
     HomePick.overallPercent := None;
     HomePick.explanation := ShowRecommendation.explanation rec;
     HomePick.tags := ShowRecommendation.tags rec |}.

(** Tier A: the personalised recommendations among the shows rated by the
    followed users.  An error of the pipeline is caught and leaves the tier
    empty. *)
Definition candidateFromFollows (reads : HomeReads) (now : Z) (userId : string)
    (mode : DeckMode) (excludedIds : list string) : list HomePick.t :=
  let followedSet :=
    match home_follows reads with Some l => l | None => [] end in
  match followedSet with
  | [] => []
  | _ =>
      let followShowIds :=
        match home_followRatings reads with
        | Some rows => filter (fun id => negb (Set_has excludedIds id)) rows
        | None => []
        end in
      match followShowIds with
      | [] => []
      | _ =>
          match getPersonalizedRecommendations (home_reco reads) now userId mode
                                               excludedIds with
          | inr personalizedRecs =>
              map pickOfRecommendation
                  (firstn 10
                     (filter
                        (fun rec =>
                           Set_has followShowIds (ShowRecommendation.show_id rec))
                        personalizedRecs))
          | inl _ => []
          end
      end
  end.

Definition communityPick (reads : HomeReads) (show : Show.t) : HomePick.t :=
  let stats :=
    computeRecommendStats
      (match home_ratingsOf reads (Show.id show) with
       | Some ratings => ratings
       | None => []
       end) in
  {| HomePick.show_id := Show.id show;
     HomePick.title := Show.title show;
     HomePick.poster_path := Show.poster_path show;
     HomePick.score := 75 # 10;
     HomePick.followingPercent := None;
     HomePick.overallPercent := RecommendStats.percent stats;
     HomePick.explanation := "Popular this week";
     HomePick.tags := [] |}.

(** Tier B: the shows most often recommended during the last 7 days. *)
Definition candidateFromCommunity (reads : HomeReads) (excludedIds : list string)
  : list HomePick.t :=
  match home_recentRatings reads with
  | None | Some [] => []
  | Some recentRatings =>
      let showRecommendCounts : JsMap.t nat :=
        fold_left
          (fun counts show_id =>
             if Set_has excludedIds show_id then counts
             else
               JsMap.set counts show_id
                 (match JsMap.get counts show_id with
                  | Some n => n
                  | None => O
                  end + 1)%nat)
          recentRatings JsMap.empty in
      let topShowIds :=
        map fst (firstn 20 (sort_desc (fun e => of_nat (snd e))
                                      showRecommendCounts)) in
      match topShowIds with
      | [] => []
      | _ =>
          match home_showsIn reads topShowIds with
          | Some shows => firstn 10 (map (communityPick reads) shows)
          | None => []
          end
      end
  end.

(** Tiers A and B combined through a [Map] keyed by [show_id]. *)
Definition combinePicks (picks : list HomePick.t) : list HomePick.t :=
  JsMap.values
    (fold_left
       (fun combinedPicks pick =>
          if JsMap.has combinedPicks (HomePick.show_id pick) then combinedPicks
          else JsMap.set combinedPicks (HomePick.show_id pick) pick)
       picks JsMap.empty).

Definition trendingShowsOf (results : list TMDBShow.t) (excludedIds : list string)
  : list TMDBShow.t :=
  firstn 10
    (filter
       (fun show =>
          truthy (TMDBShow.poster_path show)
          && negb (Set_has excludedIds (toString (TMDBShow.id show))))
       results).

Definition trendingPick (show : TMDBShow.t) : HomePick.t :=
  {| HomePick.show_id := toString (TMDBShow.id show);
     HomePick.title :=
       or_else (TMDBShow.title show) (or_else (TMDBShow.name show) "Unknown");
     HomePick.poster_path := TMDBShow.poster_path show;
     HomePick.score := 7;
     HomePick.followingPercent := None;
     HomePick.overallPercent := None;
     HomePick.explanation := "Trending now";
     HomePick.tags := [] |}.

(** The rows written through to the shows cache in tier C; a failed write
    is logged and changes nothing else. *)
Definition trendingUpsert (show : TMDBShow.t) : ShowData.t :=
  {| ShowData.id := toString (TMDBShow.id show);
     ShowData.title :=
       or_else (TMDBShow.title show) (or_else (TMDBShow.name show) "Unknown");
     ShowData.poster_path := TMDBShow.poster_path show;
     ShowData.overview := TMDBShow.overview show;
     ShowData.first_air_date :=
       if truthy (TMDBShow.first_air_date show) then TMDBShow.first_air_date show
       else if truthy (TMDBShow.release_date show) then TMDBShow.release_date show
       else None |}.

(** [trendingPicks.forEach(pick => if (!allPicks.some(...)) allPicks.push(pick))] *)
Definition addTrending (allPicks trendingPicks : list HomePick.t)
  : list HomePick.t :=
  fold_left
    (fun allPicks pick =>
       if existsb
            (fun p => String.eqb (HomePick.show_id p) (HomePick.show_id pick))
            allPicks
       then allPicks
       else allPicks ++ [pick])
    trendingPicks allPicks.

(** Tier C is consulted when tiers A and B gave fewer than 3 picks and
    the trending catalogue answered. *)
Definition trendingPicksOf (reads : HomeReads) (excludedIds : list string)
    (allPicks : list HomePick.t) : list HomePick.t :=
  if (List.length allPicks <? 3)%nat then
    match home_trending reads with
    | Some results => map trendingPick (trendingShowsOf results excludedIds)
    | None => []
    end
  else [].

Definition homeDeck (reads : HomeReads) (now : Z) (userId : string)
    (mode : DeckMode) (excludedIds : list string) : list HomePick.t :=
  let fromFollows := candidateFromFollows reads now userId mode excludedIds in
  let fromCommunity := candidateFromCommunity reads excludedIds in
  let allPicks := combinePicks (fromFollows ++ fromCommunity) in
  let allPicks := addTrending allPicks (trendingPicksOf reads excludedIds allPicks) in
  firstn 10 allPicks.

Definition getHomePicks (reads : HomeReads) (now thirtyDaysAgo : Z)
    (userId : string) (mode : DeckMode) (excludeShowIds : list string)
  : HomeError + list HomePick.t :=
  match home_userRatings reads with
  | None => inl Failed_to_fetch_user_ratings
  | Some userRatings =>
      match home_watchActions reads with
      | None => inl Failed_to_fetch_watch_actions
      | Some watchActions =>
          let excludedIds :=
            excludedIdsOf thirtyDaysAgo excludeShowIds userRatings watchActions in
          inr (homeDeck reads now userId mode excludedIds)
      end
  end.

(** ** The vocabulary of the design document *)

Definition Qsum (l : list Q) : Q := fold_right Qplus 0 l.

(** [x] clamped to the interval from [lo] to [hi]. *)
Definition clamp (lo hi x : Q) : Q :=
  if Qlt_le_dec x lo then lo
  else if Qlt_le_dec hi x then hi
  else x.

(** [l] lists, once each and in any order, the shows rated in both maps. *)
Definition commonShows (A B : JsMap.t Q) (l : list string) : Prop :=
  NoDup l /\
  forall k, In k l <-> In k (JsMap.keys A) /\ In k (JsMap.keys B).

(** The mean absolute difference of the two enjoyments over the shows of [l]. *)
Definition meanAbsDiff (A B : JsMap.t Q) (l : list string) : Q :=
  Qsum (map (fun k => Qabs (get_num A k - get_num B k)) l) / of_nat (List.length l).

(** The table of the recency weighting, by age in days and mode. *)
Definition recencyTable (age : Z) (mode : DeckMode) : Q :=
  if (age <? 30)%Z then
    match mode with tonight => 13 # 10 | this_weekend => 11 # 10 end
  else if (age <=? 180)%Z then 1
  else 8 # 10.

(** The mode-specific content multiplier, from the averages it looks at. *)
Definition contentMultiplier (mode : DeckMode)
    (avgHook avgEnjoyment avgPayoff avgConsistency : Q) (easyWatch : bool) : Q :=
  match mode with
  | tonight =>
      1 + (if Qle_bool 7 avgHook then 1 # 10 else 0)
        + (if Qle_bool 7 avgEnjoyment then 1 # 10 else 0)
        + (if easyWatch then 15 # 100 else 0)
  | this_weekend =>
      1 + (if Qle_bool 7 avgPayoff then 1 # 10 else 0)
        + (if Qle_bool 7 avgConsistency then 1 # 10 else 0)
  end.

(** The mean over the contributors of a sub-score, or of the enjoyment. *)
Definition average (f : ShowRating.t -> Q) (ratings : list ShowRating.t) : Q :=
  Qsum (map f ratings) / of_nat (List.length ratings).

Definition easyWatch (tags : list string) : bool :=
  existsb (String.eqb "easy watch") tags.

(** The final score of a show of base score [base], the enjoyment test of
    the multiplier being made on [avgEnjoyment]; an absent sub-score counts
    as 0 in the averages. *)
Definition finalScore (mode : DeckMode) (base avgEnjoyment : Q)
    (ratings : list ShowRating.t) (tags : list string) : Q :=
  clamp 0 10
    (base *
     contentMultiplier mode
       (average (fun r => or_zero (ShowRating.hook r)) ratings)
       avgEnjoyment
       (average (fun r => or_zero (ShowRating.payoff r)) ratings)
       (average (fun r => or_zero (ShowRating.consistency r)) ratings)
       (easyWatch tags)).


(** One step of a grouping loop: the elements kept are pushed under their
    key. *)
Definition group_step {A B : Type} (keep : A -> bool) (key : A -> string)
    (f : A -> B) (m : JsMap.t (list B)) (x : A) : JsMap.t (list B) :=
  if keep x then push_at m (key x) (f x) else m.

(** The ratings that contribute to the score of their show: made by another
    user of similarity other than 0, on a show the user has not rated and
    that is not excluded. *)
Definition contributes (userId : string) (userShowIds excludeShowIds : list string)
    (similarities : JsMap.t Q) (r : Rating.t) : bool :=
  negb (String.eqb (Rating.user_id r) userId)
  && negb (Set_has userShowIds (Rating.show_id r))
  && negb (Set_has excludeShowIds (Rating.show_id r))
  && negb (Qeq_bool (or_zero (JsMap.get similarities (Rating.user_id r))) 0).

(** The picks of [l] whose show is neither in [seen] nor earlier in [l]:
    of several picks of one show the first is kept. *)
Fixpoint firstOccurrences (seen : list string) (l : list HomePick.t)
  : list HomePick.t :=
  match l with
  | [] => []
  | p :: l' =>
      if Set_has seen (HomePick.show_id p) then firstOccurrences seen l'
      else p :: firstOccurrences (seen ++ [HomePick.show_id p]) l'
  end.

Definition sameShow (p q : HomePick.t) : bool :=
  String.eqb (HomePick.show_id q) (HomePick.show_id p).

(** The picks of the three tiers, in the order of the tiers. *)
Definition homeTiers (reads : HomeReads) (now : Z) (userId : string)
    (mode : DeckMode) (excludedIds : list string) : list HomePick.t :=
  let fromFollows := candidateFromFollows reads now userId mode excludedIds in
  let fromCommunity := candidateFromCommunity reads excludedIds in
  fromFollows ++ fromCommunity
  ++ trendingPicksOf reads excludedIds (combinePicks (fromFollows ++ fromCommunity)).

(** A rating is identified by its rater and its show. *)
Definition ratingKey (r : Rating.t) : string * string :=
  (Rating.user_id r, Rating.show_id r).

(** The similarities of a request, and its contributing ratings. *)
Definition similaritiesFor (userId : string) (allRatings : list Rating.t)
  : JsMap.t Q :=
  similaritiesOf (enjoymentMap (userRatingsOf userId allRatings))
                 (groupByUser userId allRatings).

Definition contributing (userId : string) (excludeShowIds : list string)
    (allRatings : list Rating.t) (r : Rating.t) : bool :=
  contributes userId (map Rating.show_id (userRatingsOf userId allRatings))
              excludeShowIds (similaritiesFor userId allRatings) r.

(** Two contributing ratings of one show, by two different users other
    than [userId]. *)
Definition twoRaters (userId : string) (excludeShowIds : list string)
    (allRatings : list Rating.t) (showId : string) : Prop :=
  exists r1 r2,
    In r1 allRatings /\ In r2 allRatings /\
    contributing userId excludeShowIds allRatings r1 = true /\
    contributing userId excludeShowIds allRatings r2 = true /\
    Rating.show_id r1 = showId /\ Rating.show_id r2 = showId /\
    Rating.user_id r1 <> userId /\ Rating.user_id r2 <> userId /\
    Rating.user_id r1 <> Rating.user_id r2.

Definition key_eq_dec (a b : string * string) : {a = b} + {a <> b}.
Proof. decide equality; apply string_dec. Defined.

(** [a] may come before [b] in a list sorted by decreasing [key]. *)
Definition desc {A : Type} (key : A -> Q) (a b : A) : Prop := key b <= key a.

(** [age] is the number of whole days from [createdAt] to [now]. *)
Definition ageInDays (now createdAt age : Z) : Prop :=
  (age * MS_PER_DAY <= now - createdAt < (age + 1) * MS_PER_DAY)%Z.

(** [p] is [x] rounded to the nearest integer, a half rounded up. *)
Definition isRounded (x : Q) (p : Z) : Prop :=
  x - (1 # 2) < inject_Z p <= x + (1 # 2).



(** ** Sample data *)

Definition sampleA : JsMap.t Q :=
  [("s1", 8); ("s2", 6); ("s3", 7); ("s4", 3)]%string.

Definition sampleB : JsMap.t Q :=
  [("s3", 7); ("s9", 1); ("s1", 8); ("s2", 6)]%string.


Definition rated (user show : string) (enjoyment : Q) (hook : option Q)
    (tags : option (list string)) (day : Z) : Rating.t :=
  {| Rating.user_id := user; Rating.show_id := show;
     Rating.enjoyment := enjoyment; Rating.hook := hook;
     Rating.consistency := None; Rating.payoff := None; Rating.heat := None;
     Rating.tags := tags; Rating.created_at := (day * MS_PER_DAY)%Z |}.

(** Four users: "me" rated three shows; "u1" agrees with "me" on all three,
    "u2" (followed) shares one show only; both rated "s4" and "s5";
    "new" has two ratings. *)
Definition sampleRatings : list Rating.t :=
  [ rated "me" "s1" 8 None None 10;
    rated "me" "s2" 6 None None 11;
    rated "me" "s3" 7 None None 12;
    rated "u1" "s1" 8 None None 20;
    rated "u1" "s2" 6 None None 21;
    rated "u1" "s3" 7 None None 22;
    rated "u1" "s4" 9 (Some 8) (Some ["easy watch"; "funny"]) 190;
    rated "u1" "s5" 5 (Some 3) None 195;
    rated "u2" "s1" 2 None None 30;
    rated "u2" "s4" 8 (Some 9) None 10;
    rated "u2" "s5" 10 None (Some ["slow burn"]) 15;
    rated "u2" "s6" 9 None None 196;
    rated "new" "s1" 5 None None 150;
    rated "new" "s2" 5 None None 151 ]%string.

Definition sampleProfiles : list Profile.t :=
  [ Profile.mk "me" "maya"; Profile.mk "u1" "ines"; Profile.mk "u2" "tom";
    Profile.mk "new" "zoe" ]%string.

Definition sampleShows : list Show.t :=
  [ Show.mk "s1" "One" None; Show.mk "s2" "Two" None; Show.mk "s3" "Three" None;
    Show.mk "s4" "Four" (Some "/four.jpg"); Show.mk "s5" "Five" None;
    Show.mk "s6" "Six" None ]%string.

Definition sampleReads : Reads :=
  {| read_ratings := Some sampleRatings;
     read_profiles := Some sampleProfiles;
     read_follows := Some [Follow.mk "me" "u2"];
     read_shows := Some sampleShows |}.

Definition sampleNow : Z := (200 * MS_PER_DAY)%Z.

(** The cut-off of the exclusions for a request made at [sampleNow], in a
    time zone without clock change in between. *)
Definition sampleThirtyDaysAgo : Z := (sampleNow - 30 * MS_PER_DAY)%Z.

Definition trending (id : Z) (title : string) (poster : option string)
  : TMDBShow.t :=
  {| TMDBShow.id := id; TMDBShow.title := Some title; TMDBShow.name := None;
     TMDBShow.overview := ""; TMDBShow.poster_path := poster;
     TMDBShow.release_date := None; TMDBShow.first_air_date := None |}.

(** The follows tier gives "s4" and "s5", the community tier "s4" again;
    the trending catalogue lists the show 101 twice and one show without
    poster. *)
Definition sampleHome : HomeReads :=
  {| home_userRatings := Some ["s1"; "s2"; "s3"]%string;
     home_watchActions :=
       Some [ WatchAction.mk "s6" dismissed (190 * MS_PER_DAY);
              WatchAction.mk "s5" saved (150 * MS_PER_DAY) ]%string;
     home_follows := Some ["u2"%string];
     home_followRatings := Some ["s6"; "s5"; "s4"; "s1"]%string;
     home_reco := sampleReads;
     home_recentRatings := Some ["s4"; "s6"; "s4"]%string;
     home_showsIn :=
       fun ids => Some (filter (fun s => Set_has ids (Show.id s)) sampleShows);
     home_ratingsOf :=
       fun _ => Some [ RecommendRow.mk (Some true); RecommendRow.mk None;
                       RecommendRow.mk (Some false); RecommendRow.mk (Some true) ];
     home_trending :=
       Some [ trending 101 "Alpha" (Some "/a.jpg"); trending 102 "Beta" None;
              trending 101 "Alpha" (Some "/a.jpg");
              trending 103 "Gamma" (Some "/c.jpg") ]%string |}.

(** The followed set built from the follows read. *)
Definition followedSetOf (reads : Reads) : list string :=
  match read_follows reads with
  | Some follows => map Follow.followee_id follows
  | None => []
  end.

(** ** lib/aggregates.ts, continued *)

Definition computeRecommendPercent (ratings : list RecommendRow.t) : option Z :=
  if (List.length ratings =? 0)%nat then None
  else
    let validRatings := filter isValid ratings in
    if (List.length validRatings =? 0)%nat then None
    else
      let positive := List.length (filter isPositive validRatings) in
      let percent :=
        Math_round (of_nat positive / of_nat (List.length validRatings) * 100) in
      Some percent.

(** ** The recommend statistics of the show screen *)

Module StatsRow.
Record t := mk { user_id : string; recommend : option bool }.
End StatsRow.

Module ShowStats.
Record t := mk { overall : RecommendStats.t; following : RecommendStats.t }.
End ShowStats.

(** [loadRecommendStats]: the statistics over all the ratings of a show and
    over those of the followed users.  A failed ratings read gives empty
    statistics, a failed follows read an empty followed set. *)
Definition loadRecommendStats (allRatings : option (list StatsRow.t))
    (follows : option (list string)) : ShowStats.t :=
  match allRatings with
  | None =>
      {| ShowStats.overall := RecommendStats.mk 0 0 None;
         ShowStats.following := RecommendStats.mk 0 0 None |}
  | Some allRatings =>
      let followeeIds := match follows with Some l => l | None => [] end in
      let overallRatings :=
        map (fun r => RecommendRow.mk (StatsRow.recommend r)) allRatings in
      let followingRatings :=
        map (fun r => RecommendRow.mk (StatsRow.recommend r))
            (filter (fun r => Set_has followeeIds (StatsRow.user_id r))
                    allRatings) in
      {| ShowStats.overall := computeRecommendStats overallRatings;
         ShowStats.following := computeRecommendStats followingRatings |}
  end.

(** ** lib/feed.ts *)

Definition formatTimeAgo (now date : Z) : string :=
  let seconds := ((now - date) / 1000)%Z in
  if (seconds <? 60)%Z then "just now"%string
  else
    let minutes := (seconds / 60)%Z in
    if (minutes <? 60)%Z then (toString minutes ++ "m ago")%string
    else
      let hours := (minutes / 60)%Z in
      if (hours <? 24)%Z then (toString hours ++ "h ago")%string
      else
        let days := (hours / 24)%Z in
        (toString days ++ "d ago")%string.

Module UserSimilarity.
Record t := mk { user_id : string; username : string; similarity : Q }.
End UserSimilarity.

Module ForYouShow.
Record t := mk {
  id : string;
  title : string;
  poster_path : option string;
  score : Q;
  explanation : string
}.
End ForYouShow.

(** A row of the ratings of the similar users, with the joined show. *)
Module ForYouRow.
Record t := mk {
  user_id : string;
  show_id : string;
  enjoyment : Q;
  created_at : Z;
  shows : option (option string * option string)   (* title, poster_path *)
}.
End ForYouRow.

Module ForYouRating.
Record t := mk {
  user_id : string;
  enjoyment : Q;
  created_at : Z;
  similarity : Q;
  isFollowed : bool
}.
End ForYouRating.

(** [x.toFixed(2)] for any [x]. *)
Definition toFixed2s (x : Q) : string :=
  if Qle_bool 0 x then toFixed2 x else ("-" ++ toFixed2 (- x))%string.

(** The reads of [getForYouShows]; the similarities are the result of
    [getUserSimilarities]. *)
Record ForYouReads := mkForYouReads {
  fy_myRatings : option (list string);            (* show_id of the user's ratings *)
  fy_similarities : list UserSimilarity.t;
  fy_follows : option (list string);              (* followee_id *)
  fy_allRatings : option (list ForYouRow.t)
}.

(** The three maps filled while grouping the rows by show. *)
Record ForYouMaps := mkForYouMaps {
  showRatingsMap : JsMap.t (list ForYouRating.t);
  showTitlesMap : JsMap.t string;
  showPostersMap : JsMap.t (option string)
}.

Definition forYouStep (myShowIds : list string)
    (similarityMap : JsMap.t UserSimilarity.t) (followedSet : list string)
    (maps : ForYouMaps) (rating : ForYouRow.t) : ForYouMaps :=
  let showId := ForYouRow.show_id rating in
  if Set_has myShowIds showId then maps
  else
    match JsMap.get similarityMap (ForYouRow.user_id rating) with
    | None => maps
    | Some similarity =>
        let showData := ForYouRow.shows rating in
        let maps :=
          if JsMap.has (showRatingsMap maps) showId then maps
          else
            {| showRatingsMap := JsMap.set (showRatingsMap maps) showId [];
               showTitlesMap :=
                 JsMap.set (showTitlesMap maps) showId
                   (or_else (match showData with
                             | Some (title, _) => title
                             | None => None
                             end) "Unknown");
               showPostersMap :=
                 JsMap.set (showPostersMap maps) showId
                   (match showData with
                    | Some (_, poster) => if truthy poster then poster else None
                    | None => None
                    end) |} in
        {| showRatingsMap :=
             match JsMap.get (showRatingsMap maps) showId with
             | Some arr =>
                 JsMap.set (showRatingsMap maps) showId
                   (arr ++
                    [ {| ForYouRating.user_id := ForYouRow.user_id rating;
                         ForYouRating.enjoyment := ForYouRow.enjoyment rating;
                         ForYouRating.created_at := ForYouRow.created_at rating;
                         ForYouRating.similarity :=
                           UserSimilarity.similarity similarity;
                         ForYouRating.isFollowed :=
                           Set_has followedSet (ForYouRow.user_id rating) |} ])
             | None => showRatingsMap maps
             end;
           showTitlesMap := showTitlesMap maps;
           showPostersMap := showPostersMap maps |}
    end.

Definition forYouWeight (now : Z) (rating : ForYouRating.t) : Q :=
  let daysDiff := daysDiff now (ForYouRating.created_at rating) in
  let recencyMultiplier :=
    if (daysDiff <? 30)%Z then 12 # 10
    else if (daysDiff <=? 180)%Z then 1
    else 8 # 10 in
  let baseWeight := ForYouRating.similarity rating * (7 # 10) in
  let followBonus := if ForYouRating.isFollowed rating then 3 # 10 else 0 in
  (baseWeight + followBonus) * recencyMultiplier.

Record ForYouAccum := mkForYouAccum {
  fy_weightedSum : Q;
  fy_totalWeight : Q;
  fy_contributingUsers : list (string * Q)        (* username, weight *)
}.

Definition forYouAccumulate (now : Z) (similarityMap : JsMap.t UserSimilarity.t)
    (acc : ForYouAccum) (rating : ForYouRating.t) : ForYouAccum :=
  let weight := forYouWeight now rating in
  {| fy_weightedSum := fy_weightedSum acc + ForYouRating.enjoyment rating * weight;
     fy_totalWeight := fy_totalWeight acc + weight;
     fy_contributingUsers :=
       match JsMap.get similarityMap (ForYouRating.user_id rating) with
       | Some similarity =>
           fy_contributingUsers acc
           ++ [(UserSimilarity.username similarity, weight)]
       | None => fy_contributingUsers acc
       end |}.

Definition forYouExplanation (contributingUsers : list (string * Q)) : string :=
  let topUsers := firstn 2 (sort_desc snd contributingUsers) in
  match topUsers with
  | [] => "Based on similar users"%string
  | u1 :: rest =>
      ("Because you align with "
       ++ "@" ++ fst u1 ++ " (" ++ toFixed2s (snd u1) ++ ")"
       ++ match rest with
          | u2 :: _ => " and @" ++ fst u2 ++ " (" ++ toFixed2s (snd u2) ++ ")"
          | [] => ""
          end)%string
  end.

(** The body of [showRatingsMap.forEach]. *)
Definition forYouScore (now : Z) (similarityMap : JsMap.t UserSimilarity.t)
    (maps : ForYouMaps) (showId : string) (ratings : list ForYouRating.t)
  : option ForYouShow.t :=
  let acc :=
    fold_left (forYouAccumulate now similarityMap) ratings
              {| fy_weightedSum := 0; fy_totalWeight := 0;
                 fy_contributingUsers := [] |} in
  if Qeq_bool (fy_totalWeight acc) 0 then None
  else
    let score := fy_weightedSum acc / fy_totalWeight acc in
    let finalScore := Math_max 0 (Math_min 10 score) in
    Some {| ForYouShow.id := showId;
            ForYouShow.title :=
              or_else (JsMap.get (showTitlesMap maps) showId) "Unknown";
            ForYouShow.poster_path :=
              match JsMap.get (showPostersMap maps) showId with
              | Some poster => if truthy poster then poster else None
              | None => None
              end;
            ForYouShow.score := finalScore;
            ForYouShow.explanation :=
              forYouExplanation (fy_contributingUsers acc) |}.

Definition getForYouShows (reads : ForYouReads) (now : Z) : list ForYouShow.t :=
  match fy_myRatings reads with
  | None => []
  | Some myRatings =>
      if (List.length myRatings <? 3)%nat then []
      else
        let similarities := fy_similarities reads in
        match similarities with
        | [] => []
        | _ =>
            let similarityMap :=
              JsMap.of_entries
                (map (fun s => (UserSimilarity.user_id s, s)) similarities) in
            let followedSet :=
              match fy_follows reads with Some l => l | None => [] end in
            match fy_allRatings reads with
            | None => []
            | Some allRatings =>
                let myShowIds := myRatings in
                let maps :=
                  fold_left (forYouStep myShowIds similarityMap followedSet)
                            allRatings
                            {| showRatingsMap := JsMap.empty;
                               showTitlesMap := JsMap.empty;
                               showPostersMap := JsMap.empty |} in
                let shows :=
                  fold_left
                    (fun shows entry =>
                       match forYouScore now similarityMap maps
                                         (fst entry) (snd entry) with
                       | Some show => shows ++ [show]
                       | None => shows
                       end)
                    (showRatingsMap maps) [] in
                sort_desc ForYouShow.score shows
            end
        end
  end.

(** The grouping made by [forYouStep], by its parts. *)
Definition forYouKeep (myShowIds : list string)
    (similarityMap : JsMap.t UserSimilarity.t) (rating : ForYouRow.t) : bool :=
  negb (Set_has myShowIds (ForYouRow.show_id rating))
  && JsMap.has similarityMap (ForYouRow.user_id rating).

Definition toForYouRating (similarityMap : JsMap.t UserSimilarity.t)
    (followedSet : list string) (rating : ForYouRow.t) : ForYouRating.t :=
  {| ForYouRating.user_id := ForYouRow.user_id rating;
     ForYouRating.enjoyment := ForYouRow.enjoyment rating;
     ForYouRating.created_at := ForYouRow.created_at rating;
     ForYouRating.similarity :=
       match JsMap.get similarityMap (ForYouRow.user_id rating) with
       | Some similarity => UserSimilarity.similarity similarity
       | None => 0
       end;
     ForYouRating.isFollowed := Set_has followedSet (ForYouRow.user_id rating) |}.

Definition sampleForYou : ForYouReads :=
  {| fy_myRatings := Some ["s1"; "s2"; "s3"]%string;
     fy_similarities :=
       [ UserSimilarity.mk "u1" "ines" 1; UserSimilarity.mk "u2" "tom" (3 # 10) ]%string;
     fy_follows := Some ["u2"%string];
     fy_allRatings :=
       Some [ ForYouRow.mk "u1" "s1" 8 (20 * MS_PER_DAY) (Some (Some "One", None));
              ForYouRow.mk "u1" "s4" 9 (190 * MS_PER_DAY)
                           (Some (Some "Four", Some "/four.jpg"));
              ForYouRow.mk "u2" "s4" 8 (10 * MS_PER_DAY)
                           (Some (Some "Four", Some "/four.jpg"));
              ForYouRow.mk "u2" "s6" 3 (196 * MS_PER_DAY) None;
              ForYouRow.mk "u9" "s7" 9 (196 * MS_PER_DAY) None ]%string |}.

Definition similarityMapOf (reads : ForYouReads) : JsMap.t UserSimilarity.t :=
  JsMap.of_entries
    (map (fun s => (UserSimilarity.user_id s, s)) (fy_similarities reads)).

(** The ratings grouped by show in a [getForYouShows] request. *)
Definition forYouGroups (reads : ForYouReads) (myRatings : list string)
    (allRatings : list ForYouRow.t) : JsMap.t (list ForYouRating.t) :=
  fold_left
    (group_step (forYouKeep myRatings (similarityMapOf reads))
                ForYouRow.show_id
                (toForYouRating (similarityMapOf reads)
                   match fy_follows reads with Some l => l | None => [] end))
    allRatings JsMap.empty.

(** A new user: nothing rated, nobody followed, no recent recommendation;
    the trending catalogue lists one excluded show and three others. *)
Definition sampleColdStart : HomeReads :=
  {| home_userRatings := Some [];
     home_watchActions :=
       Some [ WatchAction.mk "100" not_for_me (10 * MS_PER_DAY) ]%string;
     home_follows := Some [];
     home_followRatings := None;
     home_reco := sampleReads;
     home_recentRatings := Some [];
     home_showsIn := fun _ => None;
     home_ratingsOf := fun _ => None;
     home_trending :=
       Some [ trending 100 "Zero" (Some "/z.jpg"); trending 101 "Alpha" (Some "/a.jpg");
              trending 102 "Beta" (Some "/b.jpg");
              trending 103 "Gamma" (Some "/c.jpg") ]%string |}.

(** Where a pick of the home deck comes from: a personalised recommendation
    for a show rated by a followed user, a show recommended during the last
    week, or a show of the trending catalogue that has a poster. *)
Definition fromFollows (reads : HomeReads) (now : Z) (userId : string)
    (mode : DeckMode) (excludedIds : list string) (p : HomePick.t) : Prop :=
  exists recs rec rows,
    getPersonalizedRecommendations (home_reco reads) now userId mode excludedIds
    = inr recs /\
    In rec recs /\ p = pickOfRecommendation rec /\
    home_followRatings reads = Some rows /\
    In (HomePick.show_id p) rows.

Definition fromCommunity (reads : HomeReads) (p : HomePick.t) : Prop :=
  exists recent ids shows show,
    home_recentRatings reads = Some recent /\
    incl ids recent /\ (List.length ids <= 20)%nat /\
    home_showsIn reads ids = Some shows /\ In show shows /\
    p = communityPick reads show.

Definition fromTrending (reads : HomeReads) (p : HomePick.t) : Prop :=
  exists results show,
    home_trending reads = Some results /\ In show results /\
    truthy (TMDBShow.poster_path show) = true /\
    p = trendingPick show.

(** ** screens/RateShowScreen.tsx and components/QuickRateModal.tsx *)

Module Sentiment.
Inductive t := loved | ok | not_for_me.
End Sentiment.

Module SentimentDefaults.
Record t := mk {
  enjoyment : Q;
  hook : Q;
  consistency : Q;
  payoff : Q;
  heat : Q;
  recommend : bool
}.
End SentimentDefaults.

Definition getSentimentDefaults (sentiment : Sentiment.t) : SentimentDefaults.t :=
  match sentiment with
  | Sentiment.loved =>
      {| SentimentDefaults.enjoyment := 9; SentimentDefaults.hook := 8;
         SentimentDefaults.consistency := 8; SentimentDefaults.payoff := 8;
         SentimentDefaults.heat := 7; SentimentDefaults.recommend := true |}
  | Sentiment.ok =>
      {| SentimentDefaults.enjoyment := 6; SentimentDefaults.hook := 6;
         SentimentDefaults.consistency := 6; SentimentDefaults.payoff := 6;
         SentimentDefaults.heat := 5; SentimentDefaults.recommend := true |}
  | Sentiment.not_for_me =>
      {| SentimentDefaults.enjoyment := 3; SentimentDefaults.hook := 4;
         SentimentDefaults.consistency := 5; SentimentDefaults.payoff := 4;
         SentimentDefaults.heat := 4; SentimentDefaults.recommend := false |}
  end.

Definition inferSentimentFromEnjoyment (enjoyment : Q) : option Sentiment.t :=
  if Qle_bool 8 enjoyment then Some Sentiment.loved
  else if Qle_bool 5 enjoyment && Qle_bool enjoyment 7 then Some Sentiment.ok
  else if Qle_bool enjoyment 4 then Some Sentiment.not_for_me
  else None.

Definition hasNonDefaultDetails (sentiment : option Sentiment.t)
    (hook consistency payoff heat enjoyment : Q) : bool :=
  match sentiment with
  | None => false
  | Some sentiment =>
      let defaults := getSentimentDefaults sentiment in
      Qle_bool 2 (Qabs (hook - SentimentDefaults.hook defaults))
      || Qle_bool 2 (Qabs (consistency - SentimentDefaults.consistency defaults))
      || Qle_bool 2 (Qabs (payoff - SentimentDefaults.payoff defaults))
      || Qle_bool 2 (Qabs (heat - SentimentDefaults.heat defaults))
      || Qle_bool 2 (Qabs (enjoyment - SentimentDefaults.enjoyment defaults))
  end.

(** [prev.includes(tag) ? prev.filter(t => t !== tag) : [...prev, tag]] *)
Definition toggleTag (prev : list string) (tag : string) : list string :=
  if existsb (String.eqb tag) prev
  then filter (fun t => negb (String.eqb t tag)) prev
  else prev ++ [tag].

(** ** screens/onboarding/FindFriendsScreen.tsx *)

Module EnjoymentRow.
Record t := mk { user_id : string; show_id : string; enjoyment : Q }.
End EnjoymentRow.

(** A profile of the list, with the match percent when one is shown. *)
Module Person.
Record t := mk { id : string; username : string; matchPercent : option Z }.
End Person.

(** The ratings grouped by user, each group a [Map] from show to enjoyment. *)
Definition ratingsGroupsOf (allRatings : list EnjoymentRow.t)
  : JsMap.t (JsMap.t Q) :=
  fold_left
    (fun userRatingsGroups rating =>
       let userRatingsGroups :=
         if JsMap.has userRatingsGroups (EnjoymentRow.user_id rating)
         then userRatingsGroups
         else JsMap.set userRatingsGroups (EnjoymentRow.user_id rating)
                        JsMap.empty in
       match JsMap.get userRatingsGroups (EnjoymentRow.user_id rating) with
       | Some group =>
           JsMap.set userRatingsGroups (EnjoymentRow.user_id rating)
             (JsMap.set group (EnjoymentRow.show_id rating)
                        (EnjoymentRow.enjoyment rating))
       | None => userRatingsGroups
       end)
    allRatings JsMap.empty.

Definition withMatch (localUserRatingsMap : JsMap.t Q)
    (userRatingsGroups : JsMap.t (JsMap.t Q)) (profile : Profile.t) : Person.t :=
  let noMatch :=
    {| Person.id := Profile.id profile;
       Person.username := Profile.username profile;
       Person.matchPercent := None |} in
  match JsMap.get userRatingsGroups (Profile.id profile) with
  | None | Some [] => noMatch
  | Some otherRatings =>
      let similarity := calculateSimilarity localUserRatingsMap otherRatings in
      if negb (Qle_bool similarity (3 # 10)) then
        {| Person.id := Profile.id profile;
           Person.username := Profile.username profile;
           Person.matchPercent := Some (Math_round (similarity * 100)) |}
      else noMatch
  end.

(** The list "People you may know": the profiles, with a match percent
    once the user has 3 ratings and the bulk read of the ratings answers. *)
Definition profilesWithMatch (myRatings : option (list (string * Q)))
    (allRatings : option (list EnjoymentRow.t))
    (allProfilesData : list Profile.t) : list Person.t :=
  let localUserRatingsMap :=
    match myRatings with
    | Some rows => JsMap.of_entries rows
    | None => JsMap.empty
    end in
  let plain :=
    map (fun profile =>
           {| Person.id := Profile.id profile;
              Person.username := Profile.username profile;
              Person.matchPercent := None |})
        allProfilesData in
  if (3 <=? List.length localUserRatingsMap)%nat
     && (0 <? List.length allProfilesData)%nat then
    match allRatings with
    | Some allRatings =>
        map (withMatch localUserRatingsMap (ratingsGroupsOf allRatings))
            allProfilesData
    | None => plain
    end
  else plain.

(** ** lib/tmdb.ts *)

Inductive MediaType := movie | tv.

(** A [TMDBShow] with its [media_type] field. *)
Module TMDBResult.
Record t := mk { show : TMDBShow.t; media_type : option string }.
End TMDBResult.

Definition getPosterUrl (posterPath : option string) : string :=
  match posterPath with
  | Some (String _ _ as path) =>
      String.append "https://image.tmdb.org/t/p/w500" path
  | _ => ""
  end.

Definition getShowTitle (show : TMDBShow.t) : string :=
  or_else (TMDBShow.title show) (or_else (TMDBShow.name show) "Unknown").

Definition getMediaType (show : TMDBResult.t) : MediaType :=
  if truthy (TMDBResult.media_type show) then
    match TMDBResult.media_type show with
    | Some m => if String.eqb m "movie" then movie else tv
    | None => tv
    end
  else if truthy (TMDBShow.title (TMDBResult.show show)) then movie else tv.

Definition hasPoster (show : TMDBResult.t) : bool :=
  truthy (TMDBShow.poster_path (TMDBResult.show show)).

(** [None] is a thrown error: no API key, or a response that is not ok. *)
Definition fetchTrendingWeekly (response : option (list TMDBResult.t))
  : option (list TMDBResult.t) :=
  match response with
  | Some results => Some (filter hasPoster results)
  | None => None
  end.

(** Each response is [None] when it is not ok, and holds [results]
    otherwise, [None] for a body without results. *)
Definition fetchTopRated (apiKey : option string)
    (moviesResponse tvResponse : option (option (list TMDBResult.t)))
  : option (list TMDBResult.t) :=
  if negb (truthy apiKey) then None
  else
    match moviesResponse, tvResponse with
    | Some moviesData, Some tvData =>
        let results (data : option (list TMDBResult.t)) :=
          match data with Some l => l | None => [] end in
        let combined :=
          map (fun m => TMDBResult.mk (TMDBResult.show m) (Some "movie"%string))
              (results moviesData)
          ++ map (fun t => TMDBResult.mk (TMDBResult.show t) (Some "tv"%string))
                 (results tvData) in
        Some (firstn 20 (filter hasPoster combined))
    | _, _ => None
    end.

(** ** lib/shelves.ts *)

Module ShelfItem.
Record t := mk {
  show_id : string;
  title : string;
  poster_path : option string;
  recommendPercent : option Z;
  label : string;
  mediaType : option MediaType
}.
End ShelfItem.

(** The reads of the shelves.  [None] is a null result or, for the two
    catalogue reads, a thrown error. *)
Record ShelfReads := mkShelfReads {
  shelf_recentRatings : option (list string);   (* show_id of last week's recommends, 100 at most *)
  shelf_recentFallback : option (list string);  (* the same, 50 at most *)
  shelf_highRatings : option (list string);     (* show_id of the recommends of enjoyment 8 or more *)
  shelf_follows : option (list string);         (* followee_id of the follows *)
  shelf_followRatings : option (list string);   (* show_id, last week, latest first *)
  shelf_showsIn : list string -> option (list Show.t);
  shelf_ratingsOf : string -> option (list RecommendRow.t);
  shelf_trendingWeekly : option (list TMDBResult.t);
  shelf_topRated : option (list TMDBResult.t)
}.

(** The item built for a show of the community, with the label used when
    the show has no recommend rate. *)
Definition communityItem (reads : ShelfReads) (fallbackLabel : string)
    (show : Show.t) : ShelfItem.t :=
  let stats :=
    computeRecommendStats
      (match shelf_ratingsOf reads (Show.id show) with
       | Some ratings => ratings
       | None => []
       end) in
  {| ShelfItem.show_id := Show.id show;
     ShelfItem.title := Show.title show;
     ShelfItem.poster_path := Show.poster_path show;
     ShelfItem.recommendPercent := RecommendStats.percent stats;
     ShelfItem.label :=
       match RecommendStats.percent stats with
       | Some percent => String.append (toString percent) "% recommend"
       | None => fallbackLabel
       end;
     ShelfItem.mediaType := Some tv |}.

(** [tmdbShow.first_air_date || tmdbShow.media_type === "tv" ? "tv" : "movie"] *)
Definition shelfMediaType (tmdbShow : TMDBResult.t) : MediaType :=
  if truthy (TMDBShow.first_air_date (TMDBResult.show tmdbShow))
     || match TMDBResult.media_type tmdbShow with
        | Some m => String.eqb m "tv"
        | None => false
        end
  then tv else movie.

Definition catalogueItem (label : string) (tmdbShow : TMDBResult.t)
  : ShelfItem.t :=
  {| ShelfItem.show_id := toString (TMDBShow.id (TMDBResult.show tmdbShow));
     ShelfItem.title := getShowTitle (TMDBResult.show tmdbShow);
     ShelfItem.poster_path := TMDBShow.poster_path (TMDBResult.show tmdbShow);
     ShelfItem.recommendPercent := None;
     ShelfItem.label := label;
     ShelfItem.mediaType := Some (shelfMediaType tmdbShow) |}.

(** Group by show and count. *)
Definition showCountsOf (rows : list string) : JsMap.t nat :=
  fold_left
    (fun counts show_id =>
       JsMap.set counts show_id
         (match JsMap.get counts show_id with
          | Some n => n
          | None => O
          end + 1)%nat)
    rows JsMap.empty.

(** The community part of the shelves "Popular this week" and "Critically
    loved": the first 3 shows returned for the 10 most counted ids. *)
Definition topCommunity (reads : ShelfReads) (rows : option (list string))
    (fallbackLabel : string) : list ShelfItem.t :=
  match rows with
  | None | Some [] => []
  | Some rows =>
      let topShowIds :=
        map fst (firstn 10 (sort_desc (fun e => of_nat (snd e))
                                      (showCountsOf rows))) in
      match topShowIds with
      | [] => []
      | _ =>
          match shelf_showsIn reads topShowIds with
          | None | Some [] => []
          | Some shows =>
              map (communityItem reads fallbackLabel) (firstn 3 shows)
          end
      end
  end.

(** The catalogue fills what is missing to 3 items. *)
Definition catalogueFallback (items : list ShelfItem.t)
    (catalogue : option (list TMDBResult.t)) (label : string)
  : list ShelfItem.t :=
  if (List.length items <? 3)%nat then
    match catalogue with
    | Some shows =>
        let needed := (3 - List.length items)%nat in
        items ++ map (catalogueItem label) (firstn needed shows)
    | None => items
    end
  else items.

Definition fetchPopularThisWeek (reads : ShelfReads) : list ShelfItem.t :=
  let items := topCommunity reads (shelf_recentRatings reads) "Popular" in
  let items := catalogueFallback items (shelf_trendingWeekly reads) "Trending" in
  firstn 3 items.

Definition fetchCriticallyLoved (reads : ShelfReads) : list ShelfItem.t :=
  let items := topCommunity reads (shelf_highRatings reads) "Top rated" in
  let items := catalogueFallback items (shelf_topRated reads) "Top rated" in
  firstn 3 items.

(** [Array.from(new Set(l))]: the elements of [l], each where it first
    occurs. *)
Definition uniqueOf (l : list string) : list string :=
  fold_left (fun s x => if Set_has s x then s else s ++ [x]) l [].

(** The shows returned for the first [n] distinct ids of [rows]. *)
Definition latestItems (reads : ShelfReads) (rows : option (list string))
    (n : nat) (fallbackLabel : string) : list ShelfItem.t :=
  match rows with
  | None | Some [] => []
  | Some rows =>
      let showIds := firstn n (uniqueOf rows) in
      match showIds with
      | [] => []
      | _ =>
          match shelf_showsIn reads showIds with
          | None | Some [] => []
          | Some shows => map (communityItem reads fallbackLabel) shows
          end
      end
  end.

Definition fetchFriendsTrending (reads : ShelfReads) : list ShelfItem.t :=
  let followedSet :=
    match shelf_follows reads with Some l => l | None => [] end in
  let items :=
    match followedSet with
    | [] => []
    | _ => latestItems reads (shelf_followRatings reads) 3 "Trending"
    end in
  let items :=
    if (List.length items <? 3)%nat then
      items ++ latestItems reads (shelf_recentFallback reads)
                           (3 - List.length items) "Popular"
    else items in
  firstn 3 items.

Definition sampleShelves : ShelfReads :=
  {| shelf_recentRatings := Some ["s4"; "s6"; "s4"]%string;
     shelf_recentFallback := Some ["s4"; "s6"; "s4"]%string;
     shelf_highRatings := Some ["s4"]%string;
     shelf_follows := Some ["u2"%string];
     shelf_followRatings := Some ["s6"; "s5"; "s6"]%string;
     shelf_showsIn :=
       fun ids => Some (filter (fun s => Set_has ids (Show.id s)) sampleShows);
     shelf_ratingsOf :=
       fun id =>
         if String.eqb id "s6" then Some []
         else Some [ RecommendRow.mk (Some true); RecommendRow.mk None;
                     RecommendRow.mk (Some false); RecommendRow.mk (Some true) ];
     shelf_trendingWeekly :=
       fetchTrendingWeekly
         (Some [ TMDBResult.mk (trending 101 "Alpha" (Some "/a.jpg")) (Some "movie");
                 TMDBResult.mk (trending 102 "Beta" None) (Some "tv");
                 TMDBResult.mk (trending 103 "Gamma" (Some "/c.jpg")) (Some "tv");
                 TMDBResult.mk (trending 104 "Delta" (Some "/d.jpg")) None;
                 TMDBResult.mk (trending 105 "Epsilon" (Some "/e.jpg")) None ]%string);
     shelf_topRated :=
       fetchTopRated (Some "key"%string)
         (Some (Some [ TMDBResult.mk (trending 201 "Heat" (Some "/h.jpg")) None;
                       TMDBResult.mk (trending 202 "Ran" (Some "/r.jpg")) None ]%string))
         (Some (Some [ TMDBResult.mk (trending 301 "The Wire" (Some "/w.jpg")) None ]%string))
  |}.

(** One step of the grouping of [ratingsGroupsOf]. *)
Definition groupsStep (userRatingsGroups : JsMap.t (JsMap.t Q))
    (rating : EnjoymentRow.t) : JsMap.t (JsMap.t Q) :=
  let userRatingsGroups :=
    if JsMap.has userRatingsGroups (EnjoymentRow.user_id rating)
    then userRatingsGroups
    else JsMap.set userRatingsGroups (EnjoymentRow.user_id rating) JsMap.empty in
  match JsMap.get userRatingsGroups (EnjoymentRow.user_id rating) with
  | Some group =>
      JsMap.set userRatingsGroups (EnjoymentRow.user_id rating)
        (JsMap.set group (EnjoymentRow.show_id rating)
                   (EnjoymentRow.enjoyment rating))
  | None => userRatingsGroups
  end.

(** The enjoyments of one user, as a [Map] from show to enjoyment. *)
Definition enjoymentsOf (userId : string) (rows : list EnjoymentRow.t)
  : JsMap.t Q :=
  JsMap.of_entries
    (map (fun r => (EnjoymentRow.show_id r, EnjoymentRow.enjoyment r))
         (filter (fun r => String.eqb (EnjoymentRow.user_id r) userId) rows)).

Definition sampleMine : list (string * Q) :=
  [("s1", 8); ("s2", 6); ("s3", 7)]%string.

Definition sampleEnjoyments : list EnjoymentRow.t :=
  [ EnjoymentRow.mk "u1" "s1" 8; EnjoymentRow.mk "u2" "s1" 2;
    EnjoymentRow.mk "u1" "s2" 5; EnjoymentRow.mk "u1" "s3" 7;
    EnjoymentRow.mk "u1" "s2" 6; EnjoymentRow.mk "u2" "s4" 8 ]%string.

(** The label of a shelf item agrees with its recommend rate. *)
Definition labelled (item : ShelfItem.t) : Prop :=
  match ShelfItem.recommendPercent item with
  | Some p =>
      (0 <= p <= 100)%Z /\
      ShelfItem.label item = String.append (toString p) "% recommend"
  | None => In (ShelfItem.label item) ["Popular"; "Trending"; "Top rated"]%string
  end.

(* PROPERTIES *)

(** * Properties *)

(** ** Lists *)

Lemma NoDup_snoc {A : Type} (l : list A) (x : A) :
  NoDup l -> ~ In x l -> NoDup (l ++ [x]).
Proof.
  intros Hl Hx.
  apply (Permutation_NoDup (Permutation_cons_append l x)).
  now constructor.
Qed.

(** Closes [NoDup l] for a list of distinct string literals. *)
Ltac distinct_strings :=
  repeat (constructor; [simpl; intuition discriminate|]); constructor.

Lemma filter_none {A : Type} (f : A -> bool) (l : list A) :
  (forall x, In x l -> f x = false) -> filter f l = [].
Proof.
  induction l as [|x l IH]; intros H; simpl; [reflexivity|].
  rewrite (H x) by now left. apply IH. intros y Hy. apply H. now right.
Qed.

(** ** Maps *)

Section JsMapFacts.
Context {V : Type}.
Implicit Types (m : JsMap.t V) (k : string) (v : V).

Lemma get_set m k v k' :
  JsMap.get (JsMap.set m k v) k' =
  if String.eqb k k' then Some v else JsMap.get m k'.
Proof.
  induction m as [|[k0 v0] m IH]; simpl.
  - reflexivity.
  - destruct (String.eqb k0 k) eqn:E0; simpl.
    + apply String.eqb_eq in E0; subst k0.
      destruct (String.eqb k k'); reflexivity.
    + destruct (String.eqb k0 k') eqn:E1.
      * apply String.eqb_eq in E1; subst k'.
        now rewrite String.eqb_sym, E0.
      * exact IH.
Qed.

Lemma has_In_keys m k : JsMap.has m k = true <-> In k (JsMap.keys m).
Proof.
  unfold JsMap.has.
  induction m as [|[k0 v0] m IH]; simpl.
  - split; [discriminate | tauto].
  - destruct (String.eqb k0 k) eqn:E.
    + apply String.eqb_eq in E. split; auto.
    + apply String.eqb_neq in E. rewrite IH. split; [tauto|].
      intros [H|H]; [contradiction | exact H].
Qed.

Lemma get_Some_In m k v : JsMap.get m k = Some v -> In (k, v) m.
Proof.
  induction m as [|[k0 v0] m IH]; simpl; [discriminate|].
  destruct (String.eqb k0 k) eqn:E.
  - apply String.eqb_eq in E. intros [= ->]. left. now subst.
  - intros H. right. now apply IH.
Qed.

Lemma In_get_Some m k v : JsMap.wf m -> In (k, v) m -> JsMap.get m k = Some v.
Proof.
  unfold JsMap.wf, JsMap.keys.
  induction m as [|[k0 v0] m IH]; simpl; [tauto|].
  intros Hnd [H|H]; inversion Hnd as [|? ? Hnotin Hnd']; subst.
  - injection H as -> ->. now rewrite String.eqb_refl.
  - destruct (String.eqb k0 k) eqn:E.
    + apply String.eqb_eq in E; subst k0. exfalso. apply Hnotin.
      change k with (fst (k, v)). now apply in_map.
    + now apply IH.
Qed.

Lemma keys_set m k v :
  JsMap.keys (JsMap.set m k v) =
  if JsMap.has m k then JsMap.keys m else JsMap.keys m ++ [k].
Proof.
  unfold JsMap.has.
  induction m as [|[k0 v0] m IH]; simpl; [reflexivity|].
  destruct (String.eqb k0 k) eqn:E; simpl; [reflexivity|].
  rewrite IH. now destruct (JsMap.get m k).
Qed.

Lemma wf_set m k v : JsMap.wf m -> JsMap.wf (JsMap.set m k v).
Proof.
  unfold JsMap.wf. intros H. rewrite keys_set.
  destruct (JsMap.has m k) eqn:E; [exact H|].
  apply NoDup_snoc; [exact H|].
  rewrite <- has_In_keys, E. discriminate.
Qed.
Lemma of_entries_wf (l : list (string * V)) : JsMap.wf (JsMap.of_entries l).
Proof.
  unfold JsMap.of_entries.
  assert (H : forall m, JsMap.wf m ->
                        JsMap.wf (fold_left
                                    (fun m kv => JsMap.set m (fst kv) (snd kv)) l m)).
  { induction l as [|kv l IH]; intros m Hm; simpl; [exact Hm|].
    apply IH. now apply wf_set. }
  apply H. constructor.
Qed.
End JsMapFacts.

(** ** Numbers *)

Lemma Qsum_app (l1 l2 : list Q) : Qsum (l1 ++ l2) == Qsum l1 + Qsum l2.
Proof.
  induction l1 as [|x l1 IH]; simpl.
  - ring.
  - rewrite IH. ring.
Qed.

Lemma fold_left_Qsum {A : Type} (f : A -> Q) (l : list A) (a : Q) :
  fold_left (fun acc x => acc + f x) l a == a + Qsum (map f l).
Proof.
  revert a. induction l as [|x l IH]; intros a; simpl.
  - ring.
  - rewrite IH. ring.
Qed.


Lemma Qsum_Permutation (l1 l2 : list Q) :
  Permutation l1 l2 -> Qsum l1 == Qsum l2.
Proof.
  induction 1 as [|x l l' _ IH|x y l|l l' l'' _ IH1 _ IH2]; simpl.
  - reflexivity.
  - now rewrite IH.
  - ring.
  - now rewrite IH1.
Qed.


Lemma of_nat_pos (n : nat) : (0 < n)%nat -> 0 < of_nat n.
Proof.
  intros H. unfold of_nat. change 0 with (inject_Z 0).
  rewrite <- Zlt_Qlt. lia.
Qed.

Lemma Qle_bool_false (a b : Q) : Qle_bool a b = false <-> b < a.
Proof.
  rewrite <- Bool.not_true_iff_false, Qle_bool_iff.
  split; [apply Qnot_le_lt | apply Qlt_not_le].
Qed.

Lemma Math_clamp (lo hi x : Q) :
  lo <= hi -> Math_max lo (Math_min hi x) == clamp lo hi x.
Proof.
  intros Hlohi. unfold Math_max, Math_min, clamp.
  destruct (Qle_bool hi x) eqn:E1;
    [apply Qle_bool_iff in E1 | apply Qle_bool_false in E1];
    destruct (Qlt_le_dec x lo) as [H1|H1];
    try destruct (Qlt_le_dec hi x) as [H2|H2];
    try (destruct (Qle_bool lo hi) eqn:E2;
         [apply Qle_bool_iff in E2 | apply Qle_bool_false in E2]);
    try (destruct (Qle_bool lo x) eqn:E3;
         [apply Qle_bool_iff in E3 | apply Qle_bool_false in E3]);
    lra.
Qed.

Lemma clamp_comp (lo hi x y : Q) : x == y -> clamp lo hi x == clamp lo hi y.
Proof.
  intros H. unfold clamp.
  destruct (Qlt_le_dec x lo), (Qlt_le_dec y lo); try lra;
    destruct (Qlt_le_dec hi x), (Qlt_le_dec hi y); lra.
Qed.

Lemma clamp_bounds (lo hi x : Q) : lo <= hi -> lo <= clamp lo hi x <= hi.
Proof.
  intros H. unfold clamp.
  destruct (Qlt_le_dec x lo); [lra|].
  destruct (Qlt_le_dec hi x); lra.
Qed.

(** ** The similarity of two users *)

Lemma sharedShows_In (A B : JsMap.t Q) (k : string) :
  In k (sharedShows A B) <-> In k (JsMap.keys A) /\ In k (JsMap.keys B).
Proof.
  unfold sharedShows. rewrite filter_In, has_In_keys. tauto.
Qed.

Lemma sharedShows_NoDup (A B : JsMap.t Q) :
  JsMap.wf A -> NoDup (sharedShows A B).
Proof. intros H. now apply NoDup_filter. Qed.

Lemma sharedShows_common (A B : JsMap.t Q) (l : list string) :
  JsMap.wf A -> commonShows A B l -> Permutation (sharedShows A B) l.
Proof.
  intros HA [Hnd Hl].
  apply NoDup_Permutation; [now apply sharedShows_NoDup | exact Hnd |].
  intros k. now rewrite sharedShows_In, Hl.
Qed.

(** The similarity computed from any enumeration of the common shows. *)
Lemma calculateSimilarity_common (A B : JsMap.t Q) (l : list string) :
  JsMap.wf A -> commonShows A B l ->
  calculateSimilarity A B ==
  if (List.length l <? 3)%nat then 3 # 10
  else clamp 0 1 (1 - meanAbsDiff A B l / 10).
Proof.
  intros HA Hl.
  pose proof (sharedShows_common A B l HA Hl) as Hperm.
  unfold calculateSimilarity.
  rewrite (Permutation_length Hperm).
  destruct (List.length l <? 3)%nat; [reflexivity|].
  rewrite Math_clamp by lra.
  apply clamp_comp. unfold meanAbsDiff.
  rewrite (fold_left_Qsum (fun k => Qabs (get_num A k - get_num B k))).
  rewrite (Qsum_Permutation _ _ (Permutation_map _ Hperm)).
  rewrite Qplus_0_l. reflexivity.
Qed.



Lemma sampleA_wf : JsMap.wf sampleA.
Proof. unfold JsMap.wf. simpl. distinct_strings. Defined.

Lemma sampleB_wf : JsMap.wf sampleB.
Proof. unfold JsMap.wf. simpl. distinct_strings. Defined.



Lemma commonShows_sym (A B : JsMap.t Q) (l : list string) :
  commonShows A B l -> commonShows B A l.
Proof.
  intros [Hnd H]. split; [exact Hnd|]. intros k. rewrite H. tauto.
Qed.

Lemma Qsum_map_ext {A : Type} (f g : A -> Q) (l : list A) :
  (forall x, In x l -> f x == g x) -> Qsum (map f l) == Qsum (map g l).
Proof.
  induction l as [|x l IH]; intros H; simpl.
  - reflexivity.
  - rewrite (H x) by now left.
    rewrite IH by (intros y Hy; apply H; now right).
    reflexivity.
Qed.

Lemma meanAbsDiff_sym (A B : JsMap.t Q) (l : list string) :
  meanAbsDiff A B l == meanAbsDiff B A l.
Proof.
  unfold meanAbsDiff.
  rewrite (Qsum_map_ext (fun k => Qabs (get_num A k - get_num B k))
                        (fun k => Qabs (get_num B k - get_num A k))).
  - reflexivity.
  - intros k _. now rewrite Qabs_Qminus.
Qed.

(** C10. [calculateSimilarity] is symmetric: exchanging the two maps does
    not change the result. *)
Theorem calculateSimilarity_sym (A B : JsMap.t Q) :
  JsMap.wf A -> JsMap.wf B ->
  calculateSimilarity A B == calculateSimilarity B A.
Proof.
  intros HA HB.
  assert (Hl : commonShows A B (sharedShows A B)).
  { split; [now apply sharedShows_NoDup | apply sharedShows_In]. }
  rewrite (calculateSimilarity_common A B _ HA Hl).
  rewrite (calculateSimilarity_common B A _ HB (commonShows_sym _ _ _ Hl)).
  destruct (List.length (sharedShows A B) <? 3)%nat; [reflexivity|].
  apply clamp_comp. now rewrite meanAbsDiff_sym.
Qed.

Lemma calculateSimilarity_sym_witness :
  calculateSimilarity sampleA sampleB == calculateSimilarity sampleB sampleA.
Proof. exact (calculateSimilarity_sym sampleA sampleB sampleA_wf sampleB_wf). Defined.

(** The maps compared in a request are built by [new Map(entries)]. *)
Lemma enjoymentMap_wf (ratings : list Rating.t) : JsMap.wf (enjoymentMap ratings).
Proof. apply of_entries_wf. Qed.

Example similarity_two_shared :
  calculateSimilarity sampleA [("s1", 2); ("s2", 9); ("s7", 5)]%string = 3 # 10.
Proof. reflexivity. Qed.

Example similarity_one_point_apart :
  calculateSimilarity sampleA [("s1", 7); ("s2", 7); ("s3", 8); ("s4", 4)]%string
  == 9 # 10.
Proof. vm_compute. reflexivity. Qed.

Example similarity_opposite :
  calculateSimilarity [("a", 10); ("b", 0); ("c", 10)]%string
                      [("c", 0); ("b", 10); ("a", 0)]%string == 0.
Proof. vm_compute. reflexivity. Qed.

(** ** Recency weighting *)

Lemma daysDiff_age (now createdAt age : Z) :
  ageInDays now createdAt age -> daysDiff now createdAt = age.
Proof.
  unfold ageInDays, daysDiff. intros H.
  symmetry. apply (Z.div_unique_pos _ _ _ (now - createdAt - age * MS_PER_DAY)).
  - unfold MS_PER_DAY in *. lia.
  - unfold MS_PER_DAY in *. lia.
Qed.

(** C2. The recency multiplier depends only on the age of the rating in
    whole days and on the mode, and is the one of the table: below 30 days
    1.3 (tonight) or 1.1 (this weekend), from 30 to 180 days 1.0, above 180
    days 0.8; so 29 days give 1.3 or 1.1, 30 and 180 days give 1.0 and 181
    days give 0.8. *)
Theorem getRecencyMultiplier_table (now createdAt age : Z) (mode : DeckMode) :
  ageInDays now createdAt age ->
  getRecencyMultiplier now createdAt mode = recencyTable age mode /\
  ((age < 30)%Z ->
   getRecencyMultiplier now createdAt mode =
   match mode with tonight => 13 # 10 | this_weekend => 11 # 10 end) /\
  ((30 <= age <= 180)%Z -> getRecencyMultiplier now createdAt mode = 1) /\
  ((180 < age)%Z -> getRecencyMultiplier now createdAt mode = 8 # 10) /\
  recencyTable 29 tonight = 13 # 10 /\ recencyTable 29 this_weekend = 11 # 10 /\
  recencyTable 30 mode = 1 /\ recencyTable 180 mode = 1 /\
  recencyTable 181 mode = 8 # 10.
Proof.
  intros Hage.
  assert (E : getRecencyMultiplier now createdAt mode = recencyTable age mode).
  { unfold getRecencyMultiplier, recencyTable.
    rewrite (daysDiff_age _ _ _ Hage).
    destruct mode, (age <? 30)%Z, (age <=? 180)%Z; reflexivity. }
  split; [exact E|]. rewrite E. unfold recencyTable.
  repeat split.
  - intros H. apply Z.ltb_lt in H. now rewrite H.
  - intros [H1 H2]. apply Z.ltb_ge in H1. apply Z.leb_le in H2.
    now rewrite H1, H2.
  - intros H. assert (H1 : (age <? 30)%Z = false) by (apply Z.ltb_ge; lia).
    apply Z.leb_gt in H. now rewrite H1, H.
Qed.

(** The four boundaries, to the millisecond. *)
Lemma getRecencyMultiplier_boundaries (mode : DeckMode) :
  getRecencyMultiplier (30 * MS_PER_DAY - 1) 0 mode =
    match mode with tonight => 13 # 10 | this_weekend => 11 # 10 end /\
  getRecencyMultiplier (30 * MS_PER_DAY) 0 mode = 1 /\
  getRecencyMultiplier (181 * MS_PER_DAY - 1) 0 mode = 1 /\
  getRecencyMultiplier (181 * MS_PER_DAY) 0 mode = 8 # 10.
Proof. destruct mode; repeat split. Qed.

Lemma getRecencyMultiplier_table_witness :
  ageInDays (30 * MS_PER_DAY - 1) 0 29 /\
  getRecencyMultiplier (30 * MS_PER_DAY - 1) 0 tonight = 13 # 10.
Proof.
  assert (H : ageInDays (30 * MS_PER_DAY - 1) 0 29)
    by (unfold ageInDays, MS_PER_DAY; lia).
  split; [exact H|].
  exact (proj1 (getRecencyMultiplier_table _ 0 29 tonight H)).
Defined.

(** ** Recommend statistics *)


Lemma isRounded_unique (x : Q) (p q : Z) :
  isRounded x p -> isRounded x q -> p = q.
Proof.
  unfold isRounded. intros [H1 H2] [H3 H4].
  assert (Hpq : inject_Z p < inject_Z q + 1) by lra.
  assert (Hqp : inject_Z q < inject_Z p + 1) by lra.
  change 1 with (inject_Z 1) in Hpq, Hqp.
  rewrite <- inject_Z_plus, <- Zlt_Qlt in Hpq, Hqp. lia.
Qed.





Example stats_with_null :
  computeRecommendStats
    [RecommendRow.mk (Some true); RecommendRow.mk None;
     RecommendRow.mk (Some false); RecommendRow.mk (Some true)]
  = RecommendStats.mk 3 2 (Some 67%Z).
Proof. reflexivity. Qed.

Example stats_all_null :
  computeRecommendStats [RecommendRow.mk None; RecommendRow.mk None]
  = RecommendStats.mk 0 0 None.
Proof. reflexivity. Qed.

(** ** The recommendation pipeline *)

Example sample_recommendations :
  match getPersonalizedRecommendations sampleReads sampleNow "me" tonight [] with
  | inr recs => map ShowRecommendation.show_id recs = ["s4"; "s5"]%string
  | inl _ => False
  end.
Proof. vm_compute. reflexivity. Qed.

Example sample_failed_read :
  getPersonalizedRecommendations
    (mkReads (Some sampleRatings) None None (Some sampleShows))
    sampleNow "new" tonight [] = inl Failed_to_fetch_profiles.
Proof. reflexivity. Qed.


(** C5. A user with 0, 1 or 2 ratings gets the empty list, whatever the
    mode and the exclusion set: an empty result, not an error. *)
Theorem few_ratings_empty (now : Z) (userId : string) (mode : DeckMode)
    (excludeShowIds : list string)
    (allRatings : list Rating.t) (profiles : list Profile.t)
    (follows : option (list Follow.t)) (shows : list Show.t) :
  (List.length (userRatingsOf userId allRatings) < 3)%nat ->
  getPersonalizedRecommendations
    (mkReads (Some allRatings) (Some profiles) follows (Some shows))
    now userId mode excludeShowIds = inr [].
Proof.
  intros H. apply Nat.ltb_lt in H.
  unfold getPersonalizedRecommendations, recommend. cbn [read_ratings
    read_profiles read_follows read_shows].
  now rewrite H.
Qed.

Lemma few_ratings_empty_witness :
  (List.length (userRatingsOf "new" sampleRatings) < 3)%nat /\
  getPersonalizedRecommendations sampleReads sampleNow "new" this_weekend
                                 ["s4"%string] = inr [].
Proof.
  assert (H : (List.length (userRatingsOf "new" sampleRatings) < 3)%nat)
    by (vm_compute; lia).
  split; [exact H|].
  exact (few_ratings_empty sampleNow "new" this_weekend ["s4"%string]
           sampleRatings sampleProfiles (Some [Follow.mk "me" "u2"])
           sampleShows H).
Defined.

(** *** Sorting *)

Section SortDesc.
Context {A : Type} (key : A -> Q).

Local Abbreviation desc := (desc key).

Lemma insert_desc_HdRel (x a : A) (l : list A) :
  desc a x -> HdRel desc a l -> HdRel desc a (insert_desc key x l).
Proof.
  intros Hax Hl. destruct l as [|y l]; simpl.
  - now constructor.
  - destruct (Qle_bool (key y) (key x)); constructor.
    + exact Hax.
    + now inversion Hl.
Qed.

Lemma insert_desc_Sorted (x : A) (l : list A) :
  Sorted desc l -> Sorted desc (insert_desc key x l).
Proof.
  induction l as [|y l IH]; intros Hs; simpl.
  - repeat constructor.
  - destruct (Qle_bool (key y) (key x)) eqn:E.
    + apply Qle_bool_iff in E. constructor; [exact Hs|]. now constructor.
    + apply Qle_bool_false in E. inversion Hs as [|? ? Hs' Hhd]; subst.
      constructor; [now apply IH|].
      apply insert_desc_HdRel; [|exact Hhd].
      now apply Qlt_le_weak.
Qed.

Lemma sort_desc_Sorted (l : list A) : Sorted desc (sort_desc key l).
Proof.
  induction l as [|x l IH]; simpl.
  - constructor.
  - now apply insert_desc_Sorted.
Qed.

Lemma insert_desc_Permutation (x : A) (l : list A) :
  Permutation (x :: l) (insert_desc key x l).
Proof.
  induction l as [|y l IH]; simpl.
  - reflexivity.
  - destruct (Qle_bool (key y) (key x)); [reflexivity|].
    rewrite perm_swap. now apply perm_skip.
Qed.

Lemma sort_desc_Permutation (l : list A) : Permutation l (sort_desc key l).
Proof.
  induction l as [|x l IH]; simpl.
  - reflexivity.
  - rewrite <- insert_desc_Permutation. now apply perm_skip.
Qed.

Lemma Sorted_adjacent (R : A -> A -> Prop) (l : list A) (i : nat) (a b : A) :
  Sorted R l -> nth_error l i = Some a -> nth_error l (S i) = Some b -> R a b.
Proof.
  intros Hs. revert i. induction Hs as [|x l Hs IH Hhd]; intros i Ha Hb.
  - destruct i; discriminate.
  - destruct i as [|i]; simpl in *.
    + injection Ha as ->. destruct l as [|y l]; [discriminate|].
      simpl in Hb. injection Hb as ->. now inversion Hhd.
    + now apply (IH i).
Qed.
End SortDesc.

(** C9. The list returned by [getPersonalizedRecommendations] is sorted
    by decreasing score: of two adjacent elements, the earlier one has a
    score greater than or equal to that of the later one. *)
Theorem recommendations_sorted (reads : Reads) (now : Z) (userId : string)
    (mode : DeckMode) (excludeShowIds : list string)
    (recs : list ShowRecommendation.t) (i : nat) (a b : ShowRecommendation.t) :
  getPersonalizedRecommendations reads now userId mode excludeShowIds = inr recs ->
  nth_error recs i = Some a -> nth_error recs (S i) = Some b ->
  ShowRecommendation.score b <= ShowRecommendation.score a.
Proof.
  unfold getPersonalizedRecommendations.
  destruct (read_ratings reads) as [allRatings|]; [|discriminate].
  destruct (read_profiles reads) as [profiles|]; [|discriminate].
  destruct (read_shows reads) as [shows|]; [|discriminate].
  intros [= <-]. unfold recommend.
  destruct (List.length (userRatingsOf userId allRatings) <? 3)%nat.
  - destruct i; discriminate.
  - apply (Sorted_adjacent (desc ShowRecommendation.score)).
    apply sort_desc_Sorted.
Qed.

Lemma recommendations_sorted_witness :
  exists recs a b,
    getPersonalizedRecommendations sampleReads sampleNow "me" tonight [] = inr recs /\
    nth_error recs 0 = Some a /\ nth_error recs 1 = Some b /\
    ShowRecommendation.score b <= ShowRecommendation.score a.
Proof.
  do 3 eexists.
  split; [vm_compute; reflexivity|].
  split; [reflexivity|]. split; [reflexivity|].
  eapply (recommendations_sorted sampleReads sampleNow "me" tonight [] _ 0%nat).
  - vm_compute; reflexivity.
  - reflexivity.
  - reflexivity.
Defined.

(** *** Grouping *)

Section Grouping.
Context {A B : Type}.
Implicit Types (m : JsMap.t (list B)) (k : string).

Lemma get_push_at m k (x : B) k' :
  JsMap.get (push_at m k x) k' =
  if String.eqb k k'
  then Some (match JsMap.get m k with Some arr => arr | None => [] end ++ [x])
  else JsMap.get m k'.
Proof.
  unfold push_at, JsMap.has.
  destruct (JsMap.get m k) as [arr|] eqn:E.
  - rewrite E. apply get_set.
  - rewrite get_set, String.eqb_refl, !get_set.
    destruct (String.eqb k k'); reflexivity.
Qed.

Lemma wf_push_at m k (x : B) : JsMap.wf m -> JsMap.wf (push_at m k x).
Proof.
  intros H. unfold push_at.
  assert (H' : JsMap.wf (if JsMap.has m k then m else JsMap.set m k []))
    by (destruct (JsMap.has m k); [exact H | now apply wf_set]).
  destruct (JsMap.get _ k); [now apply wf_set | exact H'].
Qed.

Variables (keep : A -> bool) (key : A -> string) (f : A -> B).
Local Abbreviation step := (group_step keep key f).

Lemma group_wf (l : list A) m :
  JsMap.wf m -> JsMap.wf (fold_left step l m).
Proof.
  revert m. induction l as [|x l IH]; intros m H; simpl; [exact H|].
  apply IH. unfold group_step.
  destruct (keep x); [now apply wf_push_at | exact H].
Qed.

(** The array found under a key after grouping: what was there, followed
    by the kept elements of that key, in their order. *)
Lemma group_get (l : list A) m k :
  JsMap.get (fold_left step l m) k =
  match map f (filter (fun x => keep x && String.eqb (key x) k) l) with
  | [] => JsMap.get m k
  | new =>
      Some (match JsMap.get m k with Some arr => arr | None => [] end ++ new)
  end.
Proof.
  revert m. induction l as [|x l IH]; intros m; simpl; [reflexivity|].
  rewrite IH. unfold group_step.
  destruct (keep x); simpl.
  - rewrite get_push_at. destruct (String.eqb (key x) k) eqn:E; simpl.
    + apply String.eqb_eq in E. subst k.
      destruct (map f (filter _ l)); simpl.
      * reflexivity.
      * now rewrite <- app_assoc.
    + reflexivity.
  - reflexivity.
Qed.
End Grouping.

Lemma fold_left_pointwise {A B : Type} (f g : A -> B -> A) (l : list B) (a : A) :
  (forall a x, f a x = g a x) -> fold_left f l a = fold_left g l a.
Proof.
  intros H. revert a. induction l as [|x l IH]; intros a; simpl.
  - reflexivity.
  - now rewrite H, IH.
Qed.

Lemma groupByShow_group (userId : string) (userShowIds excludeShowIds : list string)
    (similarities : JsMap.t Q) (followedSet : list string)
    (allRatings : list Rating.t) :
  groupByShow userId userShowIds excludeShowIds similarities followedSet allRatings =
  fold_left
    (group_step
       (contributes userId userShowIds excludeShowIds similarities)
       Rating.show_id
       (fun r =>
          toShowRating r (or_zero (JsMap.get similarities (Rating.user_id r)))
                       followedSet))
    allRatings JsMap.empty.
Proof.
  unfold groupByShow. apply fold_left_pointwise.
  intros m r. unfold group_step, contributes.
  destruct (String.eqb (Rating.user_id r) userId); [reflexivity|].
  destruct (Set_has userShowIds (Rating.show_id r)); [reflexivity|].
  destruct (Set_has excludeShowIds (Rating.show_id r)); [reflexivity|].
  destruct (Qeq_bool _ 0); reflexivity.
Qed.

Lemma groupByShow_wf (userId : string) (userShowIds excludeShowIds : list string)
    (similarities : JsMap.t Q) (followedSet : list string)
    (allRatings : list Rating.t) :
  JsMap.wf (groupByShow userId userShowIds excludeShowIds similarities
                        followedSet allRatings).
Proof. rewrite groupByShow_group. apply group_wf. constructor. Qed.

(** The ratings gathered for a show are the contributing ratings of that
    show, in the order of the rows. *)
Lemma groupByShow_get (userId : string) (userShowIds excludeShowIds : list string)
    (similarities : JsMap.t Q) (followedSet : list string)
    (allRatings : list Rating.t) (showId : string) (ratings : list ShowRating.t) :
  JsMap.get (groupByShow userId userShowIds excludeShowIds similarities
                         followedSet allRatings) showId = Some ratings ->
  ratings =
  map (fun r =>
         toShowRating r (or_zero (JsMap.get similarities (Rating.user_id r)))
                      followedSet)
      (filter (fun r =>
                 contributes userId userShowIds excludeShowIds similarities r
                 && String.eqb (Rating.show_id r) showId)
              allRatings).
Proof.
  rewrite groupByShow_group, group_get. simpl.
  destruct (map _ (filter _ allRatings)); [discriminate|].
  now intros [= <-].
Qed.

Lemma scoreShow_Some (now : Z) (mode : DeckMode)
    (profilesMap : JsMap.t Profile.t) (showsMap : JsMap.t Show.t)
    (showId : string) (ratings : list ShowRating.t) (rec : ShowRecommendation.t) :
  scoreShow now mode profilesMap showsMap showId ratings = Some rec ->
  let acc := accumulated now mode profilesMap ratings in
  ShowRecommendation.show_id rec = showId /\
  (2 <= List.length ratings)%nat /\
  ~ totalWeight acc == 0 /\
  ShowRecommendation.score rec =
    clampedScore mode (avgRating showId (baseScore acc) ratings) (baseScore acc) /\
  ShowRecommendation.tags rec = firstTags ratings.
Proof.
  unfold scoreShow.
  destruct (List.length ratings <? 2)%nat eqn:E; [discriminate|].
  apply Nat.ltb_ge in E.
  destruct (Qeq_bool (totalWeight _) 0) eqn:E0; [discriminate|].
  destruct (JsMap.get showsMap showId); [|discriminate].
  intros [= <-]. cbn.
  repeat split; try assumption.
  intros H. apply Qeq_bool_iff in H. congruence.
Qed.

Lemma fold_push_In {A B : Type} (F : A -> option B) (l : list A) (acc : list B)
    (y : B) :
  In y (fold_left (fun acc x => match F x with
                                | Some r => acc ++ [r]
                                | None => acc
                                end) l acc) <->
  In y acc \/ exists x, In x l /\ F x = Some y.
Proof.
  revert acc. induction l as [|x l IH]; intros acc; simpl.
  - split; [auto | intros [H|(x & [] & _)]; exact H].
  - rewrite IH. destruct (F x) as [r|] eqn:E.
    + rewrite in_app_iff. simpl. split.
      * intros [[H|[<-|[]]]|(x' & Hx' & HF)]; eauto.
      * intros [H|(x' & [<-|Hx'] & HF)]; eauto.
        rewrite E in HF. injection HF as ->. auto.
    + split.
      * intros [H|(x' & Hx' & HF)]; eauto.
      * intros [H|(x' & [<-|Hx'] & HF)]; eauto. congruence.
Qed.

(** Every recommendation returned was scored from the ratings gathered for
    its show. *)
Lemma recommend_In (now : Z) (userId : string) (mode : DeckMode)
    (excludeShowIds : list string)
    (allRatings : list Rating.t) (profiles : list Profile.t)
    (followedSet : list string) (shows : list Show.t)
    (rec : ShowRecommendation.t) :
  In rec (recommend now userId mode excludeShowIds allRatings profiles
                    followedSet shows) ->
  exists ratings,
    JsMap.get (showRatingsOf userId excludeShowIds allRatings followedSet)
              (ShowRecommendation.show_id rec) = Some ratings /\
    scoreShow now mode
              (JsMap.of_entries (map (fun p => (Profile.id p, p)) profiles))
              (JsMap.of_entries (map (fun s => (Show.id s, s)) shows))
              (ShowRecommendation.show_id rec) ratings = Some rec.
Proof.
  unfold recommend.
  destruct (List.length (userRatingsOf userId allRatings) <? 3)%nat; [intros []|].
  intros H.
  apply (Permutation_in _ (Permutation_sym (sort_desc_Permutation _ _))) in H.
  apply fold_push_In in H. destruct H as [[]|([showId ratings] & Hin & Hscore)].
  simpl in Hscore.
  pose proof (scoreShow_Some _ _ _ _ _ _ _ Hscore) as (Hid & _).
  exists ratings. rewrite Hid. split; [|exact Hscore].
  apply In_get_Some; [|exact Hin].
  apply groupByShow_wf.
Qed.

(** *** The minimum number of raters *)

Lemma NoDup_map_filter {A B : Type} (g : A -> B) (P : A -> bool) (l : list A) :
  NoDup (map g l) -> NoDup (map g (filter P l)).
Proof.
  induction l as [|x l IH]; simpl; intros H; [constructor|].
  inversion H as [|? ? Hnotin Hnd]; subst.
  destruct (P x); simpl; [|now apply IH].
  constructor; [|now apply IH].
  intros Hin. apply Hnotin.
  apply in_map_iff in Hin as (y & Hy & Hin).
  apply filter_In in Hin as [Hin _].
  apply in_map_iff. now exists y.
Qed.

Lemma contributes_other (userId : string) (userShowIds excludeShowIds : list string)
    (similarities : JsMap.t Q) (r : Rating.t) :
  contributes userId userShowIds excludeShowIds similarities r = true ->
  Rating.user_id r <> userId.
Proof.
  unfold contributes. rewrite !andb_true_iff, negb_true_iff.
  intros [[[H _] _] _]. now apply String.eqb_neq.
Qed.

(** The ratings gathered for a show are its contributing ratings, in the
    order of the rows, each with the similarity of its rater. *)
Lemma showRatingsOf_get (userId : string) (excludeShowIds : list string)
    (allRatings : list Rating.t) (followedSet : list string)
    (showId : string) (ratings : list ShowRating.t) :
  JsMap.get (showRatingsOf userId excludeShowIds allRatings followedSet) showId
    = Some ratings ->
  ratings =
  map (fun r =>
         toShowRating r
           (or_zero (JsMap.get (similaritiesFor userId allRatings)
                               (Rating.user_id r)))
           followedSet)
      (filter (fun r =>
                 contributing userId excludeShowIds allRatings r
                 && String.eqb (Rating.show_id r) showId)
              allRatings).
Proof. unfold showRatingsOf. apply groupByShow_get. Qed.

Lemma recommend_twoRaters (now : Z) (userId : string) (mode : DeckMode)
    (excludeShowIds : list string)
    (allRatings : list Rating.t) (profiles : list Profile.t)
    (followedSet : list string) (shows : list Show.t)
    (rec : ShowRecommendation.t) :
  NoDup (map ratingKey allRatings) ->
  In rec (recommend now userId mode excludeShowIds allRatings profiles
                    followedSet shows) ->
  twoRaters userId excludeShowIds allRatings (ShowRecommendation.show_id rec).
Proof.
  intros Hnd Hin.
  apply recommend_In in Hin as (ratings & Hget & Hscore).
  apply scoreShow_Some in Hscore as (_ & Hlen & _).
  apply showRatingsOf_get in Hget.
  set (P := fun r => _ && _) in Hget.
  pose proof (NoDup_map_filter ratingKey P allRatings Hnd) as Hnd'.
  assert (HP : forall r, In r (filter P allRatings) ->
                         In r allRatings /\
                         contributing userId excludeShowIds allRatings r = true /\
                         Rating.show_id r = ShowRecommendation.show_id rec /\
                         Rating.user_id r <> userId).
  { intros r Hr. apply filter_In in Hr as [Hr HPr]. split; [exact Hr|].
    unfold P in HPr. apply andb_true_iff in HPr as [Hc He].
    split; [exact Hc|].
    split; [now apply String.eqb_eq | now apply contributes_other in Hc]. }
  subst ratings. rewrite length_map in Hlen.
  destruct (filter P allRatings) as [|a [|b rest]]; simpl in Hlen; try lia.
  destruct (HP a) as (Ha & Hca & Hsa & Hua); [now left|].
  destruct (HP b) as (Hb & Hcb & Hsb & Hub); [right; now left|].
  exists a, b. repeat split; try assumption.
  intros Heq. simpl in Hnd'. inversion Hnd' as [|? ? Hnotin _]; subst.
  apply Hnotin. left. unfold ratingKey. now rewrite Heq, Hsa, Hsb.
Qed.

(** C4. With one rating per rater and show, a show is in the list returned
    by [getPersonalizedRecommendations] only if two different users other
    than the requesting user rated it, with ratings that contribute; a show
    whose contributing ratings all come from one rater is not in the list. *)
Theorem min_two_raters (now : Z) (userId : string) (mode : DeckMode)
    (excludeShowIds : list string)
    (allRatings : list Rating.t) (profiles : list Profile.t)
    (follows : option (list Follow.t)) (shows : list Show.t)
    (recs : list ShowRecommendation.t) :
  NoDup (map ratingKey allRatings) ->
  getPersonalizedRecommendations
    (mkReads (Some allRatings) (Some profiles) follows (Some shows))
    now userId mode excludeShowIds = inr recs ->
  (forall rec, In rec recs ->
     twoRaters userId excludeShowIds allRatings (ShowRecommendation.show_id rec)) /\
  (forall showId rater,
      (forall r, In r allRatings -> Rating.show_id r = showId ->
                 contributing userId excludeShowIds allRatings r = true ->
                 Rating.user_id r = rater) ->
      forall rec, In rec recs -> ShowRecommendation.show_id rec <> showId).
Proof.
  intros Hnd. unfold getPersonalizedRecommendations.
  cbn [read_ratings read_profiles read_follows read_shows].
  intros [= <-].
  assert (H2 : forall rec,
             In rec (recommend now userId mode excludeShowIds allRatings profiles
                       match follows with
                       | Some l => map Follow.followee_id l
                       | None => []
                       end shows) ->
             twoRaters userId excludeShowIds allRatings
                       (ShowRecommendation.show_id rec))
    by (intros rec; now apply recommend_twoRaters).
  split; [exact H2|].
  intros showId rater Hone rec Hin Hid.
  destruct (H2 rec Hin)
    as (r1 & r2 & H1 & H2' & Hc1 & Hc2 & Hs1 & Hs2 & Hu1 & Hu2 & Hne).
  rewrite Hid in Hs1, Hs2.
  apply Hne. now rewrite (Hone r1 H1 Hs1 Hc1), (Hone r2 H2' Hs2 Hc2).
Qed.

Lemma sampleRatings_NoDup : NoDup (map ratingKey sampleRatings).
Proof.
  assert (E : nodup key_eq_dec (map ratingKey sampleRatings)
              = map ratingKey sampleRatings) by (vm_compute; reflexivity).
  rewrite <- E. apply NoDup_nodup.
Defined.

Lemma min_two_raters_witness :
  exists recs,
    NoDup (map ratingKey sampleRatings) /\
    getPersonalizedRecommendations sampleReads sampleNow "me" tonight [] = inr recs /\
    (forall rec, In rec recs ->
                 twoRaters "me" [] sampleRatings (ShowRecommendation.show_id rec)) /\
    (forall rec, In rec recs -> ShowRecommendation.show_id rec <> "s6"%string).
Proof.
  eexists. split; [exact sampleRatings_NoDup|].
  split; [vm_compute; reflexivity|].
  destruct (min_two_raters sampleNow "me" tonight [] sampleRatings sampleProfiles
              (Some [Follow.mk "me" "u2"]) sampleShows _ sampleRatings_NoDup
              eq_refl) as [H1 H2].
  split; [exact H1|].
  apply (H2 "s6"%string "u2"%string).
  intros r Hr Hs _. simpl in Hr.
  repeat (destruct Hr as [<-|Hr]; [try reflexivity; discriminate Hs|]).
  destruct Hr.
Defined.

(** *** The similarities of a request *)

Lemma groupByUser_group (userId : string) (allRatings : list Rating.t) :
  groupByUser userId allRatings =
  fold_left
    (group_step (fun r => negb (String.eqb (Rating.user_id r) userId))
                Rating.user_id (fun r => r))
    allRatings JsMap.empty.
Proof.
  unfold groupByUser. apply fold_left_pointwise.
  intros m r. unfold group_step.
  now destruct (String.eqb (Rating.user_id r) userId).
Qed.

Lemma groupByUser_wf (userId : string) (allRatings : list Rating.t) :
  JsMap.wf (groupByUser userId allRatings).
Proof. rewrite groupByUser_group. apply group_wf. constructor. Qed.

(** The group of another user holds the rows of that user, in their order. *)
Lemma groupByUser_get (userId : string) (allRatings : list Rating.t)
    (otherUserId : string) (ratings : list Rating.t) :
  JsMap.get (groupByUser userId allRatings) otherUserId = Some ratings ->
  otherUserId <> userId /\
  ratings = filter (fun r => String.eqb (Rating.user_id r) otherUserId) allRatings.
Proof.
  rewrite groupByUser_group, group_get. simpl. rewrite map_id.
  destruct (String.eqb otherUserId userId) eqn:E.
  - apply String.eqb_eq in E. subst otherUserId.
    rewrite filter_none; [discriminate|].
    intros r _. now destruct (String.eqb (Rating.user_id r) userId).
  - apply String.eqb_neq in E. intros H. split; [exact E|].
    assert (Ef : filter (fun x => negb (String.eqb (Rating.user_id x) userId)
                                  && String.eqb (Rating.user_id x) otherUserId)
                        allRatings
                 = filter (fun r => String.eqb (Rating.user_id r) otherUserId)
                          allRatings).
    { apply filter_ext. intros r.
      destruct (String.eqb (Rating.user_id r) otherUserId) eqn:E1;
        [|apply andb_false_r].
      apply String.eqb_eq in E1. rewrite E1.
      apply String.eqb_neq in E. now rewrite E. }
    rewrite Ef in H.
    destruct (filter _ allRatings); [discriminate|]. now injection H as <-.
Qed.

Section SetEach.
Context {V W : Type} (g : string * V -> W).

Lemma set_each_other (l : list (string * V)) (m : JsMap.t W) (k : string) :
  ~ In k (map fst l) ->
  JsMap.get (fold_left (fun m e => JsMap.set m (fst e) (g e)) l m) k
  = JsMap.get m k.
Proof.
  revert m. induction l as [|e l IH]; intros m Hk; simpl; [reflexivity|].
  simpl in Hk. rewrite IH by tauto. rewrite get_set.
  destruct (String.eqb (fst e) k) eqn:E; [|reflexivity].
  apply String.eqb_eq in E. tauto.
Qed.

Lemma set_each_get (l : list (string * V)) (m : JsMap.t W) (k : string) (v : V) :
  NoDup (map fst l) -> In (k, v) l ->
  JsMap.get (fold_left (fun m e => JsMap.set m (fst e) (g e)) l m) k
  = Some (g (k, v)).
Proof.
  revert m. induction l as [|e l IH]; intros m Hnd Hin; simpl; [destruct Hin|].
  inversion Hnd as [|? ? Hnotin Hnd']; subst.
  destruct Hin as [->|Hin].
  - rewrite set_each_other by exact Hnotin.
    simpl. now rewrite get_set, String.eqb_refl.
  - now apply IH.
Qed.
End SetEach.

(** The similarity recorded for another user is the one of the current
    user's ratings and that user's ratings. *)
Lemma similaritiesFor_get (userId : string) (allRatings : list Rating.t)
    (otherUserId : string) (ratings : list Rating.t) :
  JsMap.get (groupByUser userId allRatings) otherUserId = Some ratings ->
  JsMap.get (similaritiesFor userId allRatings) otherUserId =
  Some (calculateSimilarity (enjoymentMap (userRatingsOf userId allRatings))
                            (enjoymentMap ratings)).
Proof.
  intros H. apply get_Some_In in H.
  unfold similaritiesFor, similaritiesOf.
  apply (set_each_get
           (fun e => calculateSimilarity
                       (enjoymentMap (userRatingsOf userId allRatings))
                       (enjoymentMap (snd e)))
           _ _ _ _ (groupByUser_wf userId allRatings) H).
Qed.

(** *** The weighted average *)

Lemma accumulate_sums (now : Z) (mode : DeckMode) (profilesMap : JsMap.t Profile.t)
    (ratings : list ShowRating.t) (acc : Accum) :
  let acc' := fold_left (accumulate now mode profilesMap) ratings acc in
  weightedSum acc' ==
    weightedSum acc
    + Qsum (map (fun r => ShowRating.enjoyment r * ratingWeight now mode r) ratings) /\
  totalWeight acc' ==
    totalWeight acc + Qsum (map (ratingWeight now mode) ratings).
Proof.
  revert acc. induction ratings as [|r l IH]; intros acc; simpl.
  - split; ring.
  - destruct (IH (accumulate now mode profilesMap acc r)) as [H1 H2].
    simpl in H1, H2. rewrite H1, H2. split; ring.
Qed.



(** *** The content multiplier *)







(** On the sample data, in tonight mode, "s5" is scored 8.63 / 1.318 from
    the enjoyments 5 (weight 0.91) and 10 (weight 0.408). *)
Example sample_s5 :
  let ratings :=
    match JsMap.get (showRatingsOf "me" [] sampleRatings ["u2"%string]) "s5" with
    | Some l => l
    | None => []
    end in
  let base :=
    baseScore (accumulated sampleNow tonight
                 (JsMap.of_entries (map (fun p => (Profile.id p, p)) sampleProfiles))
                 ratings) in
  map ShowRating.enjoyment ratings = [5; 10] /\
  map (ratingWeight sampleNow tonight) ratings
    = [(1 * (7 # 10) + 0) * (13 # 10); ((3 # 10) * (7 # 10) + (3 # 10)) * (8 # 10)] /\
  average ShowRating.enjoyment ratings == 75 # 10 /\
  base == 8630 # 1318 /\
  finalScore tonight base base ratings ["slow burn"%string] == 8630 # 1318 /\
  finalScore tonight base (average ShowRating.enjoyment ratings) ratings
             ["slow burn"%string] == 9493 # 1318.
Proof. vm_compute. repeat split. Qed.


(** ** The home deck *)

Lemma Set_has_In (s : list string) (x : string) : Set_has s x = true <-> In x s.
Proof.
  unfold Set_has. rewrite existsb_exists. split.
  - intros (y & Hy & E). apply String.eqb_eq in E. now subst.
  - intros H. exists x. split; [exact H | apply String.eqb_refl].
Qed.

Lemma Set_has_false (s : list string) (x : string) :
  Set_has s x = false <-> ~ In x s.
Proof. rewrite <- Set_has_In. now destruct (Set_has s x). Qed.

Lemma has_Set_has {V : Type} (m : JsMap.t V) (k : string) :
  JsMap.has m k = Set_has (JsMap.keys m) k.
Proof.
  destruct (Set_has (JsMap.keys m) k) eqn:E.
  - now apply has_In_keys, Set_has_In.
  - apply Set_has_false in E. rewrite <- has_In_keys in E.
    now destruct (JsMap.has m k).
Qed.

Lemma set_absent {V : Type} (m : JsMap.t V) (k : string) (v : V) :
  JsMap.has m k = false -> JsMap.set m k v = m ++ [(k, v)].
Proof.
  unfold JsMap.has.
  induction m as [|[k0 v0] m IH]; simpl; [reflexivity|].
  destruct (String.eqb k0 k); [discriminate|].
  intros H. now rewrite IH.
Qed.

(** *** Keeping the first pick of each show *)

Lemma firstOccurrences_In (seen : list string) (l : list HomePick.t)
    (p : HomePick.t) :
  In p (firstOccurrences seen l) -> In p l /\ ~ In (HomePick.show_id p) seen.
Proof.
  revert seen. induction l as [|x l IH]; intros seen; simpl; [tauto|].
  destruct (Set_has seen (HomePick.show_id x)) eqn:E.
  - intros H. apply IH in H. tauto.
  - apply Set_has_false in E. intros [<-|H]; [tauto|].
    apply IH in H as [H1 H2]. split; [tauto|].
    intros H3. apply H2, in_or_app. now left.
Qed.

Lemma firstOccurrences_NoDup (seen : list string) (l : list HomePick.t) :
  NoDup (map HomePick.show_id (firstOccurrences seen l)).
Proof.
  revert seen. induction l as [|x l IH]; intros seen; simpl; [constructor|].
  destruct (Set_has seen (HomePick.show_id x)); [apply IH|].
  simpl. constructor; [|apply IH].
  intros H. apply in_map_iff in H as (p & Hid & Hp).
  apply firstOccurrences_In in Hp as [_ Hp].
  apply Hp, in_or_app. right. left. now symmetry.
Qed.

Lemma firstOccurrences_first (seen : list string) (l : list HomePick.t)
    (p : HomePick.t) :
  In p (firstOccurrences seen l) -> find (sameShow p) l = Some p.
Proof.
  revert seen. induction l as [|x l IH]; intros seen; simpl; [tauto|].
  unfold sameShow at 1.
  destruct (Set_has seen (HomePick.show_id x)) eqn:E.
  - intros H. pose proof (firstOccurrences_In _ _ _ H) as [_ Hp].
    apply Set_has_In in E.
    destruct (String.eqb (HomePick.show_id x) (HomePick.show_id p)) eqn:Ex.
    + apply String.eqb_eq in Ex. congruence.
    + now apply (IH seen).
  - intros [<-|H]; [now rewrite String.eqb_refl|].
    pose proof (firstOccurrences_In _ _ _ H) as [_ Hp].
    destruct (String.eqb (HomePick.show_id x) (HomePick.show_id p)) eqn:Ex.
    + apply String.eqb_eq in Ex. exfalso. apply Hp, in_or_app. right. now left.
    + now apply (IH (seen ++ [HomePick.show_id x])).
Qed.

Lemma firstOccurrences_app (seen : list string) (l1 l2 : list HomePick.t) :
  firstOccurrences seen (l1 ++ l2) =
  firstOccurrences seen l1
  ++ firstOccurrences
       (seen ++ map HomePick.show_id (firstOccurrences seen l1)) l2.
Proof.
  revert seen. induction l1 as [|x l1 IH]; intros seen; simpl.
  - now rewrite app_nil_r.
  - destruct (Set_has seen (HomePick.show_id x)); [apply IH|].
    simpl. rewrite IH, <- app_assoc. reflexivity.
Qed.

(** The [Map] of tiers A and B holds the first pick of each show, in the
    order of first appearance. *)
Lemma combine_fold (l : list HomePick.t) (m : JsMap.t HomePick.t) :
  JsMap.values
    (fold_left
       (fun combinedPicks pick =>
          if JsMap.has combinedPicks (HomePick.show_id pick) then combinedPicks
          else JsMap.set combinedPicks (HomePick.show_id pick) pick)
       l m) =
  JsMap.values m ++ firstOccurrences (JsMap.keys m) l.
Proof.
  revert m. induction l as [|x l IH]; intros m; simpl.
  - now rewrite app_nil_r.
  - rewrite IH, <- has_Set_has.
    destruct (JsMap.has m (HomePick.show_id x)) eqn:E; [reflexivity|].
    rewrite (set_absent _ _ _ E). unfold JsMap.values, JsMap.keys.
    rewrite !map_app, <- app_assoc. reflexivity.
Qed.

Lemma combinePicks_first (l : list HomePick.t) :
  combinePicks l = firstOccurrences [] l.
Proof. unfold combinePicks. now rewrite combine_fold. Qed.

Lemma addTrending_first (allPicks trendingPicks : list HomePick.t) :
  addTrending allPicks trendingPicks =
  allPicks ++ firstOccurrences (map HomePick.show_id allPicks) trendingPicks.
Proof.
  unfold addTrending. revert allPicks.
  induction trendingPicks as [|x l IH]; intros allPicks; simpl.
  - now rewrite app_nil_r.
  - rewrite IH.
    assert (E : existsb (fun p => String.eqb (HomePick.show_id p)
                                             (HomePick.show_id x)) allPicks
                = Set_has (map HomePick.show_id allPicks) (HomePick.show_id x)).
    { unfold Set_has. induction allPicks as [|p ps IHps]; simpl; [reflexivity|].
      now rewrite IHps, String.eqb_sym. }
    rewrite E.
    destruct (Set_has _ (HomePick.show_id x)); [reflexivity|].
    rewrite map_app, <- app_assoc. reflexivity.
Qed.

(** The deck is made of the first ten shows of the three tiers, each show
    taken where it first appears. *)
Lemma homeDeck_first (reads : HomeReads) (now : Z) (userId : string)
    (mode : DeckMode) (excludedIds : list string) :
  homeDeck reads now userId mode excludedIds =
  firstn 10 (firstOccurrences [] (homeTiers reads now userId mode excludedIds)).
Proof.
  unfold homeDeck, homeTiers.
  rewrite addTrending_first, combinePicks_first.
  rewrite app_assoc, (firstOccurrences_app [] (_ ++ _)).
  reflexivity.
Qed.

Lemma In_firstn {A : Type} (n : nat) (l : list A) (x : A) :
  In x (firstn n l) -> In x l.
Proof.
  revert n. induction l as [|y l IH]; intros [|n]; simpl; try tauto.
  intros [H|H]; [now left | right; now apply (IH n)].
Qed.

Lemma NoDup_firstn {A : Type} (n : nat) (l : list A) :
  NoDup l -> NoDup (firstn n l).
Proof.
  revert n. induction l as [|x l IH]; intros [|n] H; simpl; try constructor.
  - inversion H as [|? ? Hnotin _]; subst.
    intros Hin. apply Hnotin. revert Hin. apply In_firstn.
  - inversion H; subst. now apply IH.
Qed.

(** C8. The deck returned by [getHomePicks] has at most 10 picks and no
    two picks of the same show, also when the tiers overlap; of the picks of
    one show in the tiers, the deck holds the first one. *)
Theorem home_deck_bounded_distinct (reads : HomeReads) (now thirtyDaysAgo : Z)
    (userId : string) (mode : DeckMode) (excludeShowIds : list string)
    (picks : list HomePick.t) :
  getHomePicks reads now thirtyDaysAgo userId mode excludeShowIds = inr picks ->
  (List.length picks <= 10)%nat /\
  NoDup (map HomePick.show_id picks) /\
  exists userRatings watchActions,
    home_userRatings reads = Some userRatings /\
    home_watchActions reads = Some watchActions /\
    forall p, In p picks ->
      find (sameShow p)
           (homeTiers reads now userId mode
              (excludedIdsOf thirtyDaysAgo excludeShowIds userRatings watchActions))
      = Some p.
Proof.
  unfold getHomePicks.
  destruct (home_userRatings reads) as [userRatings|]; [|discriminate].
  destruct (home_watchActions reads) as [watchActions|]; [|discriminate].
  intros [= <-]. rewrite homeDeck_first.
  split; [apply firstn_le_length|].
  split.
  - rewrite <- firstn_map. apply NoDup_firstn, firstOccurrences_NoDup.
  - exists userRatings, watchActions. repeat split.
    intros p Hp. apply In_firstn in Hp.
    now apply firstOccurrences_first in Hp.
Qed.

Lemma home_deck_bounded_distinct_witness :
  exists picks,
    getHomePicks sampleHome sampleNow sampleThirtyDaysAgo "me" tonight [] = inr picks /\
    (List.length picks <= 10)%nat /\
    NoDup (map HomePick.show_id picks).
Proof.
  eexists. split; [vm_compute; reflexivity|].
  refine (let H := home_deck_bounded_distinct sampleHome sampleNow sampleThirtyDaysAgo "me" tonight
                     [] _ _ in conj (proj1 H) (proj1 (proj2 H))).
  vm_compute. reflexivity.
Defined.

(** * Further properties *)

(** ** The similarity, the recency weight and the content multiplier *)

Lemma calculateSimilarity_range_aux (userRatings otherRatings : JsMap.t Q) :
  0 <= calculateSimilarity userRatings otherRatings <= 1.
Proof.
  unfold calculateSimilarity.
  destruct (List.length (sharedShows userRatings otherRatings) <? 3)%nat.
  - split; discriminate.
  - rewrite Math_clamp by lra. apply clamp_bounds. lra.
Qed.

(** X1. The similarity of any two maps lies between 0 and 1. *)
Theorem calculateSimilarity_range (userRatings otherRatings : JsMap.t Q) :
  0 <= calculateSimilarity userRatings otherRatings <= 1.
Proof. apply calculateSimilarity_range_aux. Qed.

Lemma filter_length {A : Type} (f : A -> bool) (l : list A) :
  (List.length (filter f l) <= List.length l)%nat.
Proof.
  induction l as [|x l IH]; simpl; [lia|].
  destruct (f x); simpl; lia.
Qed.

Lemma sharedShows_length (A B : JsMap.t Q) :
  JsMap.wf A ->
  (List.length (sharedShows A B) <= List.length A)%nat /\
  (List.length (sharedShows A B) <= List.length B)%nat.
Proof.
  intros HA. split.
  - unfold sharedShows. etransitivity; [apply filter_length|].
    unfold JsMap.keys. now rewrite length_map.
  - replace (List.length B) with (List.length (JsMap.keys B))
      by (unfold JsMap.keys; apply length_map).
    apply NoDup_incl_length; [now apply sharedShows_NoDup|].
    intros k Hk. now apply sharedShows_In in Hk.
Qed.

(** X2. A user with fewer than 3 ratings, on either side, has the default
    similarity 0.3 with everybody. *)
Theorem calculateSimilarity_sparse (A B : JsMap.t Q) :
  JsMap.wf A ->
  (List.length A < 3)%nat \/ (List.length B < 3)%nat ->
  calculateSimilarity A B = 3 # 10.
Proof.
  intros HA Hlen. unfold calculateSimilarity.
  destruct (sharedShows_length A B HA) as [H1 H2].
  assert (H : (List.length (sharedShows A B) <? 3)%nat = true)
    by (apply Nat.ltb_lt; lia).
  now rewrite H.
Qed.

Lemma calculateSimilarity_sparse_witness :
  calculateSimilarity sampleA [("s1", 0); ("s2", 0)]%string = 3 # 10.
Proof.
  apply (calculateSimilarity_sparse sampleA _ sampleA_wf).
  right. simpl. lia.
Defined.

Lemma daysDiff_antitone (now c1 c2 : Z) :
  (c1 <= c2)%Z -> (daysDiff now c2 <= daysDiff now c1)%Z.
Proof.
  intros H. unfold daysDiff. apply Z.div_le_mono.
  - unfold MS_PER_DAY. lia.
  - lia.
Qed.

(** X3. An older rating never weighs more than a newer one; the recency
    multiplier stays between 0.8 and 1.3, and the this-weekend multiplier
    never exceeds the tonight one. *)
Theorem getRecencyMultiplier_antitone (now c1 c2 : Z) (mode : DeckMode) :
  (c1 <= c2)%Z ->
  getRecencyMultiplier now c1 mode <= getRecencyMultiplier now c2 mode /\
  8 # 10 <= getRecencyMultiplier now c1 mode <= 13 # 10 /\
  getRecencyMultiplier now c1 this_weekend <= getRecencyMultiplier now c1 tonight.
Proof.
  intros H. pose proof (daysDiff_antitone now c1 c2 H) as Hd.
  unfold getRecencyMultiplier.
  destruct (Z.ltb_spec (daysDiff now c1) 30), (Z.leb_spec (daysDiff now c1) 180),
    (Z.ltb_spec (daysDiff now c2) 30), (Z.leb_spec (daysDiff now c2) 180),
    mode; try lia; repeat split; discriminate.
Qed.

Lemma getRecencyMultiplier_antitone_witness :
  getRecencyMultiplier sampleNow 0 tonight
  <= getRecencyMultiplier sampleNow (190 * MS_PER_DAY) tonight.
Proof.
  apply (getRecencyMultiplier_antitone sampleNow 0 (190 * MS_PER_DAY) tonight).
  unfold MS_PER_DAY. lia.
Defined.



(** ** More on the recommendation pipeline *)

Lemma getPersonalizedRecommendations_inr (reads : Reads) (now : Z)
    (userId : string) (mode : DeckMode) (excludeShowIds : list string)
    (recs : list ShowRecommendation.t) :
  getPersonalizedRecommendations reads now userId mode excludeShowIds = inr recs ->
  exists allRatings profiles shows,
    read_ratings reads = Some allRatings /\
    read_profiles reads = Some profiles /\
    read_shows reads = Some shows /\
    recs = recommend now userId mode excludeShowIds allRatings profiles
                     (followedSetOf reads) shows.
Proof.
  unfold getPersonalizedRecommendations, followedSetOf.
  destruct (read_ratings reads) as [allRatings|]; [|discriminate].
  destruct (read_profiles reads) as [profiles|]; [|discriminate].
  destruct (read_shows reads) as [shows|]; [|discriminate].
  intros [= <-]. now exists allRatings, profiles, shows.
Qed.

Section OfEntries.
Context {V : Type}.

Lemma of_entries_fold_get (l : list (string * V)) (m : JsMap.t V)
    (k : string) (v : V) :
  JsMap.get (fold_left (fun m kv => JsMap.set m (fst kv) (snd kv)) l m) k = Some v ->
  JsMap.get m k = Some v \/ In (k, v) l.
Proof.
  revert m. induction l as [|[k0 v0] l IH]; intros m H; simpl in *; [now left|].
  apply IH in H as [H|H]; [|now right; right].
  rewrite get_set in H. destruct (String.eqb k0 k) eqn:E.
  - apply String.eqb_eq in E. injection H as <-. subst. right. now left.
  - now left.
Qed.

Lemma of_entries_get_In (l : list (string * V)) (k : string) (v : V) :
  JsMap.get (JsMap.of_entries l) k = Some v -> In (k, v) l.
Proof.
  intros H. apply of_entries_fold_get in H as [H|H]; [discriminate | exact H].
Qed.

Lemma of_entries_fold_has (l : list (string * V)) (m : JsMap.t V) (k : string) :
  JsMap.has m k = true \/ In k (map fst l) ->
  JsMap.has (fold_left (fun m kv => JsMap.set m (fst kv) (snd kv)) l m) k = true.
Proof.
  revert m. induction l as [|[k0 v0] l IH]; intros m H; simpl in *.
  - destruct H as [H|[]]. exact H.
  - apply IH. destruct H as [H|[H|H]]; [| |now right].
    + left. unfold JsMap.has in *. rewrite get_set.
      now destruct (String.eqb k0 k).
    + left. subst. unfold JsMap.has. now rewrite get_set, String.eqb_refl.
Qed.

Lemma of_entries_has (l : list (string * V)) (k : string) :
  In k (map fst l) -> exists v, JsMap.get (JsMap.of_entries l) k = Some v.
Proof.
  intros H.
  pose proof (of_entries_fold_has l JsMap.empty k (or_intror H)) as Hh.
  unfold JsMap.has in Hh. fold (JsMap.of_entries l) in Hh.
  destruct (JsMap.get (JsMap.of_entries l) k) as [v|]; [now exists v|discriminate].
Qed.
End OfEntries.

Lemma recommend_score_range (now : Z) (userId : string) (mode : DeckMode)
    (excludeShowIds : list string)
    (allRatings : list Rating.t) (profiles : list Profile.t)
    (followedSet : list string) (shows : list Show.t)
    (rec : ShowRecommendation.t) :
  In rec (recommend now userId mode excludeShowIds allRatings profiles
                    followedSet shows) ->
  0 <= ShowRecommendation.score rec <= 10.
Proof.
  intros Hin.
  apply recommend_In in Hin as (ratings & _ & Hscore).
  apply scoreShow_Some in Hscore as (_ & _ & _ & -> & _).
  unfold clampedScore. rewrite Math_clamp by lra. apply clamp_bounds. lra.
Qed.

(** X5. Every score returned by [getPersonalizedRecommendations] lies
    between 0 and 10. *)
Theorem recommendation_score_range (reads : Reads) (now : Z) (userId : string)
    (mode : DeckMode) (excludeShowIds : list string)
    (recs : list ShowRecommendation.t) (rec : ShowRecommendation.t) :
  getPersonalizedRecommendations reads now userId mode excludeShowIds = inr recs ->
  In rec recs ->
  0 <= ShowRecommendation.score rec <= 10.
Proof.
  intros H Hin.
  apply getPersonalizedRecommendations_inr in H
    as (allRatings & profiles & shows & _ & _ & _ & ->).
  now apply recommend_score_range in Hin.
Qed.

Lemma recommendation_score_range_witness :
  exists recs rec,
    getPersonalizedRecommendations sampleReads sampleNow "me" tonight [] = inr recs /\
    nth_error recs 0 = Some rec /\
    0 <= ShowRecommendation.score rec <= 10.
Proof.
  do 2 eexists. split; [vm_compute; reflexivity|]. split; [reflexivity|].
  refine (recommendation_score_range sampleReads sampleNow "me" tonight [] _ _ _ _).
  - vm_compute. reflexivity.
  - left. reflexivity.
Defined.

Lemma recommend_fresh (now : Z) (userId : string) (mode : DeckMode)
    (excludeShowIds : list string)
    (allRatings : list Rating.t) (profiles : list Profile.t)
    (followedSet : list string) (shows : list Show.t)
    (rec : ShowRecommendation.t) :
  In rec (recommend now userId mode excludeShowIds allRatings profiles
                    followedSet shows) ->
  ~ In (ShowRecommendation.show_id rec) excludeShowIds /\
  forall r, In r allRatings -> Rating.user_id r = userId ->
            Rating.show_id r <> ShowRecommendation.show_id rec.
Proof.
  intros Hin.
  apply recommend_In in Hin as (ratings & Hget & Hscore).
  apply scoreShow_Some in Hscore as (_ & Hlen & _).
  apply showRatingsOf_get in Hget. subst ratings. rewrite length_map in Hlen.
  destruct (filter _ allRatings) as [|r0 rest] eqn:E; [simpl in Hlen; lia|].
  assert (Hr0 : In r0 (filter
                         (fun r => contributing userId excludeShowIds allRatings r
                                   && String.eqb (Rating.show_id r)
                                                 (ShowRecommendation.show_id rec))
                         allRatings)) by (rewrite E; now left).
  apply filter_In in Hr0 as [_ Hc]. apply andb_true_iff in Hc as [Hc Hs].
  apply String.eqb_eq in Hs.
  unfold contributing, contributes in Hc.
  rewrite !andb_true_iff, !negb_true_iff in Hc.
  destruct Hc as [[[_ Hu] He] _].
  rewrite Hs in Hu, He. split.
  - now apply Set_has_false.
  - intros r Hin Huser Hshow. apply Set_has_false in Hu. apply Hu.
    rewrite <- Hshow. apply in_map. unfold userRatingsOf.
    apply filter_In. split; [exact Hin | now apply String.eqb_eq].
Qed.

(** X6. A show the user has rated, or one of the exclusion set, is never
    recommended. *)
Theorem recommendation_not_rated_not_excluded (reads : Reads) (now : Z)
    (userId : string) (mode : DeckMode) (excludeShowIds : list string)
    (allRatings : list Rating.t)
    (recs : list ShowRecommendation.t) (rec : ShowRecommendation.t) :
  read_ratings reads = Some allRatings ->
  getPersonalizedRecommendations reads now userId mode excludeShowIds = inr recs ->
  In rec recs ->
  ~ In (ShowRecommendation.show_id rec) excludeShowIds /\
  forall r, In r allRatings -> Rating.user_id r = userId ->
            Rating.show_id r <> ShowRecommendation.show_id rec.
Proof.
  intros Hr H Hin.
  apply getPersonalizedRecommendations_inr in H
    as (allRatings' & profiles & shows & Hr' & _ & _ & ->).
  rewrite Hr in Hr'. injection Hr' as <-.
  now apply recommend_fresh in Hin.
Qed.

Lemma recommendation_not_rated_not_excluded_witness :
  exists recs,
    getPersonalizedRecommendations sampleReads sampleNow "me" tonight ["s4"%string]
      = inr recs /\
    forall rec, In rec recs ->
      ~ In (ShowRecommendation.show_id rec) ["s4"%string].
Proof.
  eexists. split; [vm_compute; reflexivity|].
  intros rec Hin.
  refine (proj1 (recommendation_not_rated_not_excluded sampleReads sampleNow "me"
                   tonight ["s4"%string] sampleRatings _ rec eq_refl _ Hin)).
  vm_compute. reflexivity.
Defined.

Lemma fold_push_flat_map {A B : Type} (F : A -> option B) (l : list A)
    (acc : list B) :
  fold_left (fun acc x => match F x with
                          | Some r => acc ++ [r]
                          | None => acc
                          end) l acc
  = acc ++ flat_map (fun x => match F x with Some r => [r] | None => [] end) l.
Proof.
  revert acc. induction l as [|x l IH]; intros acc; simpl.
  - now rewrite app_nil_r.
  - rewrite IH. destruct (F x); [now rewrite <- app_assoc | reflexivity].
Qed.

Lemma scored_NoDup {V : Type} (F : string * V -> option ShowRecommendation.t)
    (l : list (string * V)) :
  NoDup (map fst l) ->
  (forall e r, F e = Some r -> ShowRecommendation.show_id r = fst e) ->
  NoDup (map ShowRecommendation.show_id
             (flat_map (fun e => match F e with Some r => [r] | None => [] end) l)).
Proof.
  intros Hnd HF. induction l as [|e l IH]; simpl; [constructor|].
  inversion Hnd as [|? ? Hnotin Hnd']; subst.
  destruct (F e) as [r|] eqn:E; simpl; [|now apply IH].
  constructor; [|now apply IH].
  intros Hin. apply Hnotin.
  apply in_map_iff in Hin as (r' & Hid & Hin).
  apply in_flat_map in Hin as (e' & He' & Hr').
  destruct (F e') as [r''|] eqn:E'; [|destruct Hr'].
  destruct Hr' as [->|[]].
  rewrite <- (HF e r E), <- Hid, (HF e' r' E'). now apply in_map.
Qed.

(** X7. No show is recommended twice. *)
Theorem recommendations_distinct (reads : Reads) (now : Z) (userId : string)
    (mode : DeckMode) (excludeShowIds : list string)
    (recs : list ShowRecommendation.t) :
  getPersonalizedRecommendations reads now userId mode excludeShowIds = inr recs ->
  NoDup (map ShowRecommendation.show_id recs).
Proof.
  intros H.
  apply getPersonalizedRecommendations_inr in H
    as (allRatings & profiles & shows & _ & _ & _ & ->).
  unfold recommend.
  destruct (List.length (userRatingsOf userId allRatings) <? 3)%nat; [constructor|].
  eapply Permutation_NoDup.
  - apply Permutation_map, sort_desc_Permutation.
  - rewrite fold_push_flat_map. simpl.
    apply (scored_NoDup
             (fun e => scoreShow now mode _ _ (fst e) (snd e))).
    + apply groupByShow_wf.
    + intros e r Hs. now apply scoreShow_Some in Hs as (Hid & _).
Qed.

Lemma recommendations_distinct_witness :
  exists recs,
    getPersonalizedRecommendations sampleReads sampleNow "me" this_weekend [] = inr recs /\
    NoDup (map ShowRecommendation.show_id recs).
Proof.
  eexists. split; [vm_compute; reflexivity|].
  refine (recommendations_distinct sampleReads sampleNow "me" this_weekend [] _ _).
  vm_compute. reflexivity.
Defined.

Lemma scoreShow_show (now : Z) (mode : DeckMode)
    (profilesMap : JsMap.t Profile.t) (showsMap : JsMap.t Show.t)
    (showId : string) (ratings : list ShowRating.t) (rec : ShowRecommendation.t) :
  scoreShow now mode profilesMap showsMap showId ratings = Some rec ->
  exists show,
    JsMap.get showsMap showId = Some show /\
    ShowRecommendation.title rec = Show.title show /\
    ShowRecommendation.poster_path rec = Show.poster_path show.
Proof.
  unfold scoreShow.
  destruct (List.length ratings <? 2)%nat; [discriminate|].
  destruct (Qeq_bool _ 0); [discriminate|].
  destruct (JsMap.get showsMap showId) as [show|]; [|discriminate].
  intros [= <-]. now exists show.
Qed.

(** X8. A recommended show is a row of the shows read, from which its
    title and poster are taken. *)
Theorem recommendation_known_show (reads : Reads) (now : Z) (userId : string)
    (mode : DeckMode) (excludeShowIds : list string) (shows : list Show.t)
    (recs : list ShowRecommendation.t) (rec : ShowRecommendation.t) :
  read_shows reads = Some shows ->
  getPersonalizedRecommendations reads now userId mode excludeShowIds = inr recs ->
  In rec recs ->
  exists show,
    In show shows /\
    Show.id show = ShowRecommendation.show_id rec /\
    ShowRecommendation.title rec = Show.title show /\
    ShowRecommendation.poster_path rec = Show.poster_path show.
Proof.
  intros Hs H Hin.
  apply getPersonalizedRecommendations_inr in H
    as (allRatings & profiles & shows' & _ & _ & Hs' & ->).
  rewrite Hs in Hs'. injection Hs' as <-.
  apply recommend_In in Hin as (ratings & _ & Hscore).
  apply scoreShow_show in Hscore as (show & Hget & Ht & Hp).
  apply of_entries_get_In in Hget.
  apply in_map_iff in Hget as (show' & [= Hid ->] & Hin).
  exists show. repeat split; assumption.
Qed.

Lemma recommendation_known_show_witness :
  exists recs rec show,
    getPersonalizedRecommendations sampleReads sampleNow "me" tonight [] = inr recs /\
    nth_error recs 0 = Some rec /\
    In show sampleShows /\ Show.id show = ShowRecommendation.show_id rec.
Proof.
  destruct (recommendation_known_show sampleReads sampleNow "me" tonight []
              sampleShows
              (recommend sampleNow "me" tonight [] sampleRatings sampleProfiles
                         ["u2"%string] sampleShows)
              (nth 0 (recommend sampleNow "me" tonight [] sampleRatings
                                sampleProfiles ["u2"%string] sampleShows)
                   (ShowRecommendation.mk "" "" None 0 "" []))
              eq_refl eq_refl)
    as (show & Hin & Hid & _).
  - vm_compute. left. reflexivity.
  - do 3 eexists. split; [reflexivity|]. split; [vm_compute; reflexivity|].
    split; [exact Hin | exact Hid].
Defined.

(** *** Weights are positive *)

Lemma set_each_Some {V W : Type} (g : string * V -> W) (l : list (string * V))
    (m : JsMap.t W) (k : string) (w : W) :
  JsMap.get (fold_left (fun m e => JsMap.set m (fst e) (g e)) l m) k = Some w ->
  JsMap.get m k = Some w \/ exists e, In e l /\ w = g e.
Proof.
  revert m. induction l as [|e l IH]; intros m H; simpl in *; [now left|].
  apply IH in H as [H|(e' & He' & Hw)]; [|right; exists e'; auto].
  rewrite get_set in H. destruct (String.eqb (fst e) k).
  - injection H as <-. right. exists e. auto.
  - now left.
Qed.

Lemma similaritiesFor_range (userId : string) (allRatings : list Rating.t)
    (otherUserId : string) (s : Q) :
  JsMap.get (similaritiesFor userId allRatings) otherUserId = Some s ->
  0 <= s <= 1.
Proof.
  unfold similaritiesFor, similaritiesOf. intros H.
  apply set_each_Some in H as [H|(e & _ & ->)]; [discriminate|].
  apply calculateSimilarity_range_aux.
Qed.

Lemma getRecencyMultiplier_pos (now createdAt : Z) (mode : DeckMode) :
  8 # 10 <= getRecencyMultiplier now createdAt mode.
Proof.
  unfold getRecencyMultiplier.
  destruct mode, (daysDiff now createdAt <? 30)%Z,
    (daysDiff now createdAt <=? 180)%Z; discriminate.
Qed.

Lemma ratingWeight_pos (now : Z) (mode : DeckMode) (r : ShowRating.t) :
  0 < ShowRating.similarity r -> 0 < ratingWeight now mode r.
Proof.
  intros H. unfold ratingWeight.
  pose proof (getRecencyMultiplier_pos now (ShowRating.created_at r) mode).
  destruct (ShowRating.isFollowed r); nra.
Qed.

(** The ratings gathered for a show come from raters of similarity in
    (0, 1]. *)
Lemma showRatingsOf_similarity (userId : string) (excludeShowIds : list string)
    (allRatings : list Rating.t) (followedSet : list string)
    (showId : string) (ratings : list ShowRating.t) (r : ShowRating.t) :
  JsMap.get (showRatingsOf userId excludeShowIds allRatings followedSet) showId
    = Some ratings ->
  In r ratings -> 0 < ShowRating.similarity r <= 1.
Proof.
  intros Hget Hr. apply showRatingsOf_get in Hget. subst ratings.
  apply in_map_iff in Hr as (r0 & <- & Hr0).
  apply filter_In in Hr0 as [_ Hc]. apply andb_true_iff in Hc as [Hc _].
  unfold contributing, contributes in Hc.
  rewrite !andb_true_iff, !negb_true_iff in Hc. destruct Hc as [_ Hs].
  cbn [toShowRating ShowRating.similarity].
  destruct (JsMap.get (similaritiesFor userId allRatings) (Rating.user_id r0))
    as [s|] eqn:E; [|discriminate].
  cbn [or_zero] in *.
  pose proof (similaritiesFor_range _ _ _ _ E) as [H0 H1].
  split; [|exact H1].
  apply Qle_lteq in H0 as [H0|H0]; [exact H0|].
  exfalso. assert (Ht : Qeq_bool s 0 = true)
    by (apply Qeq_bool_iff; now symmetry).
  congruence.
Qed.

Lemma Qsum_nonneg (l : list Q) :
  (forall x, In x l -> 0 <= x) -> 0 <= Qsum l.
Proof.
  induction l as [|y l IH]; intros H; simpl; [discriminate|].
  pose proof (H y (or_introl eq_refl)).
  pose proof (IH (fun x Hx => H x (or_intror Hx))). lra.
Qed.

Lemma Qsum_pos (l : list Q) :
  l <> [] -> (forall x, In x l -> 0 < x) -> 0 < Qsum l.
Proof.
  destruct l as [|x l]; [congruence|]. intros _ H. simpl.
  pose proof (H x (or_introl eq_refl)).
  assert (0 <= Qsum l)
    by (apply Qsum_nonneg; intros y Hy; apply Qlt_le_weak, H; now right).
  lra.
Qed.

Lemma totalWeight_pos (now : Z) (mode : DeckMode) (profilesMap : JsMap.t Profile.t)
    (ratings : list ShowRating.t) :
  ratings <> [] ->
  (forall r, In r ratings -> 0 < ShowRating.similarity r) ->
  0 < totalWeight (accumulated now mode profilesMap ratings).
Proof.
  intros Hne Hpos.
  destruct (accumulate_sums now mode profilesMap ratings (mkAccum 0 0 []))
    as [_ Htw].
  cbn [totalWeight] in Htw. rewrite Qplus_0_l in Htw.
  unfold accumulated. rewrite Htw.
  apply Qsum_pos.
  - destruct ratings; [congruence | discriminate].
  - intros x Hx. apply in_map_iff in Hx as (r & <- & Hr).
    now apply ratingWeight_pos, Hpos.
Qed.


Lemma showRatingsOf_nonempty (userId : string) (excludeShowIds : list string)
    (allRatings : list Rating.t) (followedSet : list string)
    (showId : string) (ratings : list ShowRating.t) :
  JsMap.get (showRatingsOf userId excludeShowIds allRatings followedSet) showId
    = Some ratings ->
  ratings <> [].
Proof.
  unfold showRatingsOf. rewrite groupByShow_group, group_get. simpl.
  destruct (map _ (filter _ allRatings)); [discriminate|].
  intros [= <-]. discriminate.
Qed.



(** X10. The zero-weight test never fires: a show with two contributing
    ratings that is a row of the shows read is always recommended, provided
    the user has the three ratings the pipeline asks for. *)
Theorem enough_raters_recommended (now : Z) (userId : string) (mode : DeckMode)
    (excludeShowIds : list string)
    (allRatings : list Rating.t) (profiles : list Profile.t)
    (follows : option (list Follow.t)) (shows : list Show.t) (showId : string) :
  (3 <= List.length (userRatingsOf userId allRatings))%nat ->
  (2 <= List.length
          (filter (fun r => contributing userId excludeShowIds allRatings r
                            && String.eqb (Rating.show_id r) showId)
                  allRatings))%nat ->
  In showId (map Show.id shows) ->
  exists recs rec,
    getPersonalizedRecommendations
      (mkReads (Some allRatings) (Some profiles) follows (Some shows))
      now userId mode excludeShowIds = inr recs /\
    In rec recs /\ ShowRecommendation.show_id rec = showId.
Proof.
  intros Huser Hlen Hshow.
  eexists. unfold getPersonalizedRecommendations.
  cbn [read_ratings read_profiles read_follows read_shows].
  set (followedSet := match follows with
                      | Some l => map Follow.followee_id l
                      | None => []
                      end).
  assert (Hget : exists ratings,
             JsMap.get (showRatingsOf userId excludeShowIds allRatings followedSet)
                       showId = Some ratings /\ (2 <= List.length ratings)%nat).
  { unfold showRatingsOf. cbv zeta. rewrite groupByShow_group, group_get.
    unfold contributing, similaritiesFor in Hlen.
    destruct (map _ (filter _ allRatings)) as [|x xs] eqn:E.
    - apply (f_equal (@List.length _)) in E. rewrite length_map in E.
      simpl in E. lia.
    - exists (x :: xs). split; [reflexivity|].
      rewrite <- E, length_map. exact Hlen. }
  destruct Hget as (ratings & Hget & Hlen2).
  set (profilesMap := JsMap.of_entries (map (fun p => (Profile.id p, p)) profiles)).
  set (showsMap := JsMap.of_entries (map (fun s => (Show.id s, s)) shows)).
  assert (Hscore : exists rec,
             scoreShow now mode profilesMap showsMap showId ratings = Some rec /\
             ShowRecommendation.show_id rec = showId).
  { unfold scoreShow.
    pose proof Hlen2 as Hb. apply Nat.ltb_ge in Hb. rewrite Hb.
    assert (Hpos : 0 < totalWeight (accumulated now mode profilesMap ratings)).
    { apply totalWeight_pos.
      - now apply (showRatingsOf_nonempty _ _ _ _ _ _ Hget).
      - intros r Hr. now apply (showRatingsOf_similarity _ _ _ _ _ _ _ Hget Hr). }
    destruct (Qeq_bool (totalWeight (accumulated now mode profilesMap ratings)) 0)
      eqn:E0; [apply Qeq_bool_iff in E0; lra|].
    destruct (of_entries_has (map (fun s => (Show.id s, s)) shows) showId)
      as [show Hshow'].
    { rewrite map_map. exact Hshow. }
    fold showsMap in Hshow'. rewrite Hshow'.
    eexists. split; reflexivity. }
  destruct Hscore as (rec & Hscore & Hid).
  exists rec. split; [reflexivity|]. split; [|exact Hid].
  unfold recommend. fold profilesMap showsMap.
  apply Nat.ltb_ge in Huser. rewrite Huser.
  apply (Permutation_in _ (sort_desc_Permutation _ _)).
  apply fold_push_In. right. exists (showId, ratings).
  split; [now apply get_Some_In | exact Hscore].
Qed.

Lemma enough_raters_recommended_witness :
  exists recs rec,
    getPersonalizedRecommendations sampleReads sampleNow "me" this_weekend []
      = inr recs /\
    In rec recs /\ ShowRecommendation.show_id rec = "s5"%string.
Proof.
  apply (enough_raters_recommended sampleNow "me" this_weekend [] sampleRatings
           sampleProfiles (Some [Follow.mk "me" "u2"]) sampleShows "s5").
  - vm_compute. lia.
  - vm_compute. lia.
  - vm_compute. tauto.
Defined.

(** ** More on the recommend statistics *)

(** X11. [computeRecommendPercent] is the [percent] of
    [computeRecommendStats], on every list. *)
Theorem computeRecommendPercent_stats (ratings : list RecommendRow.t) :
  computeRecommendPercent ratings
  = RecommendStats.percent (computeRecommendStats ratings).
Proof.
  unfold computeRecommendPercent, computeRecommendStats.
  cbn [RecommendStats.percent].
  destruct ratings as [|r l]; [reflexivity|].
  cbn [List.length Nat.eqb].
  destruct (List.length (filter isValid (r :: l))); reflexivity.
Qed.

Lemma positive_le_total (ratings : list RecommendRow.t) :
  (List.length (filter isPositive (filter isValid ratings))
   <= List.length (filter isValid ratings))%nat.
Proof. apply filter_length. Qed.

Lemma Math_round_percent (p t : nat) :
  (0 < t)%nat -> (p <= t)%nat ->
  (0 <= Math_round (of_nat p / of_nat t * 100) <= 100)%Z.
Proof.
  intros Ht Hp. unfold Math_round.
  pose proof (of_nat_pos t Ht) as Hq.
  assert (H0 : 0 <= of_nat p)
    by (unfold of_nat; change 0 with (inject_Z 0); rewrite <- Zle_Qle; lia).
  assert (H1 : of_nat p <= of_nat t)
    by (unfold of_nat; rewrite <- Zle_Qle; lia).
  assert (Hx : 0 <= of_nat p / of_nat t <= 1).
  { split.
    - apply Qle_shift_div_l; [exact Hq | lra].
    - apply Qle_shift_div_r; [exact Hq | lra]. }
  set (x := of_nat p / of_nat t) in *.
  split.
  - apply Z.le_trans with (Qfloor 0); [discriminate|].
    apply Qfloor_resp_le. lra.
  - apply Z.le_trans with (Qfloor (100 + (1 # 2))); [|discriminate].
    apply Qfloor_resp_le. lra.
Qed.

(** X12. In the statistics, [positive <= total <= ratings.length]; a
    percentage lies between 0 and 100, is 100 when every present flag is
    true and 0 when none is. *)
Theorem computeRecommendStats_bounds (ratings : list RecommendRow.t) :
  let stats := computeRecommendStats ratings in
  (RecommendStats.positive stats <= RecommendStats.total stats
   <= List.length ratings)%nat /\
  (forall p, RecommendStats.percent stats = Some p -> (0 <= p <= 100)%Z) /\
  ((0 < RecommendStats.total stats)%nat ->
   RecommendStats.positive stats = RecommendStats.total stats ->
   RecommendStats.percent stats = Some 100%Z) /\
  ((0 < RecommendStats.total stats)%nat ->
   RecommendStats.positive stats = O ->
   RecommendStats.percent stats = Some 0%Z).
Proof.
  cbn zeta. unfold computeRecommendStats.
  cbn [RecommendStats.total RecommendStats.positive RecommendStats.percent].
  pose proof (positive_le_total ratings) as Hp.
  pose proof (filter_length isValid ratings) as Ht.
  set (total := List.length (filter isValid ratings)) in *.
  set (positive := List.length (filter isPositive (filter isValid ratings))) in *.
  split; [split; assumption|]. split; [|split].
  - intros p. destruct (0 <? total)%nat eqn:E; [|discriminate].
    apply Nat.ltb_lt in E. intros [= <-]. now apply Math_round_percent.
  - intros Hpos Heq. apply Nat.ltb_lt in Hpos. rewrite Hpos, Heq.
    f_equal. unfold Math_round.
    apply Nat.ltb_lt in Hpos. pose proof (of_nat_pos total Hpos).
    rewrite (Qfloor_comp _ (100 + (1 # 2))); [reflexivity|]. field. lra.
  - intros Hpos Heq. apply Nat.ltb_lt in Hpos. rewrite Hpos, Heq.
    f_equal. unfold Math_round.
    apply Nat.ltb_lt in Hpos. pose proof (of_nat_pos total Hpos).
    rewrite (Qfloor_comp _ (1 # 2)); [reflexivity|].
    unfold of_nat at 1. simpl inject_Z. field. lra.
Qed.

Lemma Permutation_filter_length {A : Type} (f : A -> bool) (l l' : list A) :
  Permutation l l' -> List.length (filter f l) = List.length (filter f l').
Proof.
  induction 1 as [|x l l' _ IH|x y l|l l' l'' _ IH1 _ IH2]; simpl.
  - reflexivity.
  - destruct (f x); simpl; now rewrite IH.
  - destruct (f x), (f y); reflexivity.
  - now rewrite IH1.
Qed.

(** X13. The statistics depend only on the ratings whose flag is present,
    and not on their order. *)
Theorem computeRecommendStats_valid_only (l l' : list RecommendRow.t) :
  Permutation (filter isValid l) (filter isValid l') ->
  computeRecommendStats l = computeRecommendStats l'.
Proof.
  intros H. unfold computeRecommendStats.
  rewrite (Permutation_length H), (Permutation_filter_length isPositive _ _ H).
  reflexivity.
Qed.

Lemma computeRecommendStats_valid_only_witness :
  computeRecommendStats
    [RecommendRow.mk (Some true); RecommendRow.mk None; RecommendRow.mk (Some false)]
  = computeRecommendStats
      [RecommendRow.mk None; RecommendRow.mk (Some false); RecommendRow.mk None;
       RecommendRow.mk (Some true)].
Proof.
  apply computeRecommendStats_valid_only. simpl. apply perm_swap.
Defined.

Lemma followed_rows_length (f : RecommendRow.t -> bool) (P : StatsRow.t -> bool)
    (rows : list StatsRow.t) :
  (List.length
     (filter f (map (fun r => RecommendRow.mk (StatsRow.recommend r))
                    (filter P rows)))
   <= List.length
        (filter f (map (fun r => RecommendRow.mk (StatsRow.recommend r)) rows)))%nat.
Proof.
  induction rows as [|r rows IH]; simpl; [lia|].
  destruct (P r); simpl;
    destruct (f (RecommendRow.mk (StatsRow.recommend r))); simpl; lia.
Qed.

Lemma filter_all {A : Type} (f : A -> bool) (l : list A) :
  (forall x, In x l -> f x = true) -> filter f l = l.
Proof.
  induction l as [|x l IH]; intros H; simpl; [reflexivity|].
  rewrite (H x) by now left. f_equal. apply IH. intros y Hy. apply H. now right.
Qed.

(** X14. On the show screen the statistics of the followed users never
    exceed the overall ones, and coincide with them when every rater is
    followed. *)
Theorem loadRecommendStats_following (allRatings : list StatsRow.t)
    (follows : option (list string)) :
  let stats := loadRecommendStats (Some allRatings) follows in
  (RecommendStats.total (ShowStats.following stats)
   <= RecommendStats.total (ShowStats.overall stats))%nat /\
  (RecommendStats.positive (ShowStats.following stats)
   <= RecommendStats.positive (ShowStats.overall stats))%nat /\
  ((forall r, In r allRatings ->
      In (StatsRow.user_id r) match follows with Some l => l | None => [] end) ->
   ShowStats.following stats = ShowStats.overall stats).
Proof.
  cbn zeta. unfold loadRecommendStats, computeRecommendStats.
  cbn [ShowStats.following ShowStats.overall RecommendStats.total
       RecommendStats.positive].
  split; [apply followed_rows_length|]. split.
  - set (both := fun r => isValid r && isPositive r).
    assert (E : forall l, List.length (filter isPositive (filter isValid l))
                          = List.length (filter both l)).
    { induction l as [|x l IH]; simpl; [reflexivity|].
      unfold both at 1. destruct (isValid x); simpl; [|exact IH].
      destruct (isPositive x); simpl; now rewrite IH. }
    rewrite !E. apply followed_rows_length.
  - intros Hall.
    rewrite (filter_all
               (fun r => Set_has match follows with Some l => l | None => [] end
                                 (StatsRow.user_id r)) allRatings);
      [reflexivity|].
    intros r Hr. now apply Set_has_In, Hall.
Qed.

(** ** The feed *)

(** X15. [formatTimeAgo] shows the elapsed time in the largest unit that
    fits, rounded down: "just now" below one minute (and for a date in the
    future), then 1 to 59 minutes, 1 to 23 hours, and days from 1 on. *)
Theorem formatTimeAgo_units (now date : Z) :
  let d := (now - date)%Z in
  ((d < 60000)%Z -> formatTimeAgo now date = "just now"%string) /\
  ((60000 <= d < 3600000)%Z ->
   formatTimeAgo now date = (toString (d / 60000) ++ "m ago")%string /\
   (1 <= d / 60000 <= 59)%Z) /\
  ((3600000 <= d < 86400000)%Z ->
   formatTimeAgo now date = (toString (d / 3600000) ++ "h ago")%string /\
   (1 <= d / 3600000 <= 23)%Z) /\
  ((86400000 <= d)%Z ->
   formatTimeAgo now date = (toString (d / 86400000) ++ "d ago")%string /\
   (1 <= d / 86400000)%Z).
Proof.
  cbn zeta. unfold formatTimeAgo.
  set (d := (now - date)%Z).
  assert (E1 : (d / 1000 / 60 = d / 60000)%Z)
    by (rewrite Zdiv.Zdiv_Zdiv by lia; reflexivity).
  assert (E2 : (d / 1000 / 60 / 60 = d / 3600000)%Z)
    by (rewrite !Zdiv.Zdiv_Zdiv by lia; reflexivity).
  assert (E3 : (d / 1000 / 60 / 60 / 24 = d / 86400000)%Z)
    by (rewrite !Zdiv.Zdiv_Zdiv by lia; reflexivity).
  rewrite E3, E2, E1.
  pose proof (Z.mul_div_le d 1000 eq_refl).
  pose proof (Z.mul_succ_div_gt d 1000 eq_refl).
  pose proof (Z.mul_div_le d 60000 eq_refl).
  pose proof (Z.mul_succ_div_gt d 60000 eq_refl).
  pose proof (Z.mul_div_le d 3600000 eq_refl).
  pose proof (Z.mul_succ_div_gt d 3600000 eq_refl).
  pose proof (Z.mul_div_le d 86400000 eq_refl).
  pose proof (Z.mul_succ_div_gt d 86400000 eq_refl).
  destruct (Z.ltb_spec (d / 1000) 60), (Z.ltb_spec (d / 60000) 60),
    (Z.ltb_spec (d / 3600000) 24);
    repeat split; intros; try reflexivity; try lia; exfalso; lia.
Qed.

Example formatTimeAgo_examples :
  formatTimeAgo 59999 0 = "just now"%string /\
  formatTimeAgo 60000 0 = "1m ago"%string /\
  formatTimeAgo (MS_PER_DAY - 1) 0 = "23h ago"%string /\
  formatTimeAgo (3 * MS_PER_DAY + 5) 0 = "3d ago"%string /\
  formatTimeAgo 0 5000 = "just now"%string.
Proof. repeat split. Qed.

Lemma flat_map_NoDup {A B : Type} (key : A -> string) (id : B -> string)
    (F : A -> option B) (l : list A) :
  NoDup (map key l) ->
  (forall e r, F e = Some r -> id r = key e) ->
  NoDup (map id (flat_map (fun e => match F e with
                                    | Some r => [r]
                                    | None => []
                                    end) l)).
Proof.
  intros Hnd HF. induction l as [|e l IH]; simpl; [constructor|].
  inversion Hnd as [|? ? Hnotin Hnd']; subst.
  destruct (F e) as [r|] eqn:E; simpl; [|now apply IH].
  constructor; [|now apply IH].
  intros Hin. apply Hnotin.
  apply in_map_iff in Hin as (r' & Hid & Hin).
  apply in_flat_map in Hin as (e' & He' & Hr').
  destruct (F e') as [r''|] eqn:E'; [|destruct Hr'].
  destruct Hr' as [->|[]].
  rewrite <- (HF e r E), <- Hid, (HF e' r' E'). now apply in_map.
Qed.

Lemma forYouStep_group (myShowIds : list string)
    (similarityMap : JsMap.t UserSimilarity.t) (followedSet : list string)
    (maps : ForYouMaps) (rating : ForYouRow.t) :
  showRatingsMap (forYouStep myShowIds similarityMap followedSet maps rating)
  = group_step (forYouKeep myShowIds similarityMap) ForYouRow.show_id
               (toForYouRating similarityMap followedSet)
               (showRatingsMap maps) rating.
Proof.
  unfold forYouStep, group_step, forYouKeep, push_at, toForYouRating, JsMap.has.
  destruct (Set_has myShowIds (ForYouRow.show_id rating)); [reflexivity|].
  destruct (JsMap.get similarityMap (ForYouRow.user_id rating)); [|reflexivity].
  cbn [negb andb].
  destruct (JsMap.get (showRatingsMap maps) (ForYouRow.show_id rating));
    reflexivity.
Qed.

Lemma forYou_fold_group (myShowIds : list string)
    (similarityMap : JsMap.t UserSimilarity.t) (followedSet : list string)
    (rows : list ForYouRow.t) (maps : ForYouMaps) :
  showRatingsMap
    (fold_left (forYouStep myShowIds similarityMap followedSet) rows maps)
  = fold_left
      (group_step (forYouKeep myShowIds similarityMap) ForYouRow.show_id
                  (toForYouRating similarityMap followedSet))
      rows (showRatingsMap maps).
Proof.
  revert maps. induction rows as [|r rows IH]; intros maps; simpl; [reflexivity|].
  now rewrite IH, forYouStep_group.
Qed.

Lemma forYouScore_Some (now : Z) (similarityMap : JsMap.t UserSimilarity.t)
    (maps : ForYouMaps) (showId : string) (ratings : list ForYouRating.t)
    (show : ForYouShow.t) :
  forYouScore now similarityMap maps showId ratings = Some show ->
  ForYouShow.id show = showId /\ 0 <= ForYouShow.score show <= 10.
Proof.
  unfold forYouScore. destruct (Qeq_bool _ 0); [discriminate|].
  intros [= <-]. cbn. split; [reflexivity|].
  rewrite Math_clamp by lra. apply clamp_bounds. lra.
Qed.

(** Every show returned was scored from the ratings grouped under it. *)
Lemma getForYouShows_In (reads : ForYouReads) (now : Z) (show : ForYouShow.t) :
  In show (getForYouShows reads now) ->
  exists myRatings allRatings ratings maps,
    fy_myRatings reads = Some myRatings /\
    fy_allRatings reads = Some allRatings /\
    JsMap.get (forYouGroups reads myRatings allRatings) (ForYouShow.id show)
      = Some ratings /\
    forYouScore now (similarityMapOf reads) maps (ForYouShow.id show) ratings
      = Some show.
Proof.
  unfold getForYouShows.
  destruct (fy_myRatings reads) as [myRatings|]; [|intros []].
  destruct (List.length myRatings <? 3)%nat; [intros []|].
  destruct (fy_similarities reads) as [|s0 sims] eqn:Es; [intros []|].
  destruct (fy_allRatings reads) as [allRatings|]; [|intros []].
  rewrite <- Es. fold (similarityMapOf reads).
  intros H.
  apply (Permutation_in _ (Permutation_sym (sort_desc_Permutation _ _))) in H.
  apply fold_push_In in H. destruct H as [[]|([showId ratings] & Hin & Hscore)].
  simpl in Hscore.
  pose proof (forYouScore_Some _ _ _ _ _ _ Hscore) as [Hid _].
  exists myRatings, allRatings, ratings. eexists.
  split; [reflexivity|]. split; [reflexivity|].
  rewrite Hid. split; [|exact Hscore].
  rewrite forYou_fold_group in Hin. unfold forYouGroups.
  apply In_get_Some; [|exact Hin].
  apply group_wf. constructor.
Qed.

(** X16. [getForYouShows] never lists a show the user has rated, and lists
    no show twice. *)
Theorem getForYouShows_new_distinct (reads : ForYouReads) (now : Z)
    (myRatings : list string) :
  fy_myRatings reads = Some myRatings ->
  (forall show, In show (getForYouShows reads now) ->
                ~ In (ForYouShow.id show) myRatings) /\
  NoDup (map ForYouShow.id (getForYouShows reads now)).
Proof.
  intros Hmy. split.
  - intros show Hin.
    apply getForYouShows_In in Hin
      as (my & rows & ratings & maps & Hmy' & _ & Hget & _).
    rewrite Hmy in Hmy'. injection Hmy' as <-.
    unfold forYouGroups in Hget. rewrite group_get in Hget.
    destruct (filter _ rows) as [|r0 rest] eqn:E; [discriminate|].
    assert (Hr0 : In r0 (r0 :: rest)) by now left.
    rewrite <- E in Hr0. apply filter_In in Hr0 as [_ Hk].
    apply andb_true_iff in Hk as [Hk Hs]. apply String.eqb_eq in Hs.
    unfold forYouKeep in Hk. apply andb_true_iff in Hk as [Hk _].
    apply negb_true_iff, Set_has_false in Hk. now rewrite Hs in Hk.
  - unfold getForYouShows. rewrite Hmy.
    destruct (List.length myRatings <? 3)%nat; [constructor|].
    destruct (fy_similarities reads) as [|s0 sims]; [constructor|].
    destruct (fy_allRatings reads) as [allRatings|]; [|constructor].
    eapply Permutation_NoDup.
    + apply Permutation_map, sort_desc_Permutation.
    + rewrite fold_push_flat_map. simpl.
      apply (flat_map_NoDup fst ForYouShow.id).
      * rewrite forYou_fold_group. apply group_wf. constructor.
      * intros e r Hs. now apply forYouScore_Some in Hs as [Hid _].
Qed.

Lemma getForYouShows_new_distinct_witness :
  NoDup (map ForYouShow.id (getForYouShows sampleForYou sampleNow)).
Proof.
  exact (proj2 (getForYouShows_new_distinct sampleForYou sampleNow _ eq_refl)).
Defined.

(** X17. The shows of [getForYouShows] come by decreasing score, each
    score between 0 and 10. *)
Theorem getForYouShows_sorted (reads : ForYouReads) (now : Z) :
  Sorted (desc ForYouShow.score) (getForYouShows reads now) /\
  forall show, In show (getForYouShows reads now) ->
               0 <= ForYouShow.score show <= 10.
Proof.
  split.
  - unfold getForYouShows.
    destruct (fy_myRatings reads) as [myRatings|]; [|constructor].
    destruct (List.length myRatings <? 3)%nat; [constructor|].
    destruct (fy_similarities reads) as [|s0 sims]; [constructor|].
    destruct (fy_allRatings reads) as [allRatings|]; [|constructor].
    apply sort_desc_Sorted.
  - intros show Hin.
    apply getForYouShows_In in Hin as (my & rows & ratings & maps & _ & _ & _ & Hs).
    now apply forYouScore_Some in Hs.
Qed.

Lemma forYouAccumulate_total (now : Z) (similarityMap : JsMap.t UserSimilarity.t)
    (ratings : list ForYouRating.t) (acc : ForYouAccum) :
  fy_totalWeight (fold_left (forYouAccumulate now similarityMap) ratings acc)
  == fy_totalWeight acc + Qsum (map (forYouWeight now) ratings).
Proof.
  revert acc. induction ratings as [|r l IH]; intros acc; simpl.
  - ring.
  - rewrite IH. simpl. ring.
Qed.

Lemma forYouWeight_pos (now : Z) (r : ForYouRating.t) :
  0 < ForYouRating.similarity r -> 0 < forYouWeight now r.
Proof.
  intros H. unfold forYouWeight.
  destruct (daysDiff now (ForYouRating.created_at r) <? 30)%Z,
    (daysDiff now (ForYouRating.created_at r) <=? 180)%Z,
    (ForYouRating.isFollowed r); nra.
Qed.

Lemma similarityMapOf_get (reads : ForYouReads) (u : string)
    (s : UserSimilarity.t) :
  JsMap.get (similarityMapOf reads) u = Some s ->
  In s (fy_similarities reads) /\ UserSimilarity.user_id s = u.
Proof.
  intros H. apply of_entries_get_In in H.
  apply in_map_iff in H as (s' & [= Hu ->] & Hin). now split.
Qed.

(** X18. Which shows [getForYouShows] lists, when every similarity it is
    given is positive: those the user has not rated that have a rating by
    one of the similar users, provided the reads succeeded and the user has
    at least 3 ratings.  One rating is enough. *)
Theorem getForYouShows_lists (reads : ForYouReads) (now : Z) (showId : string) :
  (forall s, In s (fy_similarities reads) -> 0 < UserSimilarity.similarity s) ->
  In showId (map ForYouShow.id (getForYouShows reads now)) <->
  exists myRatings allRatings row,
    fy_myRatings reads = Some myRatings /\
    (3 <= List.length myRatings)%nat /\
    fy_allRatings reads = Some allRatings /\
    ~ In showId myRatings /\
    In row allRatings /\
    ForYouRow.show_id row = showId /\
    In (ForYouRow.user_id row)
       (map UserSimilarity.user_id (fy_similarities reads)).
Proof.
  intros Hpos. split.
  - intros H. apply in_map_iff in H as (show & <- & Hin).
    assert (Hlen : exists my, fy_myRatings reads = Some my
                              /\ (3 <= List.length my)%nat).
    { unfold getForYouShows in Hin.
      destruct (fy_myRatings reads) as [my|]; [|destruct Hin].
      destruct (List.length my <? 3)%nat eqn:E; [destruct Hin|].
      apply Nat.ltb_ge in E. now exists my. }
    destruct Hlen as (my0 & Hmy0 & Hlen).
    apply getForYouShows_In in Hin
      as (my & rows & ratings & maps & Hmy & Hrows & Hget & _).
    rewrite Hmy0 in Hmy. injection Hmy as <-.
    unfold forYouGroups in Hget. rewrite group_get in Hget.
    destruct (filter _ rows) as [|r0 rest] eqn:E; [discriminate|].
    assert (Hr0 : In r0 (r0 :: rest)) by now left.
    rewrite <- E in Hr0. apply filter_In in Hr0 as [Hr0 Hk].
    apply andb_true_iff in Hk as [Hk Hs]. apply String.eqb_eq in Hs.
    unfold forYouKeep in Hk. apply andb_true_iff in Hk as [Hk Hu].
    apply negb_true_iff, Set_has_false in Hk. rewrite Hs in Hk.
    exists my0, rows, r0. repeat split; try assumption.
    unfold JsMap.has in Hu.
    destruct (JsMap.get (similarityMapOf reads) (ForYouRow.user_id r0))
      as [s|] eqn:Eg; [|discriminate].
    apply similarityMapOf_get in Eg as [Hin <-]. now apply in_map.
  - intros (my & rows & row & Hmy & Hlen & Hrows & Hnot & Hrow & Hs & Hu).
    set (followedSet := match fy_follows reads with Some l => l | None => [] end).
    assert (Hget : exists ratings,
               JsMap.get (forYouGroups reads my rows) showId = Some ratings /\
               ratings <> [] /\
               forall r, In r ratings -> 0 < ForYouRating.similarity r).
    { unfold forYouGroups. rewrite group_get.
      set (P := fun x => forYouKeep my (similarityMapOf reads) x
                         && String.eqb (ForYouRow.show_id x) showId).
      assert (HPin : In row (filter P rows)).
      { apply filter_In. split; [exact Hrow|]. unfold P, forYouKeep.
        rewrite Hs, String.eqb_refl, andb_true_r.
        apply andb_true_iff. split.
        - now apply negb_true_iff, Set_has_false.
        - apply has_In_keys. unfold similarityMapOf.
          destruct (of_entries_has
                      (map (fun s => (UserSimilarity.user_id s, s))
                           (fy_similarities reads)) (ForYouRow.user_id row))
            as [v Hv]; [now rewrite map_map|].
          apply has_In_keys. unfold JsMap.has. now rewrite Hv. }
      assert (Hsim : forall r, In r (map (toForYouRating (similarityMapOf reads)
                                                         followedSet)
                                         (filter P rows)) ->
                               0 < ForYouRating.similarity r).
      { intros r Hr. apply in_map_iff in Hr as (x & <- & Hx).
        apply filter_In in Hx as [_ HP]. unfold P, forYouKeep in HP.
        rewrite !andb_true_iff in HP. destruct HP as [[_ Hh] _].
        unfold JsMap.has in Hh. cbn [toForYouRating ForYouRating.similarity].
        destruct (JsMap.get (similarityMapOf reads) (ForYouRow.user_id x))
          as [s|] eqn:Eg; [|discriminate].
        apply similarityMapOf_get in Eg as [Hin _]. now apply Hpos. }
      fold followedSet.
      destruct (map _ (filter P rows)) as [|x xs] eqn:E.
      - apply (in_map (toForYouRating (similarityMapOf reads) followedSet)) in HPin.
        rewrite E in HPin. destruct HPin.
      - exists (x :: xs). split; [reflexivity|]. split; [discriminate|exact Hsim]. }
    destruct Hget as (ratings & Hget & Hne & Hsim).
    unfold getForYouShows. rewrite Hmy, Hrows.
    apply Nat.ltb_ge in Hlen. rewrite Hlen.
    destruct (fy_similarities reads) as [|s0 sims] eqn:Es; [destruct Hu|].
    rewrite <- Es. fold (similarityMapOf reads). fold followedSet.
    set (maps := fold_left _ rows _).
    assert (Hscore : exists show,
               forYouScore now (similarityMapOf reads) maps showId ratings
               = Some show).
    { unfold forYouScore.
      set (acc := fold_left _ ratings _).
      assert (Htw : 0 < fy_totalWeight acc).
      { unfold acc. rewrite forYouAccumulate_total. cbn [fy_totalWeight].
        rewrite Qplus_0_l. apply Qsum_pos.
        - destruct ratings; [congruence | discriminate].
        - intros x Hx. apply in_map_iff in Hx as (r & <- & Hr).
          now apply forYouWeight_pos, Hsim. }
      destruct (Qeq_bool (fy_totalWeight acc) 0) eqn:E0;
        [apply Qeq_bool_iff in E0; lra|].
      eexists. reflexivity. }
    destruct Hscore as (show & Hscore).
    apply in_map_iff. exists show. split.
    + now apply forYouScore_Some in Hscore as [Hid _].
    + apply (Permutation_in _ (sort_desc_Permutation _ _)).
      apply fold_push_In. right. exists (showId, ratings).
      split; [|exact Hscore].
      apply get_Some_In. unfold maps. rewrite forYou_fold_group. exact Hget.
Qed.

Lemma getForYouShows_lists_witness :
  In "s6"%string (map ForYouShow.id (getForYouShows sampleForYou sampleNow)).
Proof.
  apply (getForYouShows_lists sampleForYou sampleNow "s6").
  - intros s Hs. simpl in Hs. destruct Hs as [<-|[<-|[]]]; reflexivity.
  - exists ["s1"; "s2"; "s3"]%string.
    eexists.
    exists (ForYouRow.mk "u2" "s6" 3 (196 * MS_PER_DAY) None).
    split; [reflexivity|]. split; [simpl; lia|]. split; [reflexivity|].
    split; [simpl; intuition discriminate|].
    split; [simpl; tauto|]. split; [reflexivity|]. simpl. tauto.
Defined.

(** ** The exclusion set and the tiers of [getHomePicks] *)

Lemma excluded_fold (t : Z) (actions : list WatchAction.t) (acc : list string)
    (x : string) :
  In x (fold_left
          (fun excludedIds action =>
             match WatchAction.action action with
             | watched | not_for_me => excludedIds ++ [WatchAction.show_id action]
             | dismissed =>
                 if (t <=? WatchAction.created_at action)%Z
                 then excludedIds ++ [WatchAction.show_id action]
                 else excludedIds
             | saved => excludedIds
             end)
          actions acc) <->
  In x acc \/
  exists a, In a actions /\ WatchAction.show_id a = x /\
            (WatchAction.action a = watched \/
             WatchAction.action a = not_for_me \/
             WatchAction.action a = dismissed /\
             (t <= WatchAction.created_at a)%Z).
Proof.
  revert acc. induction actions as [|a l IH]; intros acc; simpl.
  - split; [tauto|]. intros [H|(a & [] & _)]. exact H.
  - rewrite IH. clear IH. split.
    + intros [H|(b & Hb & Hx & Hk)].
      * destruct (WatchAction.action a) eqn:Ea.
        -- now left.
        -- apply in_app_or in H as [H|[<-|[]]]; [now left|].
           right. exists a. tauto.
        -- destruct (Z.leb_spec t (WatchAction.created_at a)).
           ++ apply in_app_or in H as [H|[<-|[]]]; [now left|].
              right. exists a. tauto.
           ++ now left.
        -- apply in_app_or in H as [H|[<-|[]]]; [now left|].
           right. exists a. tauto.
      * right. exists b. tauto.
    + intros [H|(b & [<-|Hb] & Hx & Hk)].
      * left. destruct (WatchAction.action a);
          [assumption | apply in_or_app; now left | | apply in_or_app; now left].
        destruct (t <=? WatchAction.created_at a)%Z;
          [apply in_or_app; now left | assumption].
      * left. destruct Hk as [->|[->|[-> Hk]]].
        -- apply in_or_app. right. now left.
        -- apply in_or_app. right. now left.
        -- apply Z.leb_le in Hk. rewrite Hk. apply in_or_app. right. now left.
      * right. exists b. tauto.
Qed.

Lemma excludedIdsOf_In (thirtyDaysAgo : Z) (excludeShowIds userRatings : list string)
    (watchActions : list WatchAction.t) (x : string) :
  In x (excludedIdsOf thirtyDaysAgo excludeShowIds userRatings watchActions) <->
  In x excludeShowIds \/ In x userRatings \/
  exists a, In a watchActions /\ WatchAction.show_id a = x /\
            (WatchAction.action a = watched \/
             WatchAction.action a = not_for_me \/
             WatchAction.action a = dismissed /\
             (thirtyDaysAgo <= WatchAction.created_at a)%Z).
Proof.
  unfold excludedIdsOf. cbv zeta. rewrite excluded_fold, in_app_iff. tauto.
Qed.


Lemma candidateFromFollows_In (reads : HomeReads) (now : Z) (userId : string)
    (mode : DeckMode) (excludedIds : list string) (p : HomePick.t) :
  In p (candidateFromFollows reads now userId mode excludedIds) ->
  exists recs rec rows,
    getPersonalizedRecommendations (home_reco reads) now userId mode excludedIds
    = inr recs /\
    In rec recs /\ p = pickOfRecommendation rec /\
    home_followRatings reads = Some rows /\
    In (ShowRecommendation.show_id rec) rows.
Proof.
  unfold candidateFromFollows.
  destruct (home_follows reads) as [[|f fs]|]; try (intros []).
  destruct (home_followRatings reads) as [rows|]; [|intros []].
  destruct (filter _ rows) as [|i rest] eqn:E; [intros []|].
  destruct (getPersonalizedRecommendations _ _ _ _ _) as [|recs]; [intros []|].
  intros H. apply in_map_iff in H as (rec & <- & H).
  apply In_firstn, filter_In in H as [H1 H2].
  exists recs, rec, rows. repeat split; try assumption.
  apply Set_has_In in H2. rewrite <- E in H2.
  now apply filter_In in H2.
Qed.

Lemma counts_keys (excludedIds : list string) (l : list string) (m : JsMap.t nat)
    (k : string) :
  In k (JsMap.keys
          (fold_left
             (fun counts show_id =>
                if Set_has excludedIds show_id then counts
                else
                  JsMap.set counts show_id
                    (match JsMap.get counts show_id with
                     | Some n => n
                     | None => O
                     end + 1)%nat)
             l m)) ->
  In k (JsMap.keys m) \/ In k l /\ ~ In k excludedIds.
Proof.
  revert m. induction l as [|x l IH]; intros m; simpl; [tauto|].
  intros H. apply IH in H as [H|H]; [|tauto].
  destruct (Set_has excludedIds x) eqn:E; [tauto|].
  rewrite keys_set in H.
  destruct (JsMap.has m x); [tauto|].
  apply in_app_or in H as [H|[<-|[]]]; [tauto|].
  right. split; [now left | now apply Set_has_false].
Qed.

Lemma candidateFromCommunity_In (reads : HomeReads) (excludedIds : list string)
    (p : HomePick.t) :
  In p (candidateFromCommunity reads excludedIds) ->
  exists recent ids shows show,
    home_recentRatings reads = Some recent /\
    home_showsIn reads ids = Some shows /\
    In show shows /\ p = communityPick reads show /\
    (List.length ids <= 20)%nat /\
    forall k, In k ids -> In k recent /\ ~ In k excludedIds.
Proof.
  unfold candidateFromCommunity.
  destruct (home_recentRatings reads) as [recent|]; [|intros []].
  destruct recent as [|r0 recent]; [intros []|].
  set (counts := fold_left _ (r0 :: recent) JsMap.empty).
  set (ids := map fst (firstn 20 (sort_desc _ counts))).
  assert (Hids : forall k, In k ids ->
                           In k (r0 :: recent) /\ ~ In k excludedIds).
  { intros k Hk. unfold ids in Hk. apply in_map_iff in Hk as (e & <- & He).
    apply In_firstn in He.
    apply (Permutation_in _ (Permutation_sym (sort_desc_Permutation _ _))) in He.
    assert (Hkeys : In (fst e) (JsMap.keys counts))
      by (unfold JsMap.keys; now apply in_map).
    apply counts_keys in Hkeys as [[]|H]. exact H. }
  assert (Hlen : (List.length ids <= 20)%nat).
  { unfold ids. rewrite length_map. apply firstn_le_length. }
  clearbody ids. destruct ids as [|i rest]; [intros []|].
  destruct (home_showsIn reads (i :: rest)) as [shows|] eqn:Es; [|intros []].
  intros H. apply In_firstn, in_map_iff in H as (show & <- & H).
  exists (r0 :: recent), (i :: rest), shows, show. repeat split; try assumption;
    now apply Hids.
Qed.

Lemma trendingPicksOf_In (reads : HomeReads) (excludedIds : list string)
    (allPicks : list HomePick.t) (p : HomePick.t) :
  In p (trendingPicksOf reads excludedIds allPicks) ->
  (List.length allPicks < 3)%nat /\
  exists results show,
    home_trending reads = Some results /\ In show results /\
    truthy (TMDBShow.poster_path show) = true /\
    ~ In (toString (TMDBShow.id show)) excludedIds /\
    p = trendingPick show.
Proof.
  unfold trendingPicksOf.
  destruct (Nat.ltb_spec (List.length allPicks) 3) as [Hlt|Hge]; [|intros []].
  destruct (home_trending reads) as [results|]; [|intros []].
  intros H. apply in_map_iff in H as (show & <- & H).
  unfold trendingShowsOf in H. apply In_firstn, filter_In in H as [H1 H2].
  apply andb_true_iff in H2 as [H2 H3]. apply negb_true_iff, Set_has_false in H3.
  split; [exact Hlt|]. exists results, show. tauto.
Qed.

Lemma homeDeck_In (reads : HomeReads) (now : Z) (userId : string)
    (mode : DeckMode) (excludedIds : list string) (p : HomePick.t) :
  In p (homeDeck reads now userId mode excludedIds) ->
  In p (candidateFromFollows reads now userId mode excludedIds) \/
  In p (candidateFromCommunity reads excludedIds) \/
  In p (trendingPicksOf reads excludedIds
          (combinePicks (candidateFromFollows reads now userId mode excludedIds
                         ++ candidateFromCommunity reads excludedIds))).
Proof.
  rewrite homeDeck_first. intros H.
  apply In_firstn, firstOccurrences_In in H as [H _].
  unfold homeTiers in H. rewrite !in_app_iff in H. exact H.
Qed.

Lemma getHomePicks_inr (reads : HomeReads) (now thirtyDaysAgo : Z)
    (userId : string) (mode : DeckMode) (excludeShowIds : list string) (picks : list HomePick.t) :
  getHomePicks reads now thirtyDaysAgo userId mode excludeShowIds = inr picks ->
  exists userRatings watchActions,
    home_userRatings reads = Some userRatings /\
    home_watchActions reads = Some watchActions /\
    picks = homeDeck reads now userId mode
              (excludedIdsOf thirtyDaysAgo excludeShowIds userRatings watchActions).
Proof.
  unfold getHomePicks.
  destruct (home_userRatings reads) as [userRatings|]; [|discriminate].
  destruct (home_watchActions reads) as [watchActions|]; [|discriminate].
  intros [= <-]. now exists userRatings, watchActions.
Qed.

Lemma homeDeck_not_excluded (reads : HomeReads) (now : Z) (userId : string)
    (mode : DeckMode) (excludedIds : list string) (p : HomePick.t) :
  (forall ids shows, home_showsIn reads ids = Some shows ->
                     forall s, In s shows -> In (Show.id s) ids) ->
  In p (homeDeck reads now userId mode excludedIds) ->
  ~ In (HomePick.show_id p) excludedIds.
Proof.
  intros Hshows H. apply homeDeck_In in H as [H|[H|H]].
  - apply candidateFromFollows_In in H as (recs & rec & rows & Hr & Hin & -> & _).
    apply getPersonalizedRecommendations_inr in Hr
      as (allRatings & profiles & shows & _ & _ & _ & ->).
    now apply recommend_fresh in Hin as [Hin _].
  - apply candidateFromCommunity_In in H
      as (recent & ids & shows & show & _ & Hs & Hin & -> & _ & Hids).
    simpl. apply (Hshows _ _ Hs), Hids in Hin. tauto.
  - apply trendingPicksOf_In in H as (_ & results & show & _ & _ & _ & H & ->).
    exact H.
Qed.

(** X20. No pick of the home deck is a show of the caller's exclusion set,
    a show of a rating that [getUserRatings] returned, or a show with a watch
    action [watched], [not_for_me], or [dismissed] at or after the cut-off
    [thirtyDaysAgo], provided the shows table answers a request by ids with
    shows of these ids only. *)
Theorem deck_never_excluded (reads : HomeReads) (now thirtyDaysAgo : Z)
    (userId : string) (mode : DeckMode) (excludeShowIds userRatings : list string)
    (watchActions : list WatchAction.t)
    (picks : list HomePick.t) (p : HomePick.t) :
  (forall ids shows, home_showsIn reads ids = Some shows ->
                     forall s, In s shows -> In (Show.id s) ids) ->
  home_userRatings reads = Some userRatings ->
  home_watchActions reads = Some watchActions ->
  getHomePicks reads now thirtyDaysAgo userId mode excludeShowIds = inr picks ->
  In p picks ->
  ~ In (HomePick.show_id p) excludeShowIds /\
  ~ In (HomePick.show_id p) userRatings /\
  forall a, In a watchActions ->
            WatchAction.show_id a = HomePick.show_id p ->
            WatchAction.action a = saved \/
            WatchAction.action a = dismissed /\
            (WatchAction.created_at a < thirtyDaysAgo)%Z.
Proof.
  intros Hshows Hu Hw H Hin.
  apply getHomePicks_inr in H as (userRatings' & watchActions' & Hu' & Hw' & ->).
  rewrite Hu in Hu'. rewrite Hw in Hw'.
  injection Hu' as <-. injection Hw' as <-.
  apply (homeDeck_not_excluded _ _ _ _ _ _ Hshows) in Hin.
  rewrite excludedIdsOf_In in Hin.
  split; [tauto|]. split; [tauto|].
  intros a Ha Hid.
  destruct (WatchAction.action a) eqn:Ea.
  - now left.
  - exfalso. apply Hin. right. right. exists a. tauto.
  - right. split; [reflexivity|].
    destruct (Z.lt_ge_cases (WatchAction.created_at a) thirtyDaysAgo);
      [assumption|].
    exfalso. apply Hin. right. right. exists a. tauto.
  - exfalso. apply Hin. right. right. exists a. tauto.
Qed.

Lemma sampleHome_showsIn (ids : list string) (shows : list Show.t) :
  home_showsIn sampleHome ids = Some shows ->
  forall s, In s shows -> In (Show.id s) ids.
Proof.
  intros H s Hs.
  assert (E : shows = filter (fun s => Set_has ids (Show.id s)) sampleShows)
    by (cbv [sampleHome home_showsIn] in H; congruence).
  rewrite E in Hs. apply filter_In in Hs as [_ Hs]. now apply Set_has_In.
Qed.

Lemma deck_never_excluded_witness :
  exists picks p,
    getHomePicks sampleHome sampleNow sampleThirtyDaysAgo "me" tonight [] = inr picks /\
    In p picks /\
    ~ In (HomePick.show_id p) ["s1"; "s2"; "s3"]%string.
Proof.
  eexists. eexists. split; [vm_compute; reflexivity|].
  split; [left; reflexivity|].
  refine (proj1 (proj2
    (deck_never_excluded sampleHome sampleNow sampleThirtyDaysAgo "me" tonight [] _ _ _ _
       sampleHome_showsIn eq_refl eq_refl _ _))).
  - vm_compute. reflexivity.
  - left. reflexivity.
Defined.

(** X21. Every pick of the home deck has a score between 0 and 10. *)
Theorem pick_score_range (reads : HomeReads) (now thirtyDaysAgo : Z)
    (userId : string) (mode : DeckMode) (excludeShowIds : list string)
    (picks : list HomePick.t) (p : HomePick.t) :
  getHomePicks reads now thirtyDaysAgo userId mode excludeShowIds = inr picks ->
  In p picks ->
  0 <= HomePick.score p <= 10.
Proof.
  intros H Hin.
  apply getHomePicks_inr in H as (userRatings & watchActions & _ & _ & ->).
  apply homeDeck_In in Hin as [H|[H|H]].
  - apply candidateFromFollows_In in H as (recs & rec & rows & Hr & Hin & -> & _).
    apply getPersonalizedRecommendations_inr in Hr
      as (allRatings & profiles & shows & _ & _ & _ & ->).
    now apply recommend_score_range in Hin.
  - apply candidateFromCommunity_In in H
      as (recent & ids & shows & show & _ & _ & _ & -> & _).
    simpl. lra.
  - apply trendingPicksOf_In in H as (_ & results & show & _ & _ & _ & _ & ->).
    simpl. lra.
Qed.

Lemma pick_score_range_witness :
  exists picks p,
    getHomePicks sampleHome sampleNow sampleThirtyDaysAgo "me" tonight [] = inr picks /\
    In p picks /\ 0 <= HomePick.score p <= 10.
Proof.
  eexists. eexists. split; [vm_compute; reflexivity|].
  split; [left; reflexivity|].
  refine (pick_score_range sampleHome sampleNow sampleThirtyDaysAgo "me" tonight [] _ _ _ _).
  - vm_compute. reflexivity.
  - left. reflexivity.
Defined.

Lemma firstOccurrences_covers (seen : list string) (l : list HomePick.t)
    (p : HomePick.t) :
  In p l ->
  In (HomePick.show_id p) seen \/
  In (HomePick.show_id p) (map HomePick.show_id (firstOccurrences seen l)).
Proof.
  revert seen. induction l as [|x l IH]; intros seen; simpl; [tauto|].
  destruct (Set_has seen (HomePick.show_id x)) eqn:E.
  - intros [<-|H]; [left; now apply Set_has_In | now apply IH].
  - intros [<-|H]; [right; now left|].
    apply (IH (seen ++ [HomePick.show_id x])) in H as [H|H].
    + apply in_app_or in H as [H|[H|[]]]; [now left|].
      right. left. exact H.
    + right. now right.
Qed.

(** X22. The deck has at least 3 picks as soon as the trending catalogue
    answers and its first ten shows with a poster and outside the exclusion
    set include three different shows. *)
Theorem deck_at_least_three (reads : HomeReads) (now thirtyDaysAgo : Z)
    (userId : string) (mode : DeckMode) (excludeShowIds userRatings : list string)
    (watchActions : list WatchAction.t) (results : list TMDBShow.t)
    (ids : list string) (picks : list HomePick.t) :
  home_userRatings reads = Some userRatings ->
  home_watchActions reads = Some watchActions ->
  home_trending reads = Some results ->
  NoDup ids -> List.length ids = 3%nat ->
  incl ids
       (map (fun show => toString (TMDBShow.id show))
            (trendingShowsOf results
               (excludedIdsOf thirtyDaysAgo excludeShowIds userRatings watchActions))) ->
  getHomePicks reads now thirtyDaysAgo userId mode excludeShowIds = inr picks ->
  (3 <= List.length picks)%nat.
Proof.
  intros Hu Hw Ht Hnd Hlen Hincl H.
  apply getHomePicks_inr in H as (userRatings' & watchActions' & Hu' & Hw' & ->).
  rewrite Hu in Hu'. rewrite Hw in Hw'.
  injection Hu' as <-. injection Hw' as <-.
  unfold homeDeck. cbv zeta.
  set (excludedIds := excludedIdsOf thirtyDaysAgo excludeShowIds userRatings watchActions) in *.
  set (allPicks := combinePicks _).
  rewrite addTrending_first, length_firstn.
  apply Nat.min_glb; [lia|].
  unfold trendingPicksOf.
  destruct (Nat.ltb_spec (List.length allPicks) 3) as [Hlt|Hge];
    [|rewrite length_app; lia].
  rewrite Ht, <- Hlen.
  rewrite <- (length_map HomePick.show_id).
  apply NoDup_incl_length; [exact Hnd|].
  intros x Hx. apply Hincl, in_map_iff in Hx as (show & <- & Hshow).
  rewrite map_app. apply in_or_app.
  apply (firstOccurrences_covers (map HomePick.show_id allPicks)
           (map trendingPick (trendingShowsOf results excludedIds))
           (trendingPick show)).
  now apply in_map.
Qed.

Lemma deck_at_least_three_witness :
  exists picks,
    getHomePicks sampleColdStart sampleNow sampleThirtyDaysAgo "new" tonight [] = inr picks /\
    (3 <= List.length picks)%nat.
Proof.
  eexists. split; [vm_compute; reflexivity|].
  refine (deck_at_least_three sampleColdStart sampleNow sampleThirtyDaysAgo "new" tonight [] _ _ _
            ["101"; "102"; "103"]%string _ eq_refl eq_refl eq_refl _ eq_refl _ _).
  - repeat constructor; simpl; intuition discriminate.
  - intros x Hx. vm_compute. simpl in Hx. exact Hx.
  - vm_compute. reflexivity.
Defined.

(** X23. Every pick of the home deck is a personalised recommendation for a
    show that a followed user rated, or the pick "Popular this week" of a
    show the shows table returned for ids recommended during the last week,
    or the pick "Trending now" of a trending show that has a poster. *)
Theorem pick_provenance (reads : HomeReads) (now thirtyDaysAgo : Z)
    (userId : string) (mode : DeckMode) (excludeShowIds userRatings : list string)
    (watchActions : list WatchAction.t)
    (picks : list HomePick.t) (p : HomePick.t) :
  home_userRatings reads = Some userRatings ->
  home_watchActions reads = Some watchActions ->
  getHomePicks reads now thirtyDaysAgo userId mode excludeShowIds = inr picks ->
  In p picks ->
  fromFollows reads now userId mode
    (excludedIdsOf thirtyDaysAgo excludeShowIds userRatings watchActions) p \/
  fromCommunity reads p \/
  fromTrending reads p.
Proof.
  intros Hu Hw H Hin.
  apply getHomePicks_inr in H as (userRatings' & watchActions' & Hu' & Hw' & ->).
  rewrite Hu in Hu'. rewrite Hw in Hw'.
  injection Hu' as <-. injection Hw' as <-.
  apply homeDeck_In in Hin as [H|[H|H]].
  - left. apply candidateFromFollows_In in H
      as (recs & rec & rows & Hr & Hin & -> & Hrows & Hrow).
    now exists recs, rec, rows.
  - right. left. apply candidateFromCommunity_In in H
      as (recent & ids & shows & show & Hrec & Hs & Hin & -> & Hlen & Hids).
    exists recent, ids, shows, show. repeat split; try assumption.
    intros k Hk. now apply Hids.
  - right. right. apply trendingPicksOf_In in H
      as (_ & results & show & Ht & Hin & Hp & _ & ->).
    now exists results, show.
Qed.

Lemma pick_provenance_witness :
  exists picks p,
    getHomePicks sampleHome sampleNow sampleThirtyDaysAgo "me" tonight [] = inr picks /\
    In p picks /\
    (fromFollows sampleHome sampleNow "me" tonight
       (excludedIdsOf sampleThirtyDaysAgo [] ["s1"; "s2"; "s3"]%string
          [ WatchAction.mk "s6" dismissed (190 * MS_PER_DAY);
            WatchAction.mk "s5" saved (150 * MS_PER_DAY) ]%string) p \/
     fromCommunity sampleHome p \/
     fromTrending sampleHome p).
Proof.
  eexists. eexists. split; [vm_compute; reflexivity|].
  split; [left; reflexivity|].
  refine (pick_provenance sampleHome sampleNow sampleThirtyDaysAgo "me" tonight [] _ _ _ _
            eq_refl eq_refl _ _).
  - vm_compute. reflexivity.
  - left. reflexivity.
Defined.

(** ** The sentiments of the rating screens *)

(** X24. The values stored for a sentiment by a quick rating are read back
    by the rating screen as that sentiment, with no non-default details;
    an enjoyment infers no sentiment exactly when it lies strictly between
    4 and 5 or between 7 and 8, hence never for an integer. *)
Theorem sentiment_round_trip :
  (forall s,
     let d := getSentimentDefaults s in
     inferSentimentFromEnjoyment (SentimentDefaults.enjoyment d) = Some s /\
     hasNonDefaultDetails (Some s) (SentimentDefaults.hook d)
       (SentimentDefaults.consistency d) (SentimentDefaults.payoff d)
       (SentimentDefaults.heat d) (SentimentDefaults.enjoyment d) = false) /\
  (forall e,
     inferSentimentFromEnjoyment e = None <-> 4 < e < 5 \/ 7 < e < 8) /\
  (forall n : Z, inferSentimentFromEnjoyment (inject_Z n) <> None).
Proof.
  assert (Hgap : forall e, inferSentimentFromEnjoyment e = None <->
                           4 < e < 5 \/ 7 < e < 8).
  { intros e. unfold inferSentimentFromEnjoyment.
    destruct (Qle_bool 8 e) eqn:E8;
      [apply Qle_bool_iff in E8 | apply Qle_bool_false in E8].
    { split; [discriminate | lra]. }
    destruct (Qle_bool 5 e) eqn:E5;
      [apply Qle_bool_iff in E5 | apply Qle_bool_false in E5];
      destruct (Qle_bool e 7) eqn:E7;
      [apply Qle_bool_iff in E7 | apply Qle_bool_false in E7
      |apply Qle_bool_iff in E7 | apply Qle_bool_false in E7];
      destruct (Qle_bool e 4) eqn:E4;
      [apply Qle_bool_iff in E4 | apply Qle_bool_false in E4
      |apply Qle_bool_iff in E4 | apply Qle_bool_false in E4
      |apply Qle_bool_iff in E4 | apply Qle_bool_false in E4
      |apply Qle_bool_iff in E4 | apply Qle_bool_false in E4];
      simpl; split; intros H; first [discriminate | reflexivity | lra]. }
  split; [|split].
  - intros []; split; reflexivity.
  - exact Hgap.
  - intros n H. apply Hgap in H.
    change 4 with (inject_Z 4) in H. change 5 with (inject_Z 5) in H.
    change 7 with (inject_Z 7) in H. change 8 with (inject_Z 8) in H.
    rewrite <- !Zlt_Qlt in H. lia.
Qed.

(** X25. Toggling a tag flips the presence of that tag and of no other,
    and keeps a list without duplicates free of duplicates. *)
Theorem toggleTag_flips (prev : list string) (tag : string) :
  NoDup prev ->
  NoDup (toggleTag prev tag) /\
  (In tag (toggleTag prev tag) <-> ~ In tag prev) /\
  (forall t, t <> tag -> (In t (toggleTag prev tag) <-> In t prev)).
Proof.
  intros Hnd. unfold toggleTag.
  destruct (existsb (String.eqb tag) prev) eqn:E.
  - assert (Hin : In tag prev).
    { apply existsb_exists in E as (x & Hx & Ex).
      apply String.eqb_eq in Ex. now subst. }
    split; [now apply NoDup_filter|]. split.
    + rewrite filter_In, negb_true_iff, String.eqb_refl.
      split; [intros [_ H]; discriminate | tauto].
    + intros t Ht. rewrite filter_In, negb_true_iff.
      apply String.eqb_neq in Ht. tauto.
  - assert (Hin : ~ In tag prev).
    { intros H. apply Bool.not_true_iff_false in E. apply E.
      apply existsb_exists. exists tag. split; [exact H | apply String.eqb_refl]. }
    split.
    { apply NoDup_app; [exact Hnd | repeat constructor; intros [] |].
      intros x Hx [<-|[]]. tauto. }
    split.
    + rewrite in_app_iff. simpl. tauto.
    + intros t Ht. rewrite in_app_iff. simpl.
      split; [intros [H|[H|[]]]; [exact H | congruence] | tauto].
Qed.

Lemma toggleTag_flips_witness :
  ~ In "couples"%string
       (toggleTag ["easy watch"; "couples"; "slow burn"]%string "couples").
Proof.
  assert (Hnd : NoDup ["easy watch"; "couples"; "slow burn"]%string)
    by (repeat constructor; simpl; intuition discriminate).
  intros Hin.
  apply (proj1 (proj1 (proj2 (toggleTag_flips _ "couples" Hnd))) Hin).
  simpl. tauto.
Defined.

(** ** The match percent of the people list *)

Lemma groupsStep_get (g : JsMap.t (JsMap.t Q)) (r : EnjoymentRow.t) (u : string) :
  JsMap.get (groupsStep g r) u =
  if String.eqb (EnjoymentRow.user_id r) u
  then Some (JsMap.set (match JsMap.get g u with
                        | Some m => m
                        | None => JsMap.empty
                        end)
                       (EnjoymentRow.show_id r) (EnjoymentRow.enjoyment r))
  else JsMap.get g u.
Proof.
  unfold groupsStep, JsMap.has.
  destruct (JsMap.get g (EnjoymentRow.user_id r)) as [m|] eqn:E.
  - rewrite E, get_set.
    destruct (String.eqb (EnjoymentRow.user_id r) u) eqn:Eu; [|reflexivity].
    apply String.eqb_eq in Eu. subst u. now rewrite E.
  - rewrite get_set, String.eqb_refl, !get_set.
    destruct (String.eqb (EnjoymentRow.user_id r) u) eqn:Eu; [|reflexivity].
    apply String.eqb_eq in Eu. subst u. now rewrite E.
Qed.

Lemma groups_fold_get (rows : list EnjoymentRow.t) (g : JsMap.t (JsMap.t Q))
    (u : string) :
  JsMap.get (fold_left groupsStep rows g) u =
  match filter (fun r => String.eqb (EnjoymentRow.user_id r) u) rows with
  | [] => JsMap.get g u
  | mine =>
      Some (fold_left
              (fun m kv => JsMap.set m (fst kv) (snd kv))
              (map (fun r => (EnjoymentRow.show_id r, EnjoymentRow.enjoyment r))
                   mine)
              (match JsMap.get g u with Some m => m | None => JsMap.empty end))
  end.
Proof.
  revert g. induction rows as [|r rows IH]; intros g; [reflexivity|].
  cbn [fold_left filter]. rewrite IH, groupsStep_get.
  destruct (String.eqb (EnjoymentRow.user_id r) u); [|reflexivity].
  destruct (filter _ rows); reflexivity.
Qed.

Lemma ratingsGroupsOf_get (rows : list EnjoymentRow.t) (u : string)
    (m : JsMap.t Q) :
  JsMap.get (ratingsGroupsOf rows) u = Some m -> m = enjoymentsOf u rows.
Proof.
  change (ratingsGroupsOf rows) with (fold_left groupsStep rows JsMap.empty).
  rewrite groups_fold_get. unfold enjoymentsOf, JsMap.of_entries.
  destruct (filter _ rows); [discriminate|].
  now intros [= <-].
Qed.

Lemma withMatch_Some (localUserRatingsMap : JsMap.t Q)
    (userRatingsGroups : JsMap.t (JsMap.t Q)) (profile : Profile.t) (p : Z) :
  Person.matchPercent (withMatch localUserRatingsMap userRatingsGroups profile)
  = Some p ->
  exists otherRatings,
    JsMap.get userRatingsGroups (Profile.id profile) = Some otherRatings /\
    (3 <= List.length (sharedShows localUserRatingsMap otherRatings))%nat /\
    (30 <= p <= 100)%Z.
Proof.
  unfold withMatch.
  destruct (JsMap.get userRatingsGroups (Profile.id profile))
    as [[|e otherRatings]|]; try discriminate.
  destruct (Qle_bool _ (3 # 10)) eqn:E; [discriminate|].
  apply Qle_bool_false in E. simpl. intros [= <-].
  exists (e :: otherRatings). split; [reflexivity|].
  pose proof (calculateSimilarity_range_aux localUserRatingsMap (e :: otherRatings))
    as [_ H1].
  split.
  - unfold calculateSimilarity in E.
    destruct (Nat.ltb_spec
                (List.length (sharedShows localUserRatingsMap (e :: otherRatings))) 3);
      [|assumption].
    exfalso. revert E. apply Qlt_irrefl.
  - set (s := calculateSimilarity localUserRatingsMap (e :: otherRatings)) in *.
    unfold Math_round. split.
    + apply Z.le_trans with (Qfloor 30); [discriminate|].
      apply Qfloor_resp_le. lra.
    + apply Z.le_trans with (Qfloor (100 + (1 # 2))); [|discriminate].
      apply Qfloor_resp_le. lra.
Qed.

(** X26. In the list of people, a match percent is shown only for a person
    with whom the user shares at least 3 rated shows, and it lies between 30
    and 100. *)
Theorem match_percent_shown (myRatings : option (list (string * Q)))
    (allRatings : option (list EnjoymentRow.t))
    (allProfilesData : list Profile.t) (person : Person.t) (p : Z) :
  In person (profilesWithMatch myRatings allRatings allProfilesData) ->
  Person.matchPercent person = Some p ->
  (30 <= p <= 100)%Z /\
  exists mine rows,
    myRatings = Some mine /\ allRatings = Some rows /\
    (3 <= List.length
            (sharedShows (JsMap.of_entries mine)
                         (enjoymentsOf (Person.id person) rows)))%nat.
Proof.
  unfold profilesWithMatch. intros Hin Hp.
  assert (Hplain : forall l,
             ~ In person
                 (map (fun profile =>
                         {| Person.id := Profile.id profile;
                            Person.username := Profile.username profile;
                            Person.matchPercent := None |}) l)).
  { intros l H. apply in_map_iff in H as (x & <- & _). discriminate. }
  destruct ((3 <=? _)%nat && _) eqn:E; [|now apply Hplain in Hin].
  destruct allRatings as [rows|]; [|now apply Hplain in Hin].
  destruct myRatings as [mine|];
    [|apply andb_true_iff in E as [E _]; discriminate].
  apply in_map_iff in Hin as (profile & <- & Hin).
  pose proof (withMatch_Some _ _ _ _ Hp) as (otherRatings & Hget & Hlen & Hrange).
  apply ratingsGroupsOf_get in Hget. subst otherRatings.
  split; [exact Hrange|]. exists mine, rows. repeat split.
  replace (Person.id (withMatch (JsMap.of_entries mine) (ratingsGroupsOf rows) profile))
    with (Profile.id profile); [exact Hlen|].
  unfold withMatch.
  destruct (JsMap.get _ _) as [[|]|]; try reflexivity.
  destruct (negb _); reflexivity.
Qed.

Lemma match_percent_shown_witness :
  exists person,
    In person
       (profilesWithMatch (Some sampleMine) (Some sampleEnjoyments) sampleProfiles) /\
    Person.matchPercent person = Some 100%Z /\
    (30 <= 100 <= 100)%Z.
Proof.
  eexists. split; [right; left; reflexivity|]. split; [reflexivity|].
  refine (proj1 (match_percent_shown (Some sampleMine) (Some sampleEnjoyments)
                   sampleProfiles _ 100 _ _)).
  - right. left. reflexivity.
  - reflexivity.
Defined.

(** ** The catalogue reads and the shelves *)

(** X27. [fetchTopRated] fails exactly without API key or when a response
    is not ok; otherwise it returns at most 20 shows, each with a poster and
    tagged movie or tv, and [getMediaType] reads that tag back. *)
Theorem fetchTopRated_result (apiKey : option string)
    (moviesResponse tvResponse : option (option (list TMDBResult.t))) :
  (fetchTopRated apiKey moviesResponse tvResponse = None <->
   truthy apiKey = false \/ moviesResponse = None \/ tvResponse = None) /\
  forall l, fetchTopRated apiKey moviesResponse tvResponse = Some l ->
    (List.length l <= 20)%nat /\
    forall x, In x l ->
      hasPoster x = true /\
      (TMDBResult.media_type x = Some "movie"%string \/
       TMDBResult.media_type x = Some "tv"%string) /\
      (getMediaType x = movie <-> TMDBResult.media_type x = Some "movie"%string).
Proof.
  unfold fetchTopRated. remember 20%nat as n eqn:En.
  destruct (truthy apiKey); cbn [negb];
    [|split; [split; [tauto | reflexivity] | discriminate]].
  destruct moviesResponse as [moviesData|];
    [|split; [split; [tauto | reflexivity] | discriminate]].
  destruct tvResponse as [tvData|];
    [|split; [split; [tauto | reflexivity] | discriminate]].
  split.
  { split; [discriminate | intros [H|[H|H]]; discriminate]. }
  intros l [= <-]. split; [apply firstn_le_length|].
  intros x Hx. apply In_firstn, filter_In in Hx as [Hx Hposter].
  split; [exact Hposter|].
  apply in_app_or in Hx as [Hx|Hx]; apply in_map_iff in Hx as (y & <- & _).
  - split; [now left|]. split; reflexivity.
  - split; [now right|]. split; discriminate.
Qed.

Lemma topCommunity_length (reads : ShelfReads) (rows : option (list string))
    (fallbackLabel : string) :
  (List.length (topCommunity reads rows fallbackLabel) <= 3)%nat.
Proof.
  unfold topCommunity.
  destruct rows as [[|r rows]|]; try (simpl; lia).
  destruct (map fst _) as [|i rest]; try (simpl; lia).
  destruct (shelf_showsIn reads (i :: rest)) as [shows|]; [|simpl; lia].
  assert (H : (List.length (map (communityItem reads fallbackLabel)
                                (firstn 3 shows)) <= 3)%nat)
    by (rewrite length_map; apply firstn_le_length).
  destruct shows; [simpl; lia | exact H].
Qed.

Lemma catalogueFallback_full (items : list ShelfItem.t)
    (shows : list TMDBResult.t) (label : string) :
  (List.length items <= 3)%nat -> (3 <= List.length shows)%nat ->
  firstn 3 (catalogueFallback items (Some shows) label) =
  items ++ map (catalogueItem label) (firstn (3 - List.length items) shows) /\
  List.length (firstn 3 (catalogueFallback items (Some shows) label)) = 3%nat.
Proof.
  intros Hi Hs. unfold catalogueFallback.
  assert (Hlen : List.length
                   (items ++ map (catalogueItem label)
                                 (firstn (3 - List.length items) shows)) = 3%nat).
  { rewrite length_app, length_map, length_firstn. lia. }
  destruct (Nat.ltb_spec (List.length items) 3) as [Hlt|Hge].
  - rewrite firstn_all2 by lia. split; [reflexivity | exact Hlen].
  - assert (E : (3 - List.length items = 0)%nat) by lia.
    rewrite E, firstn_O in *. cbn [map] in *. rewrite app_nil_r in *.
    rewrite firstn_all2 by lia. split; [reflexivity | exact Hlen].
Qed.

(** X28. When the weekly trending catalogue offers at least 3 shows with a
    poster, the shelf "Popular this week" has exactly 3 items: the community
    items first, then as many trending shows as are missing. *)
Theorem popular_shelf_full (reads : ShelfReads) (shows : list TMDBResult.t) :
  shelf_trendingWeekly reads = Some shows ->
  (3 <= List.length shows)%nat ->
  let community := topCommunity reads (shelf_recentRatings reads) "Popular" in
  fetchPopularThisWeek reads =
  community
  ++ map (catalogueItem "Trending") (firstn (3 - List.length community) shows) /\
  List.length (fetchPopularThisWeek reads) = 3%nat.
Proof.
  intros Ht Hs. cbv zeta. unfold fetchPopularThisWeek. rewrite Ht.
  apply catalogueFallback_full; [apply topCommunity_length | exact Hs].
Qed.

Lemma popular_shelf_full_witness :
  List.length (fetchPopularThisWeek sampleShelves) = 3%nat.
Proof.
  refine (proj2 (popular_shelf_full sampleShelves _ _ _)).
  - vm_compute. reflexivity.
  - vm_compute. lia.
Defined.

(** X29. When the top rated catalogue offers at least 3 shows, the shelf
    "Critically loved" has exactly 3 items: the community items first, then
    as many top rated shows as are missing. *)
Theorem critically_loved_shelf_full (reads : ShelfReads)
    (shows : list TMDBResult.t) :
  shelf_topRated reads = Some shows ->
  (3 <= List.length shows)%nat ->
  let community := topCommunity reads (shelf_highRatings reads) "Top rated" in
  fetchCriticallyLoved reads =
  community
  ++ map (catalogueItem "Top rated") (firstn (3 - List.length community) shows) /\
  List.length (fetchCriticallyLoved reads) = 3%nat.
Proof.
  intros Ht Hs. cbv zeta. unfold fetchCriticallyLoved. rewrite Ht.
  apply catalogueFallback_full; [apply topCommunity_length | exact Hs].
Qed.

Lemma critically_loved_shelf_full_witness :
  List.length (fetchCriticallyLoved sampleShelves) = 3%nat.
Proof.
  refine (proj2 (critically_loved_shelf_full sampleShelves _ _ _)).
  - vm_compute. reflexivity.
  - vm_compute. lia.
Defined.

Lemma percent_range (ratings : list RecommendRow.t) (p : Z) :
  RecommendStats.percent (computeRecommendStats ratings) = Some p ->
  (0 <= p <= 100)%Z.
Proof.
  unfold computeRecommendStats. cbn [RecommendStats.percent].
  destruct (0 <? _)%nat eqn:E; [|discriminate].
  apply Nat.ltb_lt in E. intros [= <-].
  apply Math_round_percent; [exact E | apply positive_le_total].
Qed.

Lemma communityItem_labelled (reads : ShelfReads) (fallbackLabel : string)
    (show : Show.t) :
  In fallbackLabel ["Popular"; "Trending"; "Top rated"]%string ->
  labelled (communityItem reads fallbackLabel show).
Proof.
  intros Hl. unfold labelled, communityItem.
  cbn [ShelfItem.recommendPercent ShelfItem.label].
  destruct (RecommendStats.percent _) as [p|] eqn:E; [|exact Hl].
  split; [|reflexivity]. now apply percent_range in E.
Qed.

Lemma topCommunity_labelled (reads : ShelfReads) (rows : option (list string))
    (fallbackLabel : string) (item : ShelfItem.t) :
  In fallbackLabel ["Popular"; "Trending"; "Top rated"]%string ->
  In item (topCommunity reads rows fallbackLabel) -> labelled item.
Proof.
  intros Hl. unfold topCommunity.
  destruct rows as [[|r rows]|]; try (intros []; fail).
  destruct (map fst _) as [|i rest]; [intros []|].
  destruct (shelf_showsIn reads (i :: rest)) as [[|s shows]|];
    try (intros []; fail).
  intros H. apply in_map_iff in H as (show & <- & _).
  now apply communityItem_labelled.
Qed.

Lemma catalogueFallback_labelled (items : list ShelfItem.t)
    (catalogue : option (list TMDBResult.t)) (label : string) (item : ShelfItem.t) :
  In label ["Popular"; "Trending"; "Top rated"]%string ->
  (forall i, In i items -> labelled i) ->
  In item (catalogueFallback items catalogue label) -> labelled item.
Proof.
  intros Hl Hitems. unfold catalogueFallback.
  destruct (List.length items <? 3)%nat; [|apply Hitems].
  destruct catalogue as [shows|]; [|apply Hitems].
  intros H. apply in_app_or in H as [H|H]; [now apply Hitems|].
  apply in_map_iff in H as (x & <- & _). exact Hl.
Qed.

Lemma latestItems_labelled (reads : ShelfReads) (rows : option (list string))
    (n : nat) (fallbackLabel : string) (item : ShelfItem.t) :
  In fallbackLabel ["Popular"; "Trending"; "Top rated"]%string ->
  In item (latestItems reads rows n fallbackLabel) -> labelled item.
Proof.
  intros Hl. unfold latestItems.
  destruct rows as [[|r rows]|]; try (intros []; fail).
  destruct (firstn n _) as [|i rest]; [intros []|].
  destruct (shelf_showsIn reads (i :: rest)) as [[|s shows]|];
    try (intros []; fail).
  intros H. apply in_map_iff in H as (show & <- & _).
  now apply communityItem_labelled.
Qed.

(** X30. On the three shelves, an item with a recommend rate has a rate
    between 0 and 100 and the label "<rate>% recommend"; an item without
    one is labelled "Popular", "Trending" or "Top rated". *)
Theorem shelf_labels (reads : ShelfReads) (item : ShelfItem.t) :
  In item (fetchPopularThisWeek reads) \/
  In item (fetchFriendsTrending reads) \/
  In item (fetchCriticallyLoved reads) ->
  labelled item.
Proof.
  intros [H|[H|H]].
  - unfold fetchPopularThisWeek in H. apply In_firstn in H.
    revert H. apply catalogueFallback_labelled; [simpl; tauto|].
    intros i. apply topCommunity_labelled. simpl; tauto.
  - unfold fetchFriendsTrending in H. apply In_firstn in H.
    set (items := match match shelf_follows reads with
                        | Some l => l
                        | None => []
                        end with
                  | [] => []
                  | _ => latestItems reads (shelf_followRatings reads) 3 "Trending"
                  end) in H.
    assert (Hitems : forall i, In i items -> labelled i).
    { intros i. unfold items.
      destruct (match shelf_follows reads with Some l => l | None => [] end);
        [intros []|].
      apply latestItems_labelled. simpl; tauto. }
    destruct (List.length items <? 3)%nat; [|now apply Hitems].
    apply in_app_or in H as [H|H]; [now apply Hitems|].
    revert H. apply latestItems_labelled. simpl; tauto.
  - unfold fetchCriticallyLoved in H. apply In_firstn in H.
    revert H. apply catalogueFallback_labelled; [simpl; tauto|].
    intros i. apply topCommunity_labelled. simpl; tauto.
Qed.

Lemma shelf_labels_witness :
  exists item,
    In item (fetchFriendsTrending sampleShelves) /\ labelled item.
Proof.
  eexists. split; [left; reflexivity|].
  apply (shelf_labels sampleShelves). right. left. left. reflexivity.
Defined.

(** ** Instances *)

Lemma computeRecommendStats_bounds_witness :
  RecommendStats.percent
    (computeRecommendStats
       [RecommendRow.mk (Some true); RecommendRow.mk None; RecommendRow.mk (Some true)])
  = Some 100%Z.
Proof.
  pose proof (computeRecommendStats_bounds
                [RecommendRow.mk (Some true); RecommendRow.mk None;
                 RecommendRow.mk (Some true)]) as H.
  cbv zeta in H. destruct H as (_ & _ & H & _).
  apply H; [vm_compute; lia | vm_compute; reflexivity].
Defined.

Lemma loadRecommendStats_following_witness :
  let stats :=
    loadRecommendStats
      (Some [StatsRow.mk "u1" (Some true); StatsRow.mk "u2" (Some false)]%string)
      (Some ["u2"; "u1"]%string) in
  ShowStats.following stats = ShowStats.overall stats.
Proof.
  pose proof (loadRecommendStats_following
                [StatsRow.mk "u1" (Some true); StatsRow.mk "u2" (Some false)]%string
                (Some ["u2"; "u1"]%string)) as H.
  cbv zeta in H |- *. destruct H as (_ & _ & H).
  apply H. intros r [<-|[<-|[]]]; cbn [StatsRow.user_id In]; tauto.
Defined.

Lemma formatTimeAgo_units_witness :
  formatTimeAgo 7300000 0 = "2h ago"%string.
Proof.
  pose proof (formatTimeAgo_units 7300000 0) as H.
  cbv zeta in H. destruct H as (_ & _ & H & _).
  apply H. lia.
Defined.

Lemma getForYouShows_sorted_witness :
  exists show,
    In show (getForYouShows sampleForYou sampleNow) /\
    0 <= ForYouShow.score show <= 10.
Proof.
  eexists. split; [vm_compute; left; reflexivity|].
  apply (proj2 (getForYouShows_sorted sampleForYou sampleNow)).
  vm_compute. left. reflexivity.
Defined.

Lemma fetchTopRated_result_witness :
  exists l,
    shelf_topRated sampleShelves = Some l /\ (List.length l <= 20)%nat.
Proof.
  eexists. split; [vm_compute; reflexivity|].
  refine (proj1 (proj2 (fetchTopRated_result (Some "key"%string)
    (Some (Some [ TMDBResult.mk (trending 201 "Heat" (Some "/h.jpg")) None;
                  TMDBResult.mk (trending 202 "Ran" (Some "/r.jpg")) None ]%string))
    (Some (Some [ TMDBResult.mk (trending 301 "The Wire" (Some "/w.jpg")) None ]%string)))
    _ _)).
  vm_compute. reflexivity.
Defined.
